(** * Adaptive frame sampling (src/api/adaptive_sampling.py)

    A shallow embedding of [AdaptiveFrameSampler] and of the records it
    works on, followed by the properties of the sampler that the
    specification states.

    Conventions of the embedding.
    - Python [int] is [Z]; [len(...)] is [Z.of_nat (length ...)].
    - Python [float] is a rational [Q] (IEEE rounding is abstracted away);
      where numpy can produce a not-a-number, the type is [pyfloat].
    - The sampler object is a record; every method is a computation in the
      monad [M], which threads the record and may raise.  A raised
      exception leaves the attributes assigned so far in place, as in
      Python.
    - Readings of [time.time()] and [time.perf_counter()] are inputs of a
      call ([Clock]).
    - OpenCV's pixel arithmetic (the luminance formula of [cvtColor] and the
      kernel of [GaussianBlur]) is a parameter ([CV2]); the shapes of the
      arrays, the failure cases of the OpenCV calls, [absdiff], [threshold]
      and the counting are modelled. *)

From Stdlib Require Import QArith.
From stdpp Require Import gmap strings list pretty.

Open Scope Z_scope.

(** ** Floats *)

(** A float that may be numpy's [nan]. *)
Inductive pyfloat : Type :=
| Fin (q : Q)
| NaN.

Definition Qlt_bool (a b : Q) : bool := negb (Qle_bool b a).

(** [a > b] and [a < b] on floats: every comparison with [nan] is false. *)
Definition float_gt (a : pyfloat) (b : Q) : bool :=
  match a with Fin x => Qlt_bool b x | NaN => false end.
Definition float_lt (a : pyfloat) (b : Q) : bool :=
  match a with Fin x => Qlt_bool x b | NaN => false end.

Definition float_add (a b : pyfloat) : pyfloat :=
  match a, b with
  | Fin x, Fin y => Fin (x + y)
  | _, _ => NaN
  end.

(** [np.mean]: the arithmetic mean; [nan] on an empty list. *)
Definition np_mean (l : list pyfloat) : pyfloat :=
  match l with
  | [] => NaN
  | _ =>
      match foldr float_add (Fin 0) l with
      | Fin s => Fin (s / inject_Z (Z.of_nat (length l)))
      | NaN => NaN
      end
  end.

(** [n / d] of a numpy integer by an int: a float, not-a-number (or an
    infinity, which the sampler treats the same way) when [d = 0]. *)
Definition np_true_divide (n d : Z) : pyfloat :=
  if d =? 0 then NaN else Fin (Qmake n (Z.to_pos d)).

(** ** SamplingReason *)

Inductive SamplingReason : Type :=
| MOTION_SPIKE
| ID_SWITCH
| CROWD_CHANGE
| LOCK_ON_ACTIVE
| USER_SEEK
| STABLE_SCENE
| INITIALIZATION
| DEFAULT.

Global Instance SamplingReason_eq_dec : EqDecision SamplingReason.
Proof. solve_decision. Defined.

Definition value (r : SamplingReason) : string :=
  match r with
  | MOTION_SPIKE => "motion_spike"
  | ID_SWITCH => "id_switch"
  | CROWD_CHANGE => "crowd_change"
  | LOCK_ON_ACTIVE => "lock_on_active"
  | USER_SEEK => "user_seek"
  | STABLE_SCENE => "stable_scene"
  | INITIALIZATION => "initialization"
  | DEFAULT => "default"
  end.

(** ** SamplingMetrics *)

Record SamplingMetrics : Type := {
  frames_processed : Z;
  frames_skipped : Z;
  total_frames : Z;
  current_interval : Z;
  avg_motion_score : pyfloat;
  detection_count : Z;
  id_switches : Z;
  lock_events : Z;
  processing_time_ms : Q;
  last_reason : SamplingReason
}.

(** [SamplingMetrics()] *)
Definition SamplingMetrics_new : SamplingMetrics :=
  {| frames_processed := 0; frames_skipped := 0; total_frames := 0;
     current_interval := 2; avg_motion_score := Fin 0; detection_count := 0;
     id_switches := 0; lock_events := 0; processing_time_ms := 0%Q;
     last_reason := DEFAULT |}.

Definition processing_ratio (m : SamplingMetrics) : Q :=
  if total_frames m =? 0 then 0%Q
  else (inject_Z (frames_processed m) / inject_Z (total_frames m) * 100)%Q.

Definition efficiency_score (m : SamplingMetrics) : Q :=
  if frames_processed m =? 0 then 0%Q
  else (inject_Z (detection_count m) / inject_Z (frames_processed m))%Q.

Definition set_frames_processed v (r : SamplingMetrics) : SamplingMetrics :=
  {| frames_processed := v; frames_skipped := frames_skipped r;
     total_frames := total_frames r; current_interval := current_interval r;
     avg_motion_score := avg_motion_score r;
     detection_count := detection_count r; id_switches := id_switches r;
     lock_events := lock_events r;
     processing_time_ms := processing_time_ms r;
     last_reason := last_reason r |}.
Definition set_frames_skipped v (r : SamplingMetrics) : SamplingMetrics :=
  {| frames_processed := frames_processed r; frames_skipped := v;
     total_frames := total_frames r; current_interval := current_interval r;
     avg_motion_score := avg_motion_score r;
     detection_count := detection_count r; id_switches := id_switches r;
     lock_events := lock_events r;
     processing_time_ms := processing_time_ms r;
     last_reason := last_reason r |}.
Definition set_total_frames v (r : SamplingMetrics) : SamplingMetrics :=
  {| frames_processed := frames_processed r;
     frames_skipped := frames_skipped r; total_frames := v;
     current_interval := current_interval r;
     avg_motion_score := avg_motion_score r;
     detection_count := detection_count r; id_switches := id_switches r;
     lock_events := lock_events r;
     processing_time_ms := processing_time_ms r;
     last_reason := last_reason r |}.
Definition set_current_interval v (r : SamplingMetrics) : SamplingMetrics :=
  {| frames_processed := frames_processed r;
     frames_skipped := frames_skipped r; total_frames := total_frames r;
     current_interval := v; avg_motion_score := avg_motion_score r;
     detection_count := detection_count r; id_switches := id_switches r;
     lock_events := lock_events r;
     processing_time_ms := processing_time_ms r;
     last_reason := last_reason r |}.
Definition set_avg_motion_score v (r : SamplingMetrics) : SamplingMetrics :=
  {| frames_processed := frames_processed r;
     frames_skipped := frames_skipped r; total_frames := total_frames r;
     current_interval := current_interval r; avg_motion_score := v;
     detection_count := detection_count r; id_switches := id_switches r;
     lock_events := lock_events r;
     processing_time_ms := processing_time_ms r;
     last_reason := last_reason r |}.
Definition set_detection_count v (r : SamplingMetrics) : SamplingMetrics :=
  {| frames_processed := frames_processed r;
     frames_skipped := frames_skipped r; total_frames := total_frames r;
     current_interval := current_interval r;
     avg_motion_score := avg_motion_score r; detection_count := v;
     id_switches := id_switches r; lock_events := lock_events r;
     processing_time_ms := processing_time_ms r;
     last_reason := last_reason r |}.
Definition set_id_switches v (r : SamplingMetrics) : SamplingMetrics :=
  {| frames_processed := frames_processed r;
     frames_skipped := frames_skipped r; total_frames := total_frames r;
     current_interval := current_interval r;
     avg_motion_score := avg_motion_score r;
     detection_count := detection_count r; id_switches := v;
     lock_events := lock_events r;
     processing_time_ms := processing_time_ms r;
     last_reason := last_reason r |}.
Definition set_lock_events v (r : SamplingMetrics) : SamplingMetrics :=
  {| frames_processed := frames_processed r;
     frames_skipped := frames_skipped r; total_frames := total_frames r;
     current_interval := current_interval r;
     avg_motion_score := avg_motion_score r;
     detection_count := detection_count r; id_switches := id_switches r;
     lock_events := v; processing_time_ms := processing_time_ms r;
     last_reason := last_reason r |}.
Definition set_processing_time_ms v (r : SamplingMetrics) : SamplingMetrics :=
  {| frames_processed := frames_processed r;
     frames_skipped := frames_skipped r; total_frames := total_frames r;
     current_interval := current_interval r;
     avg_motion_score := avg_motion_score r;
     detection_count := detection_count r; id_switches := id_switches r;
     lock_events := lock_events r; processing_time_ms := v;
     last_reason := last_reason r |}.
Definition set_last_reason v (r : SamplingMetrics) : SamplingMetrics :=
  {| frames_processed := frames_processed r;
     frames_skipped := frames_skipped r; total_frames := total_frames r;
     current_interval := current_interval r;
     avg_motion_score := avg_motion_score r;
     detection_count := detection_count r; id_switches := id_switches r;
     lock_events := lock_events r;
     processing_time_ms := processing_time_ms r; last_reason := v |}.

(** ** AdaptiveSamplingConfig *)

Record AdaptiveSamplingConfig : Type := {
  min_interval : Z;
  max_interval : Z;
  default_interval : Z;
  motion_threshold_high : Q;
  motion_threshold_low : Q;
  motion_history_size : Z;
  detection_change_threshold : Q;
  id_switch_penalty : Z;
  lock_on_boost_frames : Z;
  seek_event_window : Q;
  stability_window : Z;
  enable_motion_detection : bool;
  enable_id_tracking : bool;
  enable_crowd_monitoring : bool
}.

(** [AdaptiveSamplingConfig()] *)
Definition AdaptiveSamplingConfig_new : AdaptiveSamplingConfig :=
  {| min_interval := 1; max_interval := 8; default_interval := 2;
     motion_threshold_high := 0.15%Q; motion_threshold_low := 0.05%Q;
     motion_history_size := 10;
     detection_change_threshold := 0.3%Q; id_switch_penalty := 3;
     lock_on_boost_frames := 15;
     seek_event_window := 2%Q; stability_window := 30;
     enable_motion_detection := true; enable_id_tracking := true;
     enable_crowd_monitoring := true |}.

(** ** Arrays and the OpenCV calls *)

(** A two-dimensional numpy array: its shape and its element at a row and
    a column (read only inside the shape). *)
Record ndarray (A : Type) : Type := {
  shape0 : nat;
  shape1 : nat;
  at_ : nat -> nat -> A
}.
Arguments shape0 {A} _.
Arguments shape1 {A} _.
Arguments at_ {A} _ _ _.

(** A BGR frame: an array of (blue, green, red) bytes. *)
Definition Frame : Type := ndarray (Z * Z * Z).
Definition Gray : Type := ndarray Z.

(** The pixel arithmetic of OpenCV that the sampler relies on but does not
    define: the luminance of a BGR pixel and the value of the 21x21
    Gaussian-smoothed image at a position. *)
Class CV2 : Type := {
  bgr2gray : Z * Z * Z -> Z;
  gaussian21 : Gray -> nat -> nat -> Z
}.

Inductive exn : Type :=
| cv2_error (msg : string).

Inductive outcome (A : Type) : Type :=
| Ok (a : A)
| Raise (e : exn).
Arguments Ok {A} a.
Arguments Raise {A} e.

Definition ndarray_empty {A} (m : ndarray A) : bool :=
  (shape0 m =? 0)%nat || (shape1 m =? 0)%nat.

Definition same_shape {A B} (a : ndarray A) (b : ndarray B) : bool :=
  (shape0 a =? shape0 b)%nat && (shape1 a =? shape1 b)%nat.

Section OpenCV.
Context {cv : CV2}.

(** [cv2.cvtColor(frame, cv2.COLOR_BGR2GRAY)]: OpenCV rejects an empty
    source image. *)
Definition cvtColor_BGR2GRAY (frame : Frame) : outcome Gray :=
  if ndarray_empty frame then Raise (cv2_error "cvtColor: !_src.empty()")
  else Ok {| shape0 := shape0 frame; shape1 := shape1 frame;
             at_ := fun i j => bgr2gray (at_ frame i j) |}.

(** [cv2.GaussianBlur(gray, (21, 21), 0)] *)
Definition GaussianBlur (gray : Gray) : Gray :=
  {| shape0 := shape0 gray; shape1 := shape1 gray;
     at_ := gaussian21 gray |}.
End OpenCV.

(** A one-by-one array, which OpenCV's arithmetic takes for a scalar. *)
Definition single_pixel {A} (m : ndarray A) : bool :=
  (shape0 m =? 1)%nat && (shape1 m =? 1)%nat.

(** [cv2.absdiff(a, b)]: the arrays must have the same size, unless one of
    them is a single pixel, which is then broadcast as a scalar. *)
Definition absdiff (a b : Gray) : outcome Gray :=
  if same_shape a b then
    Ok {| shape0 := shape0 b; shape1 := shape1 b;
          at_ := fun i j => Z.abs (at_ a i j - at_ b i j) |}
  else if single_pixel a then
    Ok {| shape0 := shape0 b; shape1 := shape1 b;
          at_ := fun i j => Z.abs (at_ a 0%nat 0%nat - at_ b i j) |}
  else if single_pixel b then
    Ok {| shape0 := shape0 a; shape1 := shape1 a;
          at_ := fun i j => Z.abs (at_ a i j - at_ b 0%nat 0%nat) |}
  else Raise (cv2_error "absdiff: sizes of input arguments do not match").

(** [cv2.threshold(src, thresh, maxval, cv2.THRESH_BINARY)[1]] *)
Definition threshold (src : Gray) (thresh maxval : Z) : Gray :=
  {| shape0 := shape0 src; shape1 := shape1 src;
     at_ := fun i j => if thresh <? at_ src i j then maxval else 0 |}.

Definition indices (m : Gray) : list (nat * nat) :=
  list_prod (seq 0 (shape0 m)) (seq 0 (shape1 m)).

(** [np.sum(m > 0)] *)
Definition np_sum_positive (m : Gray) : Z :=
  Z.of_nat (length (filter (fun ij => 0 < at_ m ij.1 ij.2) (indices m))).

(** ** Detections and telemetry events *)

(** A detection dict; only its optional ['id'] entry is read. *)
Record Detection : Type := {
  det_id : option Z;
  det_score : Q
}.

Module Event.
(** The dict appended by [_record_telemetry]. *)
Record t : Type := {
  timestamp : Q;
  frame_idx : Z;
  reason : string;
  interval : Z;
  processed : bool;
  motion_score : pyfloat;
  detection_count : Z;
  processing_ratio : Q
}.
End Event.

(** ** AdaptiveFrameSampler *)

Record AdaptiveFrameSampler : Type := {
  config : AdaptiveSamplingConfig;
  metrics : SamplingMetrics;
  _current_interval : Z;
  _frame_count : Z;
  _last_processed_frame : Z;
  _prev_frame_gray : option Gray;
  _motion_history : list pyfloat;
  _prev_detection_count : Z;
  _prev_track_ids : gset Z;
  _stability_counter : Z;
  _lock_on_boost_remaining : Z;
  _id_switch_boost_remaining : Z;
  _last_seek_time : Q;
  _telemetry_events : list Event.t;
  _max_telemetry_events : Z
}.

Definition set_config v (r : AdaptiveFrameSampler) : AdaptiveFrameSampler :=
  {| config := v; metrics := metrics r;
     _current_interval := _current_interval r;
     _frame_count := _frame_count r;
     _last_processed_frame := _last_processed_frame r;
     _prev_frame_gray := _prev_frame_gray r;
     _motion_history := _motion_history r;
     _prev_detection_count := _prev_detection_count r;
     _prev_track_ids := _prev_track_ids r;
     _stability_counter := _stability_counter r;
     _lock_on_boost_remaining := _lock_on_boost_remaining r;
     _id_switch_boost_remaining := _id_switch_boost_remaining r;
     _last_seek_time := _last_seek_time r;
     _telemetry_events := _telemetry_events r;
     _max_telemetry_events := _max_telemetry_events r |}.
Definition set_metrics v (r : AdaptiveFrameSampler) : AdaptiveFrameSampler :=
  {| config := config r; metrics := v;
     _current_interval := _current_interval r;
     _frame_count := _frame_count r;
     _last_processed_frame := _last_processed_frame r;
     _prev_frame_gray := _prev_frame_gray r;
     _motion_history := _motion_history r;
     _prev_detection_count := _prev_detection_count r;
     _prev_track_ids := _prev_track_ids r;
     _stability_counter := _stability_counter r;
     _lock_on_boost_remaining := _lock_on_boost_remaining r;
     _id_switch_boost_remaining := _id_switch_boost_remaining r;
     _last_seek_time := _last_seek_time r;
     _telemetry_events := _telemetry_events r;
     _max_telemetry_events := _max_telemetry_events r |}.
Definition set__current_interval v (r : AdaptiveFrameSampler) : AdaptiveFrameSampler :=
  {| config := config r; metrics := metrics r; _current_interval := v;
     _frame_count := _frame_count r;
     _last_processed_frame := _last_processed_frame r;
     _prev_frame_gray := _prev_frame_gray r;
     _motion_history := _motion_history r;
     _prev_detection_count := _prev_detection_count r;
     _prev_track_ids := _prev_track_ids r;
     _stability_counter := _stability_counter r;
     _lock_on_boost_remaining := _lock_on_boost_remaining r;
     _id_switch_boost_remaining := _id_switch_boost_remaining r;
     _last_seek_time := _last_seek_time r;
     _telemetry_events := _telemetry_events r;
     _max_telemetry_events := _max_telemetry_events r |}.
Definition set__frame_count v (r : AdaptiveFrameSampler) : AdaptiveFrameSampler :=
  {| config := config r; metrics := metrics r;
     _current_interval := _current_interval r; _frame_count := v;
     _last_processed_frame := _last_processed_frame r;
     _prev_frame_gray := _prev_frame_gray r;
     _motion_history := _motion_history r;
     _prev_detection_count := _prev_detection_count r;
     _prev_track_ids := _prev_track_ids r;
     _stability_counter := _stability_counter r;
     _lock_on_boost_remaining := _lock_on_boost_remaining r;
     _id_switch_boost_remaining := _id_switch_boost_remaining r;
     _last_seek_time := _last_seek_time r;
     _telemetry_events := _telemetry_events r;
     _max_telemetry_events := _max_telemetry_events r |}.
Definition set__last_processed_frame v (r : AdaptiveFrameSampler) : AdaptiveFrameSampler :=
  {| config := config r; metrics := metrics r;
     _current_interval := _current_interval r;
     _frame_count := _frame_count r; _last_processed_frame := v;
     _prev_frame_gray := _prev_frame_gray r;
     _motion_history := _motion_history r;
     _prev_detection_count := _prev_detection_count r;
     _prev_track_ids := _prev_track_ids r;
     _stability_counter := _stability_counter r;
     _lock_on_boost_remaining := _lock_on_boost_remaining r;
     _id_switch_boost_remaining := _id_switch_boost_remaining r;
     _last_seek_time := _last_seek_time r;
     _telemetry_events := _telemetry_events r;
     _max_telemetry_events := _max_telemetry_events r |}.
Definition set__prev_frame_gray v (r : AdaptiveFrameSampler) : AdaptiveFrameSampler :=
  {| config := config r; metrics := metrics r;
     _current_interval := _current_interval r;
     _frame_count := _frame_count r;
     _last_processed_frame := _last_processed_frame r;
     _prev_frame_gray := v; _motion_history := _motion_history r;
     _prev_detection_count := _prev_detection_count r;
     _prev_track_ids := _prev_track_ids r;
     _stability_counter := _stability_counter r;
     _lock_on_boost_remaining := _lock_on_boost_remaining r;
     _id_switch_boost_remaining := _id_switch_boost_remaining r;
     _last_seek_time := _last_seek_time r;
     _telemetry_events := _telemetry_events r;
     _max_telemetry_events := _max_telemetry_events r |}.
Definition set__motion_history v (r : AdaptiveFrameSampler) : AdaptiveFrameSampler :=
  {| config := config r; metrics := metrics r;
     _current_interval := _current_interval r;
     _frame_count := _frame_count r;
     _last_processed_frame := _last_processed_frame r;
     _prev_frame_gray := _prev_frame_gray r; _motion_history := v;
     _prev_detection_count := _prev_detection_count r;
     _prev_track_ids := _prev_track_ids r;
     _stability_counter := _stability_counter r;
     _lock_on_boost_remaining := _lock_on_boost_remaining r;
     _id_switch_boost_remaining := _id_switch_boost_remaining r;
     _last_seek_time := _last_seek_time r;
     _telemetry_events := _telemetry_events r;
     _max_telemetry_events := _max_telemetry_events r |}.
Definition set__prev_detection_count v (r : AdaptiveFrameSampler) : AdaptiveFrameSampler :=
  {| config := config r; metrics := metrics r;
     _current_interval := _current_interval r;
     _frame_count := _frame_count r;
     _last_processed_frame := _last_processed_frame r;
     _prev_frame_gray := _prev_frame_gray r;
     _motion_history := _motion_history r; _prev_detection_count := v;
     _prev_track_ids := _prev_track_ids r;
     _stability_counter := _stability_counter r;
     _lock_on_boost_remaining := _lock_on_boost_remaining r;
     _id_switch_boost_remaining := _id_switch_boost_remaining r;
     _last_seek_time := _last_seek_time r;
     _telemetry_events := _telemetry_events r;
     _max_telemetry_events := _max_telemetry_events r |}.
Definition set__prev_track_ids v (r : AdaptiveFrameSampler) : AdaptiveFrameSampler :=
  {| config := config r; metrics := metrics r;
     _current_interval := _current_interval r;
     _frame_count := _frame_count r;
     _last_processed_frame := _last_processed_frame r;
     _prev_frame_gray := _prev_frame_gray r;
     _motion_history := _motion_history r;
     _prev_detection_count := _prev_detection_count r; _prev_track_ids := v;
     _stability_counter := _stability_counter r;
     _lock_on_boost_remaining := _lock_on_boost_remaining r;
     _id_switch_boost_remaining := _id_switch_boost_remaining r;
     _last_seek_time := _last_seek_time r;
     _telemetry_events := _telemetry_events r;
     _max_telemetry_events := _max_telemetry_events r |}.
Definition set__stability_counter v (r : AdaptiveFrameSampler) : AdaptiveFrameSampler :=
  {| config := config r; metrics := metrics r;
     _current_interval := _current_interval r;
     _frame_count := _frame_count r;
     _last_processed_frame := _last_processed_frame r;
     _prev_frame_gray := _prev_frame_gray r;
     _motion_history := _motion_history r;
     _prev_detection_count := _prev_detection_count r;
     _prev_track_ids := _prev_track_ids r; _stability_counter := v;
     _lock_on_boost_remaining := _lock_on_boost_remaining r;
     _id_switch_boost_remaining := _id_switch_boost_remaining r;
     _last_seek_time := _last_seek_time r;
     _telemetry_events := _telemetry_events r;
     _max_telemetry_events := _max_telemetry_events r |}.
Definition set__lock_on_boost_remaining v (r : AdaptiveFrameSampler) : AdaptiveFrameSampler :=
  {| config := config r; metrics := metrics r;
     _current_interval := _current_interval r;
     _frame_count := _frame_count r;
     _last_processed_frame := _last_processed_frame r;
     _prev_frame_gray := _prev_frame_gray r;
     _motion_history := _motion_history r;
     _prev_detection_count := _prev_detection_count r;
     _prev_track_ids := _prev_track_ids r;
     _stability_counter := _stability_counter r;
     _lock_on_boost_remaining := v;
     _id_switch_boost_remaining := _id_switch_boost_remaining r;
     _last_seek_time := _last_seek_time r;
     _telemetry_events := _telemetry_events r;
     _max_telemetry_events := _max_telemetry_events r |}.
Definition set__id_switch_boost_remaining v (r : AdaptiveFrameSampler) : AdaptiveFrameSampler :=
  {| config := config r; metrics := metrics r;
     _current_interval := _current_interval r;
     _frame_count := _frame_count r;
     _last_processed_frame := _last_processed_frame r;
     _prev_frame_gray := _prev_frame_gray r;
     _motion_history := _motion_history r;
     _prev_detection_count := _prev_detection_count r;
     _prev_track_ids := _prev_track_ids r;
     _stability_counter := _stability_counter r;
     _lock_on_boost_remaining := _lock_on_boost_remaining r;
     _id_switch_boost_remaining := v; _last_seek_time := _last_seek_time r;
     _telemetry_events := _telemetry_events r;
     _max_telemetry_events := _max_telemetry_events r |}.
Definition set__last_seek_time v (r : AdaptiveFrameSampler) : AdaptiveFrameSampler :=
  {| config := config r; metrics := metrics r;
     _current_interval := _current_interval r;
     _frame_count := _frame_count r;
     _last_processed_frame := _last_processed_frame r;
     _prev_frame_gray := _prev_frame_gray r;
     _motion_history := _motion_history r;
     _prev_detection_count := _prev_detection_count r;
     _prev_track_ids := _prev_track_ids r;
     _stability_counter := _stability_counter r;
     _lock_on_boost_remaining := _lock_on_boost_remaining r;
     _id_switch_boost_remaining := _id_switch_boost_remaining r;
     _last_seek_time := v; _telemetry_events := _telemetry_events r;
     _max_telemetry_events := _max_telemetry_events r |}.
Definition set__telemetry_events v (r : AdaptiveFrameSampler) : AdaptiveFrameSampler :=
  {| config := config r; metrics := metrics r;
     _current_interval := _current_interval r;
     _frame_count := _frame_count r;
     _last_processed_frame := _last_processed_frame r;
     _prev_frame_gray := _prev_frame_gray r;
     _motion_history := _motion_history r;
     _prev_detection_count := _prev_detection_count r;
     _prev_track_ids := _prev_track_ids r;
     _stability_counter := _stability_counter r;
     _lock_on_boost_remaining := _lock_on_boost_remaining r;
     _id_switch_boost_remaining := _id_switch_boost_remaining r;
     _last_seek_time := _last_seek_time r; _telemetry_events := v;
     _max_telemetry_events := _max_telemetry_events r |}.
Definition set__max_telemetry_events v (r : AdaptiveFrameSampler) : AdaptiveFrameSampler :=
  {| config := config r; metrics := metrics r;
     _current_interval := _current_interval r;
     _frame_count := _frame_count r;
     _last_processed_frame := _last_processed_frame r;
     _prev_frame_gray := _prev_frame_gray r;
     _motion_history := _motion_history r;
     _prev_detection_count := _prev_detection_count r;
     _prev_track_ids := _prev_track_ids r;
     _stability_counter := _stability_counter r;
     _lock_on_boost_remaining := _lock_on_boost_remaining r;
     _id_switch_boost_remaining := _id_switch_boost_remaining r;
     _last_seek_time := _last_seek_time r;
     _telemetry_events := _telemetry_events r; _max_telemetry_events := v |}.

(** [AdaptiveFrameSampler.__init__] *)
Definition __init__ (cfg : option AdaptiveSamplingConfig) : AdaptiveFrameSampler :=
  let config := default AdaptiveSamplingConfig_new cfg in
  {| config := config;
     metrics := SamplingMetrics_new;
     _current_interval := default_interval config;
     _frame_count := 0;
     _last_processed_frame := -1;
     _prev_frame_gray := None;
     _motion_history := [];
     _prev_detection_count := 0;
     _prev_track_ids := ∅;
     _stability_counter := 0;
     _lock_on_boost_remaining := 0;
     _id_switch_boost_remaining := 0;
     _last_seek_time := 0%Q;
     _telemetry_events := [];
     _max_telemetry_events := 1000 |}.

(** ** Methods as computations on the sampler *)

(** A method body: it reads and assigns the attributes of [self] and
    either returns a value or raises. *)
Definition M (A : Type) : Type :=
  AdaptiveFrameSampler -> AdaptiveFrameSampler * outcome A.

Global Instance M_ret : MRet M := fun A a self => (self, Ok a).

Global Instance M_bind : MBind M := fun A B f m self =>
  match m self with
  | (self', Ok a) => f a self'
  | (self', Raise e) => (self', Raise e)
  end.

(** [self.attr] *)
Definition get {A} (attr : AdaptiveFrameSampler -> A) : M A :=
  fun self => (self, Ok (attr self)).

(** [self.attr = ...] *)
Definition assign (f : AdaptiveFrameSampler -> AdaptiveFrameSampler) : M unit :=
  fun self => (f self, Ok tt).

(** [self.metrics.attr = ...] *)
Definition assign_metrics (f : SamplingMetrics -> SamplingMetrics) : M unit :=
  assign (fun self => set_metrics (f (metrics self)) self).

(** The result of a call into OpenCV. *)
Definition call {A} (o : outcome A) : M A := fun self => (self, o).

(** The clock readings of one [should_process_frame] call, in the order
    they are taken: [time.time()] twice, [time.perf_counter()] at the start
    and at the end. *)
Record Clock : Type := {
  time_0 : Q;
  time_1 : Q;
  perf_counter_0 : Q;
  perf_counter_1 : Q
}.

Definition len {A} (l : list A) : Z := Z.of_nat (length l).

(** [AdaptiveFrameSampler._record_telemetry]; [now] is its reading of
    [time.time()]. *)
Definition _record_telemetry (now : Q) (frame_idx : Z)
    (reason : SamplingReason) (interval : Z) (processed : bool) : M unit :=
  m ← get metrics;
  let event :=
    {| Event.timestamp := now;
       Event.frame_idx := frame_idx;
       Event.reason := value reason;
       Event.interval := interval;
       Event.processed := processed;
       Event.motion_score := avg_motion_score m;
       Event.detection_count := detection_count m;
       Event.processing_ratio := processing_ratio m |} in
  assign (fun self =>
    set__telemetry_events (_telemetry_events self ++ [event]) self);;
  events ← get _telemetry_events;
  cap ← get _max_telemetry_events;
  if cap <? len events then
    assign (fun self =>
      set__telemetry_events (tail (_telemetry_events self)) self)
  else mret tt.

Section Sampler.
Context {cv : CV2}.

(** [AdaptiveFrameSampler._calculate_motion_score] *)
Definition _calculate_motion_score (frame : Frame) : M pyfloat :=
  gray ← call (cvtColor_BGR2GRAY frame);
  let gray := GaussianBlur gray in
  prev ← get _prev_frame_gray;
  motion_score ←
    match prev with
    | Some prev_frame_gray =>
        diff ← call (absdiff prev_frame_gray gray);
        let thresh := threshold diff 25 255 in
        mret (np_true_divide (np_sum_positive thresh)
                (Z.of_nat (shape0 thresh) * Z.of_nat (shape1 thresh)))
    | None => mret (Fin 0)
    end;
  assign (set__prev_frame_gray (Some gray));;
  mret motion_score.

(** The motion stage of [_calculate_adaptive_interval]. *)
Definition motion_stage (frame : Frame) (interval : Z)
    (reason : SamplingReason) : M (Z * SamplingReason) :=
  cfg ← get config;
  if enable_motion_detection cfg then
    motion_score ← _calculate_motion_score frame;
    assign (fun self =>
      set__motion_history (_motion_history self ++ [motion_score]) self);;
    history ← get _motion_history;
    (if motion_history_size cfg <? len history then
       assign (fun self =>
         set__motion_history (tail (_motion_history self)) self)
     else mret tt);;
    history ← get _motion_history;
    let avg_motion := np_mean history in
    assign_metrics (set_avg_motion_score avg_motion);;
    if float_gt avg_motion (motion_threshold_high cfg) then
      assign (set__stability_counter 0);;
      mret (min_interval cfg, MOTION_SPIKE)
    else if float_lt avg_motion (motion_threshold_low cfg) then
      assign (fun self =>
        set__stability_counter (_stability_counter self + 1) self);;
      mret (interval, reason)
    else
      assign (set__stability_counter 0);;
      mret (interval, reason)
  else mret (interval, reason).

(** The crowd-monitoring stage. *)
Definition crowd_stage (detections : option (list Detection))
    (interval : Z) (reason : SamplingReason) : M (Z * SamplingReason) :=
  cfg ← get config;
  match detections with
  | Some detections =>
      if enable_crowd_monitoring cfg then
        let current_count := len detections in
        prev ← get _prev_detection_count;
        r ← (if 0 <? prev then
               let count_change :=
                 (inject_Z (Z.abs (current_count - prev)) / inject_Z prev)%Q in
               if Qlt_bool (detection_change_threshold cfg) count_change then
                 assign (set__stability_counter 0);;
                 mret (Z.min interval (min_interval cfg + 1), CROWD_CHANGE)
               else mret (interval, reason)
             else mret (interval, reason));
        assign (set__prev_detection_count current_count);;
        mret r
      else mret (interval, reason)
  | None => mret (interval, reason)
  end.

(** [{det.get('id', -1) for det in detections if 'id' in det}] *)
Definition track_ids (detections : list Detection) : gset Z :=
  list_to_set (omap det_id detections).

(** The identity-switch stage. *)
Definition id_stage (detections : option (list Detection))
    (interval : Z) (reason : SamplingReason) : M (Z * SamplingReason) :=
  cfg ← get config;
  match detections with
  | Some detections =>
      if enable_id_tracking cfg then
        let current_ids := track_ids detections in
        prev ← get _prev_track_ids;
        r ← (if bool_decide (prev ≠ ∅) && bool_decide (current_ids ≠ prev) then
               let new_ids := current_ids ∖ prev in
               let lost_ids := prev ∖ current_ids in
               if bool_decide (new_ids ≠ ∅) || bool_decide (lost_ids ≠ ∅) then
                 assign (set__id_switch_boost_remaining (id_switch_penalty cfg));;
                 assign_metrics (fun m => set_id_switches (id_switches m + 1) m);;
                 assign (set__stability_counter 0);;
                 mret (min_interval cfg, ID_SWITCH)
               else mret (interval, reason)
             else mret (interval, reason));
        assign (set__prev_track_ids current_ids);;
        mret r
      else mret (interval, reason)
  | None => mret (interval, reason)
  end.

(** The stability reduction and the final clamp. *)
Definition stability_stage (interval : Z) (reason : SamplingReason)
    : M (Z * SamplingReason) :=
  cfg ← get config;
  stability ← get _stability_counter;
  let '(interval, reason) :=
    if stability_window cfg <=? stability then
      if bool_decide (reason = DEFAULT) then
        (Z.min (max_interval cfg) (interval + 1), STABLE_SCENE)
      else (interval, reason)
    else (interval, reason) in
  let interval :=
    Z.max (min_interval cfg) (Z.min (max_interval cfg) interval) in
  mret (interval, reason).

(** [AdaptiveFrameSampler._calculate_adaptive_interval] *)
Definition _calculate_adaptive_interval (frame : Frame)
    (detections : option (list Detection)) : M (Z * SamplingReason) :=
  cfg ← get config;
  let interval := default_interval cfg in
  let reason := DEFAULT in
  '(interval, reason) ← motion_stage frame interval reason;
  '(interval, reason) ← crowd_stage detections interval reason;
  '(interval, reason) ← id_stage detections interval reason;
  stability_stage interval reason.

(** The label returned with a decision. *)
Definition reason_str (reason : SamplingReason) (interval : Z) : string :=
  value reason +:+ " (interval=" +:+ pretty interval +:+ ")".

(** [AdaptiveFrameSampler.should_process_frame] *)
Definition should_process_frame (clk : Clock) (frame_idx : Z) (frame : Frame)
    (detections : option (list Detection))
    (lock_on_active seek_event : bool) : M (bool * string) :=
  assign (set__frame_count frame_idx);;
  assign_metrics (fun m =>
    set_total_frames (Z.max (total_frames m) (frame_idx + 1)) m);;
  if seek_event then
    assign (set__last_seek_time (time_0 clk));;
    _record_telemetry (time_1 clk) frame_idx USER_SEEK 1 true;;
    assign_metrics (set_last_reason USER_SEEK);;
    mret (true, "User seek event")
  else
    cfg ← get config;
    last_seek_time ← get _last_seek_time;
    '(interval, reason) ←
      (if Qlt_bool (time_0 clk - last_seek_time) (seek_event_window cfg) then
         mret (1, USER_SEEK)
       else if lock_on_active then
         assign (set__lock_on_boost_remaining (lock_on_boost_frames cfg));;
         assign_metrics (fun m => set_lock_events (lock_events m + 1) m);;
         mret (1, LOCK_ON_ACTIVE)
       else
         boost ← get _id_switch_boost_remaining;
         if 0 <? boost then
           assign (set__id_switch_boost_remaining (boost - 1));;
           mret (1, ID_SWITCH)
         else _calculate_adaptive_interval frame detections);
    assign (set__current_interval interval);;
    assign_metrics (set_current_interval interval);;
    assign_metrics (set_last_reason reason);;
    last ← get _last_processed_frame;
    let should_process := interval <=? frame_idx - last in
    (if should_process then
       assign (set__last_processed_frame frame_idx);;
       assign_metrics (fun m =>
         set_frames_processed (frames_processed m + 1) m);;
       match detections with
       | Some detections =>
           assign_metrics (fun m =>
             set_detection_count (detection_count m + len detections) m)
       | None => mret tt
       end
     else
       assign_metrics (fun m =>
         set_frames_skipped (frames_skipped m + 1) m));;
    assign_metrics (set_processing_time_ms
      ((perf_counter_1 clk - perf_counter_0 clk) * 1000)%Q);;
    _record_telemetry (time_1 clk) frame_idx reason interval should_process;;
    mret (should_process, reason_str reason interval).
End Sampler.

(** [AdaptiveFrameSampler.reset] *)
Definition reset : M unit :=
  assign (set_metrics SamplingMetrics_new);;
  cfg ← get config;
  assign (set__current_interval (default_interval cfg));;
  assign (set__frame_count 0);;
  assign (set__last_processed_frame (-1));;
  assign (set__prev_frame_gray None);;
  assign (set__motion_history []);;
  assign (set__prev_detection_count 0);;
  assign (set__prev_track_ids ∅);;
  assign (set__stability_counter 0);;
  assign (set__lock_on_boost_remaining 0);;
  assign (set__id_switch_boost_remaining 0);;
  assign (set__last_seek_time 0%Q);;
  assign (set__telemetry_events []).

(** One keyword argument of [update_config] or [create_adaptive_sampler]:
    a known attribute with its new value, or a name the config lacks. *)
Inductive kwarg : Type :=
| kw_min_interval (v : Z)
| kw_max_interval (v : Z)
| kw_default_interval (v : Z)
| kw_motion_threshold_high (v : Q)
| kw_motion_threshold_low (v : Q)
| kw_motion_history_size (v : Z)
| kw_detection_change_threshold (v : Q)
| kw_id_switch_penalty (v : Z)
| kw_lock_on_boost_frames (v : Z)
| kw_seek_event_window (v : Q)
| kw_stability_window (v : Z)
| kw_enable_motion_detection (v : bool)
| kw_enable_id_tracking (v : bool)
| kw_enable_crowd_monitoring (v : bool)
| kw_unknown (key : string).

(** [setattr(config, key, value)] when [hasattr(config, key)]; an unknown
    key is skipped. *)
Definition setattr (cfg : AdaptiveSamplingConfig) (kw : kwarg) : AdaptiveSamplingConfig :=
  match kw with
  | kw_min_interval v =>
      {| min_interval := v; max_interval := max_interval cfg;
         default_interval := default_interval cfg;
         motion_threshold_high := motion_threshold_high cfg;
         motion_threshold_low := motion_threshold_low cfg;
         motion_history_size := motion_history_size cfg;
         detection_change_threshold := detection_change_threshold cfg;
         id_switch_penalty := id_switch_penalty cfg;
         lock_on_boost_frames := lock_on_boost_frames cfg;
         seek_event_window := seek_event_window cfg;
         stability_window := stability_window cfg;
         enable_motion_detection := enable_motion_detection cfg;
         enable_id_tracking := enable_id_tracking cfg;
         enable_crowd_monitoring := enable_crowd_monitoring cfg |}
  | kw_max_interval v =>
      {| min_interval := min_interval cfg; max_interval := v;
         default_interval := default_interval cfg;
         motion_threshold_high := motion_threshold_high cfg;
         motion_threshold_low := motion_threshold_low cfg;
         motion_history_size := motion_history_size cfg;
         detection_change_threshold := detection_change_threshold cfg;
         id_switch_penalty := id_switch_penalty cfg;
         lock_on_boost_frames := lock_on_boost_frames cfg;
         seek_event_window := seek_event_window cfg;
         stability_window := stability_window cfg;
         enable_motion_detection := enable_motion_detection cfg;
         enable_id_tracking := enable_id_tracking cfg;
         enable_crowd_monitoring := enable_crowd_monitoring cfg |}
  | kw_default_interval v =>
      {| min_interval := min_interval cfg; max_interval := max_interval cfg;
         default_interval := v;
         motion_threshold_high := motion_threshold_high cfg;
         motion_threshold_low := motion_threshold_low cfg;
         motion_history_size := motion_history_size cfg;
         detection_change_threshold := detection_change_threshold cfg;
         id_switch_penalty := id_switch_penalty cfg;
         lock_on_boost_frames := lock_on_boost_frames cfg;
         seek_event_window := seek_event_window cfg;
         stability_window := stability_window cfg;
         enable_motion_detection := enable_motion_detection cfg;
         enable_id_tracking := enable_id_tracking cfg;
         enable_crowd_monitoring := enable_crowd_monitoring cfg |}
  | kw_motion_threshold_high v =>
      {| min_interval := min_interval cfg; max_interval := max_interval cfg;
         default_interval := default_interval cfg;
         motion_threshold_high := v;
         motion_threshold_low := motion_threshold_low cfg;
         motion_history_size := motion_history_size cfg;
         detection_change_threshold := detection_change_threshold cfg;
         id_switch_penalty := id_switch_penalty cfg;
         lock_on_boost_frames := lock_on_boost_frames cfg;
         seek_event_window := seek_event_window cfg;
         stability_window := stability_window cfg;
         enable_motion_detection := enable_motion_detection cfg;
         enable_id_tracking := enable_id_tracking cfg;
         enable_crowd_monitoring := enable_crowd_monitoring cfg |}
  | kw_motion_threshold_low v =>
      {| min_interval := min_interval cfg; max_interval := max_interval cfg;
         default_interval := default_interval cfg;
         motion_threshold_high := motion_threshold_high cfg;
         motion_threshold_low := v;
         motion_history_size := motion_history_size cfg;
         detection_change_threshold := detection_change_threshold cfg;
         id_switch_penalty := id_switch_penalty cfg;
         lock_on_boost_frames := lock_on_boost_frames cfg;
         seek_event_window := seek_event_window cfg;
         stability_window := stability_window cfg;
         enable_motion_detection := enable_motion_detection cfg;
         enable_id_tracking := enable_id_tracking cfg;
         enable_crowd_monitoring := enable_crowd_monitoring cfg |}
  | kw_motion_history_size v =>
      {| min_interval := min_interval cfg; max_interval := max_interval cfg;
         default_interval := default_interval cfg;
         motion_threshold_high := motion_threshold_high cfg;
         motion_threshold_low := motion_threshold_low cfg;
         motion_history_size := v;
         detection_change_threshold := detection_change_threshold cfg;
         id_switch_penalty := id_switch_penalty cfg;
         lock_on_boost_frames := lock_on_boost_frames cfg;
         seek_event_window := seek_event_window cfg;
         stability_window := stability_window cfg;
         enable_motion_detection := enable_motion_detection cfg;
         enable_id_tracking := enable_id_tracking cfg;
         enable_crowd_monitoring := enable_crowd_monitoring cfg |}
  | kw_detection_change_threshold v =>
      {| min_interval := min_interval cfg; max_interval := max_interval cfg;
         default_interval := default_interval cfg;
         motion_threshold_high := motion_threshold_high cfg;
         motion_threshold_low := motion_threshold_low cfg;
         motion_history_size := motion_history_size cfg;
         detection_change_threshold := v;
         id_switch_penalty := id_switch_penalty cfg;
         lock_on_boost_frames := lock_on_boost_frames cfg;
         seek_event_window := seek_event_window cfg;
         stability_window := stability_window cfg;
         enable_motion_detection := enable_motion_detection cfg;
         enable_id_tracking := enable_id_tracking cfg;
         enable_crowd_monitoring := enable_crowd_monitoring cfg |}
  | kw_id_switch_penalty v =>
      {| min_interval := min_interval cfg; max_interval := max_interval cfg;
         default_interval := default_interval cfg;
         motion_threshold_high := motion_threshold_high cfg;
         motion_threshold_low := motion_threshold_low cfg;
         motion_history_size := motion_history_size cfg;
         detection_change_threshold := detection_change_threshold cfg;
         id_switch_penalty := v;
         lock_on_boost_frames := lock_on_boost_frames cfg;
         seek_event_window := seek_event_window cfg;
         stability_window := stability_window cfg;
         enable_motion_detection := enable_motion_detection cfg;
         enable_id_tracking := enable_id_tracking cfg;
         enable_crowd_monitoring := enable_crowd_monitoring cfg |}
  | kw_lock_on_boost_frames v =>
      {| min_interval := min_interval cfg; max_interval := max_interval cfg;
         default_interval := default_interval cfg;
         motion_threshold_high := motion_threshold_high cfg;
         motion_threshold_low := motion_threshold_low cfg;
         motion_history_size := motion_history_size cfg;
         detection_change_threshold := detection_change_threshold cfg;
         id_switch_penalty := id_switch_penalty cfg;
         lock_on_boost_frames := v;
         seek_event_window := seek_event_window cfg;
         stability_window := stability_window cfg;
         enable_motion_detection := enable_motion_detection cfg;
         enable_id_tracking := enable_id_tracking cfg;
         enable_crowd_monitoring := enable_crowd_monitoring cfg |}
  | kw_seek_event_window v =>
      {| min_interval := min_interval cfg; max_interval := max_interval cfg;
         default_interval := default_interval cfg;
         motion_threshold_high := motion_threshold_high cfg;
         motion_threshold_low := motion_threshold_low cfg;
         motion_history_size := motion_history_size cfg;
         detection_change_threshold := detection_change_threshold cfg;
         id_switch_penalty := id_switch_penalty cfg;
         lock_on_boost_frames := lock_on_boost_frames cfg;
         seek_event_window := v; stability_window := stability_window cfg;
         enable_motion_detection := enable_motion_detection cfg;
         enable_id_tracking := enable_id_tracking cfg;
         enable_crowd_monitoring := enable_crowd_monitoring cfg |}
  | kw_stability_window v =>
      {| min_interval := min_interval cfg; max_interval := max_interval cfg;
         default_interval := default_interval cfg;
         motion_threshold_high := motion_threshold_high cfg;
         motion_threshold_low := motion_threshold_low cfg;
         motion_history_size := motion_history_size cfg;
         detection_change_threshold := detection_change_threshold cfg;
         id_switch_penalty := id_switch_penalty cfg;
         lock_on_boost_frames := lock_on_boost_frames cfg;
         seek_event_window := seek_event_window cfg; stability_window := v;
         enable_motion_detection := enable_motion_detection cfg;
         enable_id_tracking := enable_id_tracking cfg;
         enable_crowd_monitoring := enable_crowd_monitoring cfg |}
  | kw_enable_motion_detection v =>
      {| min_interval := min_interval cfg; max_interval := max_interval cfg;
         default_interval := default_interval cfg;
         motion_threshold_high := motion_threshold_high cfg;
         motion_threshold_low := motion_threshold_low cfg;
         motion_history_size := motion_history_size cfg;
         detection_change_threshold := detection_change_threshold cfg;
         id_switch_penalty := id_switch_penalty cfg;
         lock_on_boost_frames := lock_on_boost_frames cfg;
         seek_event_window := seek_event_window cfg;
         stability_window := stability_window cfg;
         enable_motion_detection := v;
         enable_id_tracking := enable_id_tracking cfg;
         enable_crowd_monitoring := enable_crowd_monitoring cfg |}
  | kw_enable_id_tracking v =>
      {| min_interval := min_interval cfg; max_interval := max_interval cfg;
         default_interval := default_interval cfg;
         motion_threshold_high := motion_threshold_high cfg;
         motion_threshold_low := motion_threshold_low cfg;
         motion_history_size := motion_history_size cfg;
         detection_change_threshold := detection_change_threshold cfg;
         id_switch_penalty := id_switch_penalty cfg;
         lock_on_boost_frames := lock_on_boost_frames cfg;
         seek_event_window := seek_event_window cfg;
         stability_window := stability_window cfg;
         enable_motion_detection := enable_motion_detection cfg;
         enable_id_tracking := v;
         enable_crowd_monitoring := enable_crowd_monitoring cfg |}
  | kw_enable_crowd_monitoring v =>
      {| min_interval := min_interval cfg; max_interval := max_interval cfg;
         default_interval := default_interval cfg;
         motion_threshold_high := motion_threshold_high cfg;
         motion_threshold_low := motion_threshold_low cfg;
         motion_history_size := motion_history_size cfg;
         detection_change_threshold := detection_change_threshold cfg;
         id_switch_penalty := id_switch_penalty cfg;
         lock_on_boost_frames := lock_on_boost_frames cfg;
         seek_event_window := seek_event_window cfg;
         stability_window := stability_window cfg;
         enable_motion_detection := enable_motion_detection cfg;
         enable_id_tracking := enable_id_tracking cfg;
         enable_crowd_monitoring := v |}
  | kw_unknown _ => cfg
  end.

(** [AdaptiveFrameSampler.update_config] *)
Definition update_config (kwargs : list kwarg) : M unit :=
  assign (fun self => set_config (foldl setattr (config self) kwargs) self).

(** [create_adaptive_sampler]; [video_fps] is [None] or a frame rate. *)
Definition create_adaptive_sampler (video_fps : option Q)
    (config_overrides : list kwarg) : AdaptiveFrameSampler :=
  let fps :=
    match video_fps with
    | Some f => if Qeq_bool f 0 then 30%Q else f
    | None => 30%Q
    end in
  let config := AdaptiveSamplingConfig_new in
  let config :=
    if Qle_bool 60 fps then
      setattr (setattr config (kw_default_interval 3)) (kw_max_interval 12)
    else if Qle_bool 30 fps then
      setattr (setattr config (kw_default_interval 2)) (kw_max_interval 8)
    else
      setattr (setattr config (kw_default_interval 1)) (kw_max_interval 4) in
  __init__ (Some (foldl setattr config config_overrides)).

(** ** Sessions *)

(** The arguments of one [should_process_frame] call, with the clock
    readings taken during it. *)
Record Call : Type := {
  clock : Clock;
  frame_idx : Z;
  frame : Frame;
  detections : option (list Detection);
  lock_on_active : bool;
  seek_event : bool
}.

(** A call on the public interface of the sampler. *)
Inductive api_call : Type :=
| call_should_process_frame (c : Call)
| call_reset
| call_update_config (kwargs : list kwarg).

Section Sessions.
Context {cv : CV2}.

Definition evaluate (c : Call) : M (bool * string) :=
  should_process_frame (clock c) (frame_idx c) (frame c) (detections c)
    (lock_on_active c) (seek_event c).

(** A sequence of [should_process_frame] calls on one sampler: the final
    sampler and what each call returned or raised.  A caller that catches
    an exception goes on with the sampler as the failed call left it. *)
Fixpoint session (calls : list Call) (self : AdaptiveFrameSampler)
    : AdaptiveFrameSampler * list (outcome (bool * string)) :=
  match calls with
  | [] => (self, [])
  | c :: calls =>
      let '(self, r) := evaluate c self in
      let '(self, rs) := session calls self in
      (self, r :: rs)
  end.

(** The sampler after one call on its interface. *)
Definition step (self : AdaptiveFrameSampler) (c : api_call)
    : AdaptiveFrameSampler :=
  match c with
  | call_should_process_frame c => (evaluate c self).1
  | call_reset => (reset self).1
  | call_update_config kwargs => (update_config kwargs self).1
  end.

(** The sampler after a sequence of calls on its interface. *)
Definition drive (calls : list api_call) (self : AdaptiveFrameSampler)
    : AdaptiveFrameSampler :=
  foldl step self calls.
End Sessions.

(** ** A concrete pixel arithmetic, to run the sampler on examples *)

(** The fixed-point luminance of OpenCV's 8-bit [BGR2GRAY]. *)
Definition luminance (p : Z * Z * Z) : Z :=
  let '(b, g, r) := p in
  Z.shiftr (b * 1868 + g * 9617 + r * 4899 + 8192) 14.

(** A 21x21 window mean with replicated borders; it stands for the
    Gaussian weights, which no property below depends on. *)
Definition window_mean (gray : Gray) (i j : nat) : Z :=
  let row di := Nat.min (shape0 gray - 1) (i + di - 10) in
  let col dj := Nat.min (shape1 gray - 1) (j + dj - 10) in
  let window := list_prod (seq 0 21) (seq 0 21) in
  foldr (fun d acc => acc + at_ gray (row d.1) (col d.2)) 0 window / 441.

Definition cv2_example : CV2 :=
  {| bgr2gray := luminance; gaussian21 := window_mean |}.

(** A frame filled with one colour. *)
Definition np_full (rows cols : nat) (bgr : Z * Z * Z) : Frame :=
  {| shape0 := rows; shape1 := cols; at_ := fun _ _ => bgr |}.

(** A clock that reads [t] seconds since the epoch throughout a call. *)
Definition clock_at (t : Q) : Clock :=
  {| time_0 := t; time_1 := t; perf_counter_0 := 0%Q; perf_counter_1 := 0%Q |}.

(** A call with the default arguments of [should_process_frame]. *)
Definition plain_call (t : Q) (idx : Z) (frame : Frame) : Call :=
  {| clock := clock_at t; frame_idx := idx; frame := frame;
     detections := None; lock_on_active := false; seek_event := false |}.

(** * Notions used by the properties *)

Abbreviation Sampler := AdaptiveFrameSampler.

(** ** Frame conditions

    [steady R m]: whatever [m] does, returning or raising, the sampler it
    leaves is related by [R] to the one it started from. *)
Definition steady (R : relation Sampler) {A} (m : M A) : Prop :=
  forall self, R self (m self).1.

(** The attributes that remember detections. *)
Definition same_detection_state (self self' : Sampler) : Prop :=
  _prev_detection_count self' = _prev_detection_count self /\
  _prev_track_ids self' = _prev_track_ids self /\
  detection_count (metrics self') = detection_count (metrics self).

(** The event [_record_telemetry] builds from the metrics of the moment. *)
Definition telemetry_event (m : SamplingMetrics) (now : Q) (idx : Z)
    (reason : SamplingReason) (interval : Z) (processed : bool) : Event.t :=
  {| Event.timestamp := now;
     Event.frame_idx := idx;
     Event.reason := value reason;
     Event.interval := interval;
     Event.processed := processed;
     Event.motion_score := avg_motion_score m;
     Event.detection_count := detection_count m;
     Event.processing_ratio := processing_ratio m |}.

(** Append, then drop the oldest event when over capacity. *)
Definition push (cap : Z) (events : list Event.t) (event : Event.t) : list Event.t :=
  if cap <? len (events ++ [event]) then tail (events ++ [event])
  else events ++ [event].

(** The arguments of one [_record_telemetry] call and its clock reading. *)
Record telemetry_args : Type := {
  ta_now : Q;
  ta_frame_idx : Z;
  ta_reason : SamplingReason;
  ta_interval : Z;
  ta_processed : bool
}.

Definition record (a : telemetry_args) : M unit :=
  _record_telemetry (ta_now a) (ta_frame_idx a) (ta_reason a) (ta_interval a)
    (ta_processed a).

(** A run of [_record_telemetry] calls. *)
Definition record_all (requests : list telemetry_args) : M unit :=
  foldr (fun a rest => record a;; rest) (mret tt) requests.

(** The event a request produces on a sampler. *)
Definition event_of (self : Sampler) (a : telemetry_args) : Event.t :=
  telemetry_event (metrics self) (ta_now a) (ta_frame_idx a) (ta_reason a)
    (ta_interval a) (ta_processed a).

(** The buffer stays within the capacity, which no method changes. *)
Definition telemetry_bounded (self self' : Sampler) : Prop :=
  _max_telemetry_events self' = _max_telemetry_events self /\
  (len (_telemetry_events self) <= _max_telemetry_events self ->
   len (_telemetry_events self') <= _max_telemetry_events self).

(** [unchanged attr]: an attribute of the sampler is left as it was. *)
Definition unchanged {A} (attr : Sampler -> A) (self self' : Sampler) : Prop :=
  attr self' = attr self.

(** [returns Q m]: whenever [m] returns a value, the value satisfies [Q]. *)
Definition returns {A} (Q : A -> Prop) (m : M A) : Prop :=
  forall self self' a, m self = (self', Ok a) -> Q a.

Section Parts.
Context {cv : CV2}.

(** The part of [should_process_frame] that picks the interval and the
    reason when no seek event was passed. *)
Definition choose_interval (clk : Clock) (frame : Frame)
    (detections : option (list Detection)) (lock_on_active : bool)
    : M (Z * SamplingReason) :=
  cfg ← get config;
  last_seek_time ← get _last_seek_time;
  if Qlt_bool (time_0 clk - last_seek_time) (seek_event_window cfg) then
    mret (1, USER_SEEK)
  else if lock_on_active then
    assign (set__lock_on_boost_remaining (lock_on_boost_frames cfg));;
    assign_metrics (fun m => set_lock_events (lock_events m + 1) m);;
    mret (1, LOCK_ON_ACTIVE)
  else
    boost ← get _id_switch_boost_remaining;
    if 0 <? boost then
      assign (set__id_switch_boost_remaining (boost - 1));;
      mret (1, ID_SWITCH)
    else _calculate_adaptive_interval frame detections.

(** The part of [should_process_frame] after the interval is picked: the
    elapsed-interval gate and the bookkeeping. *)
Definition commit (clk : Clock) (frame_idx : Z)
    (detections : option (list Detection)) (interval : Z)
    (reason : SamplingReason) : M (bool * string) :=
  assign (set__current_interval interval);;
  assign_metrics (set_current_interval interval);;
  assign_metrics (set_last_reason reason);;
  last ← get _last_processed_frame;
  let should_process := interval <=? frame_idx - last in
  (if should_process then
     assign (set__last_processed_frame frame_idx);;
     assign_metrics (fun m =>
       set_frames_processed (frames_processed m + 1) m);;
     match detections with
     | Some detections =>
         assign_metrics (fun m =>
           set_detection_count (detection_count m + len detections) m)
     | None => mret tt
     end
   else
     assign_metrics (fun m =>
       set_frames_skipped (frames_skipped m + 1) m));;
  assign_metrics (set_processing_time_ms
    ((perf_counter_1 clk - perf_counter_0 clk) * 1000)%Q);;
  _record_telemetry (time_1 clk) frame_idx reason interval should_process;;
  mret (should_process, reason_str reason interval).

(** The attributes assigned before the seek flag is looked at. *)
Definition enter (frame_idx : Z) (self : Sampler) : Sampler :=
  set_metrics
    (set_total_frames
       (Z.max (total_frames (metrics self)) (frame_idx + 1)) (metrics self))
    (set__frame_count frame_idx self).
End Parts.

(** Frame indices that increase strictly, starting above [last]. *)
Fixpoint increasing_from (last : Z) (indices : list Z) : Prop :=
  match indices with
  | [] => True
  | i :: indices => last < i /\ increasing_from i indices
  end.

(** The reason of a decision is not [INITIALIZATION]. *)
Definition not_initialization (d : Z * SamplingReason) : Prop :=
  d.2 <> INITIALIZATION.

(** The two labels a lock-on call can return. *)
Definition lock_on_label (r : outcome (bool * string)) : Prop :=
  r = Ok (true, "lock_on_active (interval=1)"%string) \/
  r = Ok (true, "user_seek (interval=1)"%string).

(** Three lock-on calls on a still frame. *)
Definition lock_on_calls : list Call :=
  map (fun i => {| clock := clock_at 1700000000; frame_idx := i;
                   frame := np_full 2 2 (0, 0, 0); detections := None;
                   lock_on_active := true; seek_event := false |}) [0; 1; 5].

(** Three telemetry requests. *)
Definition three_requests : list telemetry_args :=
  map (fun i => {| ta_now := 0; ta_frame_idx := i; ta_reason := DEFAULT;
                   ta_interval := 2; ta_processed := true |}) [0; 1; 2].

(** A still black frame and the calls of a plain session on it. *)
Definition still_frame : Frame := np_full 2 2 (0, 0, 0).

Definition still_calls : list Call :=
  map (fun i => plain_call 1700000000 i still_frame) [0; 1; 2; 3; 4].

(** A call that passes [seek_event=True]. *)
Definition seek_call (t : Q) (idx : Z) (frame : Frame) : Call :=
  {| clock := clock_at t; frame_idx := idx; frame := frame;
     detections := None; lock_on_active := false; seek_event := true |}.

(** Calls counted by the metrics: processed plus skipped. *)
Definition counted (self : Sampler) : Z :=
  frames_processed (metrics self) + frames_skipped (metrics self).

(** [safe m self]: [m] returns on [self]; [total m]: it returns on every
    sampler. *)
Definition safe {A} (m : M A) (self : Sampler) : Prop :=
  exists self' a, m self = (self', Ok a).

Definition total {A} (m : M A) : Prop := forall self, safe m self.

(** The frame can be scored on this sampler: it is not empty and has the
    size of the stored previous frame, if there is one. *)
Definition scorable (frame : Frame) (self : Sampler) : Prop :=
  ndarray_empty frame = false /\
  match _prev_frame_gray self with
  | Some prev => same_shape prev frame = true
  | None => True
  end.

(** The stored previous frame, if any, is [rows] by [cols]. *)
Definition prev_sized (rows cols : nat) (self : Sampler) : Prop :=
  match _prev_frame_gray self with
  | Some prev => shape0 prev = rows /\ shape1 prev = cols
  | None => True
  end.

Definition keeps_prev_sized (rows cols : nat) (self self' : Sampler) : Prop :=
  prev_sized rows cols self -> prev_sized rows cols self'.

(** The smoothed luminance image that [_calculate_motion_score] stores. *)
Definition smoothed {cv : CV2} (frame : Frame) : Gray :=
  GaussianBlur
    {| shape0 := shape0 frame; shape1 := shape1 frame;
       at_ := fun i j => bgr2gray (at_ frame i j) |}.

(** A frame without pixels, and a session whose second frame is wider than
    its first. *)
Definition empty_frame : Frame := np_full 0 0 (0, 0, 0).

Definition resized_calls : list Call :=
  [ plain_call 1700000000 0 (np_full 2 2 (0, 0, 0));
    plain_call 1700000000 1 (np_full 2 3 (0, 0, 0)) ].

(** The identity stage does not fire on these detections: identity
    tracking is off, no identity was stored, or the identities are the
    stored ones. *)
Definition id_stage_quiet (detections : list Detection)
    (self : Sampler) : Prop :=
  enable_id_tracking (config self) = false \/
  _prev_track_ids self = ∅ \/
  track_ids detections = _prev_track_ids self.

(** What the stages before and after the crowd stage read. *)
Definition crowd_inputs (self : Sampler)
    : AdaptiveSamplingConfig * Z * gset Z :=
  (config self, _prev_detection_count self, _prev_track_ids self).

(** Detections with the given identities. *)
Definition with_ids (ids : list Z) : list Detection :=
  map (fun i => {| det_id := Some i; det_score := 0.9%Q |}) ids.

(** Detections without identities. *)
Definition anonymous (n : nat) : list Detection :=
  replicate n {| det_id := None; det_score := 0.9%Q |}.

(** A call that passes a detection list. *)
Definition detections_call (t : Q) (idx : Z) (frame : Frame)
    (detections : list Detection) : Call :=
  {| clock := clock_at t; frame_idx := idx; frame := frame;
     detections := Some detections; lock_on_active := false;
     seek_event := false |}.

(** What the identity stage reads. *)
Definition id_inputs (self : Sampler) : AdaptiveSamplingConfig * gset Z :=
  (config self, _prev_track_ids self).

(** A sampler that has seen the identities 1 and 2. *)
Definition after_two_ids : Sampler :=
  (evaluate (cv := cv2_example)
     (detections_call 1700000000 0 still_frame (with_ids [1; 2]))
     (__init__ None)).1.

(** * Notions used by the further properties *)

(** The counters of the metrics do not go down. *)
Definition counters_grow (self self' : Sampler) : Prop :=
  frames_processed (metrics self) <= frames_processed (metrics self') /\
  frames_skipped (metrics self) <= frames_skipped (metrics self') /\
  total_frames (metrics self) <= total_frames (metrics self') /\
  detection_count (metrics self) <= detection_count (metrics self') /\
  id_switches (metrics self) <= id_switches (metrics self') /\
  lock_events (metrics self) <= lock_events (metrics self').

(** [Z.max lo (Z.min hi x)], the last statement of
    [_calculate_adaptive_interval]. *)
Definition clamp (lo hi x : Z) : Z := Z.max lo (Z.min hi x).

(** What the elapsed-interval gate and the processing ratio depend on. *)
Definition gate_inputs (self : Sampler) : AdaptiveSamplingConfig * Z * Z * Z :=
  (config self, _last_processed_frame self,
   frames_processed (metrics self), total_frames (metrics self)).

(** The processed frames are counted below the last processed index, which
    is below the watermark of frames seen. *)
Definition processed_within_seen (self : Sampler) : Prop :=
  0 <= frames_processed (metrics self) /\
  frames_processed (metrics self) <= _last_processed_frame self + 1 /\
  _last_processed_frame self + 1 <= total_frames (metrics self).

(** A configuration whose intervals are all 0. *)
Definition zero_interval_config : AdaptiveSamplingConfig :=
  foldl setattr AdaptiveSamplingConfig_new
    [kw_min_interval 0; kw_max_interval 0; kw_default_interval 0].

(** Frame 0 passed twice. *)
Definition replayed_calls : list Call :=
  [ plain_call 1700000000 0 still_frame; plain_call 1700000000 0 still_frame ].

(** The motion history holds at most [motion_history_size] scores. *)
Definition history_within_size (self : Sampler) : Prop :=
  len (_motion_history self) <= motion_history_size (config self).

(** What the motion stage reads besides the frame. *)
Definition motion_inputs (self : Sampler)
    : AdaptiveSamplingConfig * list pyfloat :=
  (config self, _motion_history self).

Definition keeps_history_within_size (self self' : Sampler) : Prop :=
  config self' = config self /\
  (history_within_size self -> history_within_size self').

(** What the adaptive calculation keeps between calls, with the
    configuration and the time of the last seek. *)
Definition adaptive_state (self : Sampler) :=
  (config self, _last_seek_time self, _prev_frame_gray self,
   _motion_history self, _prev_detection_count self, _prev_track_ids self,
   _stability_counter self, avg_motion_score (metrics self),
   id_switches (metrics self)).

(** The call is outside the seek window of the sampler. *)
Definition outside_seek_window (clk : Clock) (self : Sampler) : Prop :=
  Qlt_bool (time_0 clk - _last_seek_time self)
    (seek_event_window (config self)) = false.

(** What the identity stage reads and counts. *)
Definition id_state (self : Sampler) :=
  (config self, _prev_track_ids self, id_switches (metrics self),
   _id_switch_boost_remaining self).

(** A call during an identity-switch cooldown: no flag, outside the seek
    window. *)
Definition cooldown_call (self : Sampler) (c : Call) : Prop :=
  lock_on_active c = false /\ seek_event c = false /\
  outside_seek_window (clock c) self.

(** The label of a decision taken during the cooldown. *)
Definition cooldown_label (r : outcome (bool * string)) : Prop :=
  exists b, r = Ok (b, "id_switch (interval=1)"%string).

(** Three plain calls on frames 1, 2 and 3 that pass the identities 1 and 3. *)
Definition calls_after_switch : list Call :=
  map (fun i => detections_call 1700000000 i still_frame (with_ids [1; 3]))
    [1; 2; 3].

(** The sampler of [after_two_ids] after a call that passes the identities 1
    and 3. *)
Definition after_id_switch : Sampler :=
  (evaluate (cv := cv2_example)
     (detections_call 1700000000 0 still_frame (with_ids [1; 3]))
     after_two_ids).1.

(** The sampler without its lock-on boost counter. *)
Definition forget_lock_boost (self : Sampler) : Sampler :=
  set__lock_on_boost_remaining 0 self.

(** [blind m]: [m] does not read the lock-on boost counter: on two samplers
    that differ in it only, [m] has the same outcome and leaves samplers
    that differ in it only. *)
Definition blind {A} (m : M A) : Prop :=
  forall self self',
    forget_lock_boost self = forget_lock_boost self' ->
    (m self).2 = (m self').2 /\
    forget_lock_boost (m self).1 = forget_lock_boost (m self').1.

(** The lock-on boost counter is left alone or re-armed. *)
Definition lock_boost_rearmed (self self' : Sampler) : Prop :=
  config self' = config self /\
  (_lock_on_boost_remaining self' = _lock_on_boost_remaining self \/
   _lock_on_boost_remaining self' = lock_on_boost_frames (config self)).

(** The configuration with the lock-on boost counter. *)
Definition lock_boost_state (self : Sampler) : AdaptiveSamplingConfig * Z :=
  (config self, _lock_on_boost_remaining self).

(** What a call inside the seek window leaves alone: the state of the
    adaptive calculation and the counters of the other overrides. *)
Definition override_state (self : Sampler) :=
  (adaptive_state self, lock_events (metrics self),
   _lock_on_boost_remaining self, _id_switch_boost_remaining self).

(** A seek on frame 10 and the next frame, half a second later, with
    lock-on active. *)
Definition seek_then_next : list Call :=
  [ seek_call 1700000000 10 still_frame;
    {| clock := clock_at 1700000000.5; frame_idx := 11; frame := still_frame;
       detections := None; lock_on_active := true; seek_event := false |} ].

(** What motion scoring writes. *)
Definition motion_state (self : Sampler) :=
  (_prev_frame_gray self, _motion_history self,
   avg_motion_score (metrics self)).

(** The default configuration with motion detection switched off. *)
Definition motion_off_config : AdaptiveSamplingConfig :=
  setattr AdaptiveSamplingConfig_new (kw_enable_motion_detection false).

(** The keyword names an attribute of the configuration. *)
Definition known (kw : kwarg) : bool :=
  match kw with
  | kw_unknown _ => false
  | _ => true
  end.

(** The intervals the sizing table of [create_adaptive_sampler] picks:
    default and maximum. *)
Definition sized_intervals (video_fps : option Q) : Z * Z :=
  match video_fps with
  | None => (2, 8)
  | Some fps =>
      if Qeq_bool fps 0 then (2, 8)
      else if Qle_bool 60 fps then (3, 12)
      else if Qle_bool 30 fps then (2, 8)
      else (1, 4)
  end.

(** A stage of the adaptive calculation has fired: it has set the reason. *)
Definition fired (reason : SamplingReason) : Prop :=
  reason = MOTION_SPIKE \/ reason = CROWD_CHANGE \/ reason = ID_SWITCH.

(** What holds between the stages of the adaptive calculation: either no
    stage has fired and the interval is still the default [d], or one has
    and the stability counter is 0. *)
Definition between_stages (d : Z) (decision : Z * SamplingReason)
    (self : Sampler) : Prop :=
  (decision = (d, DEFAULT)) \/
  (fired decision.2 /\ _stability_counter self = 0).

(** A motion score that is zero. *)
Definition zero_score (score : pyfloat) : Prop :=
  match score with
  | Fin q => (q == 0)%Q
  | NaN => False
  end.

(** A configuration under which a still scene counts as stable: motion
    detection is on, zero motion is below the low threshold and not above
    the high one, and the history holds at least one score. *)
Definition still_config (cfg : AdaptiveSamplingConfig) : Prop :=
  enable_motion_detection cfg = true /\
  (0 < motion_threshold_low cfg)%Q /\
  (0 <= motion_threshold_high cfg)%Q /\
  1 <= motion_history_size cfg.

(** A sampler that has seen [k] calls of a still scene showing [image] and
    nothing else since its motion history was last empty. *)
Definition still_scene (cfg : AdaptiveSamplingConfig) {cv : CV2} (image : Frame)
    (k : Z) (self : Sampler) : Prop :=
  config self = cfg /\
  _stability_counter self = k /\
  _id_switch_boost_remaining self = 0 /\
  Forall zero_score (_motion_history self) /\
  (_prev_frame_gray self = None \/
   _prev_frame_gray self = Some (smoothed image)).

(** A call of a still scene: the same frame, no detections, no flag,
    outside the seek window. *)
Definition still_call (image : Frame) (self : Sampler) (c : Call) : Prop :=
  frame c = image /\ detections c = None /\
  lock_on_active c = false /\ seek_event c = false /\
  outside_seek_window (clock c) self.

(** The label of the decision that leaves the stability counter at [k]. *)
Definition still_label (cfg : AdaptiveSamplingConfig) (k : Z) : string :=
  if k <? stability_window cfg then
    reason_str DEFAULT
      (clamp (min_interval cfg) (max_interval cfg) (default_interval cfg))
  else
    reason_str STABLE_SCENE
      (clamp (min_interval cfg) (max_interval cfg)
         (Z.min (max_interval cfg) (default_interval cfg + 1))).

(** The default configuration with a stability window of two calls. *)
Definition short_window_config : AdaptiveSamplingConfig :=
  setattr AdaptiveSamplingConfig_new (kw_stability_window 2).

(** ** Accounting of decisions *)

(** The counters a decision moves: processed, skipped, detections seen. *)
Definition decision_counters (self : Sampler) : Z * Z * Z :=
  (frames_processed (metrics self), frames_skipped (metrics self),
   detection_count (metrics self)).

Definition add3 (a b : Z * Z * Z) : Z * Z * Z :=
  (a.1.1 + b.1.1, a.1.2 + b.1.2, a.2 + b.2).

(** What the outcome of one call adds to the counters. *)
Definition tally_of (c : Call) (r : outcome (bool * string)) : Z * Z * Z :=
  match r with
  | Ok (b, _) =>
      if seek_event c then (0, 0, 0)
      else if b then (1, 0, from_option len 0 (detections c))
      else (0, 1, 0)
  | Raise _ => (0, 0, 0)
  end.

(** What the outcomes of a session add up to. *)
Fixpoint tally (calls : list Call) (rs : list (outcome (bool * string)))
    : Z * Z * Z :=
  match calls, rs with
  | c :: calls, r :: rs => add3 (tally_of c r) (tally calls rs)
  | _, _ => (0, 0, 0)
  end.

(** ** The event of a decision *)

(** The buffer and its capacity. *)
Definition telemetry_state (self : Sampler) : list Event.t * Z :=
  (_telemetry_events self, _max_telemetry_events self).

(** The event [e] tells the decision [(b, label)] of a call at [clk] on
    frame [idx] that left the sampler [self']. *)
Definition tells (clk : Clock) (idx : Z) (seek : bool) (self' : Sampler)
    (b : bool) (label : string) (e : Event.t) : Prop :=
  Event.timestamp e = time_1 clk /\
  Event.frame_idx e = idx /\
  Event.processed e = b /\
  Event.motion_score e = avg_motion_score (metrics self') /\
  Event.detection_count e = detection_count (metrics self') /\
  Event.processing_ratio e = processing_ratio (metrics self') /\
  Event.reason e = value (last_reason (metrics self')) /\
  if seek then
    Event.reason e = "user_seek"%string /\ Event.interval e = 1
  else
    Event.interval e = _current_interval self' /\
    Event.interval e = current_interval (metrics self') /\
    label =
      (Event.reason e +:+ " (interval=" +:+ pretty (Event.interval e) +:+ ")")%string.

(** ** Reading the sampler *)

(** [AdaptiveFrameSampler.get_metrics] *)
Definition get_metrics : M SamplingMetrics := get metrics.

(** [event['timestamp'] >= since_timestamp]: false when the bound is
    [nan]. *)
Definition float_le (a : pyfloat) (b : Q) : bool :=
  match a with Fin x => Qle_bool x b | NaN => false end.

(** [AdaptiveFrameSampler.get_telemetry_events] *)
Definition get_telemetry_events (since_timestamp : option pyfloat)
    : M (list Event.t) :=
  match since_timestamp with
  | None =>
      events ← get _telemetry_events;
      mret events
  | Some since_timestamp =>
      events ← get _telemetry_events;
      mret (List.filter
              (fun event => float_le since_timestamp (Event.timestamp event))
              events)
  end.

(** Timestamps that never step back. *)
Fixpoint nondecreasing (ts : list Q) : Prop :=
  match ts with
  | [] => True
  | t :: ts => Forall (Qle t) ts /\ nondecreasing ts
  end.

(** The buffer is in the order of its timestamps, none of them after
    [t]. *)
Definition recorded_until (t : Q) (self : Sampler) : Prop :=
  nondecreasing (map Event.timestamp (_telemetry_events self)) /\
  Forall (fun e => (Event.timestamp e <= t)%Q) (_telemetry_events self).

(** Calls whose clock never steps back: each reading for the telemetry is
    at or after the one before, starting from [t]. *)
Fixpoint chronological (t : Q) (calls : list Call) : Prop :=
  match calls with
  | [] => True
  | c :: calls =>
      (t <= time_1 (clock c))%Q /\ chronological (time_1 (clock c)) calls
  end.

(** Three calls on a still frame, one second apart, and the same with the
    clock set back for the second. *)
Definition timed_calls : list Call :=
  [ plain_call 1 0 still_frame; plain_call 2 1 still_frame;
    plain_call 3 2 still_frame ].

Definition clock_set_back_calls : list Call :=
  [ plain_call 3 0 still_frame; plain_call 1 1 still_frame;
    plain_call 3 2 still_frame ].

(** ** Motion scores as fractions *)

(** A score that is a number between 0 and 1. *)
Definition unit_score (score : pyfloat) : Prop :=
  match score with
  | Fin q => (0 <= q <= 1)%Q
  | NaN => False
  end.

(** What motion scoring reads and writes, with the configuration. *)
Definition motion_record (self : Sampler) :=
  (config self, _prev_frame_gray self, _motion_history self,
   avg_motion_score (metrics self)).

(** The motion history holds at least one score, the stored frame has
    pixels, and every score kept and their average are fractions. *)
Definition unit_motion (self : Sampler) : Prop :=
  1 <= motion_history_size (config self) /\
  match _prev_frame_gray self with
  | Some prev => ndarray_empty prev = false
  | None => True
  end /\
  Forall unit_score (_motion_history self) /\
  unit_score (avg_motion_score (metrics self)).

(** The default configuration with a motion history of size 0, and two
    frames that differ in every pixel. *)
Definition no_history_config : AdaptiveSamplingConfig :=
  setattr AdaptiveSamplingConfig_new (kw_motion_history_size 0).

Definition white_frame : Frame := np_full 2 2 (255, 255, 255).

Definition flashing_calls : list Call :=
  [ plain_call 1700000000 0 still_frame; plain_call 1700000000 1 white_frame;
    plain_call 1700000000 2 still_frame; plain_call 1700000000 3 white_frame ].

(** The motion record is kept, and a stability counter at 0 stays there. *)
Definition keeps_stability_zero (self self' : Sampler) : Prop :=
  motion_record self' = motion_record self /\
  (_stability_counter self = 0 -> _stability_counter self' = 0).

(** A sampler that scores motion but keeps no score. *)
Definition no_history (self : Sampler) : Prop :=
  enable_motion_detection (config self) = true /\
  motion_history_size (config self) <= 0 /\
  1 <= stability_window (config self) /\
  _motion_history self = [].

(** ** Frames seen *)

(** One more than the highest frame index of the calls, or [seen] if that
    is higher. *)
Definition highest_index (seen : Z) (calls : list Call) : Z :=
  foldl (fun seen c => Z.max seen (frame_idx c + 1)) seen calls.

(** The frame index of the last call, or [current] if there is no call. *)
Definition last_index (current : Z) (calls : list Call) : Z :=
  foldl (fun _ c => frame_idx c) current calls.

(** Calls that go back and forth in the video. *)
Definition scrubbing_calls : list Call :=
  map (fun i => plain_call 1700000000 i still_frame) [7; 2; 7; 3].

(** ** Detections per processed frame *)


(** Calls on a still frame that pass two detections each. *)
Definition crowded_calls : list Call :=
  map (fun i => detections_call 1700000000 i still_frame (with_ids [1; 2]))
    [0; 1; 2; 3].

(** ** The integration helper *)

(** Python's [round(x, ndigits)] on a float. *)
Class PyRound : Type := {
  round : pyfloat -> Z -> pyfloat
}.

(** The dict under ['adaptive_sampling'] in the telemetry data. *)
Record telemetry_data : Type := {
  td_should_process : bool;
  td_reason : string;
  td_current_interval : Z;
  td_processing_ratio : pyfloat;
  td_frames_processed : Z;
  td_frames_skipped : Z;
  td_avg_motion_score : pyfloat;
  td_efficiency_score : pyfloat
}.

Section Integration.
Context {cv : CV2} {rnd : PyRound}.

(** [integrate_with_detection_pipeline]; the sampler argument is the state
    of the computation. *)
Definition integrate_with_detection_pipeline (clk : Clock) (frame_idx : Z)
    (frame : Frame) (prev_detections : option (list Detection))
    (lock_on_active seek_event : bool) : M (bool * string * telemetry_data) :=
  '(should_process, reason) ←
    should_process_frame clk frame_idx frame prev_detections lock_on_active
      seek_event;
  metrics ← get_metrics;
  let telemetry_data :=
    {| td_should_process := should_process;
       td_reason := reason;
       td_current_interval := current_interval metrics;
       td_processing_ratio := round (Fin (processing_ratio metrics)) 2;
       td_frames_processed := frames_processed metrics;
       td_frames_skipped := frames_skipped metrics;
       td_avg_motion_score := round (avg_motion_score metrics) 4;
       td_efficiency_score := round (Fin (efficiency_score metrics)) 2 |} in
  mret (should_process, reason, telemetry_data).
End Integration.

(** A rounding that keeps the number, to run the helper on examples. *)
Definition round_exact : PyRound := {| round := fun x _ => x |}.

(** The decision and the interval the telemetry data report. *)
Definition reported (r : outcome (bool * string * telemetry_data))
    : option (bool * string * Z) :=
  match r with
  | Ok (b, label, data) => Some (b, label, td_current_interval data)
  | Raise _ => None
  end.

(** ** The interval of a reason *)

(** What a stage that fires does to the interval: a motion spike and an
    identity switch set it to [min_interval], a crowd change caps it at
    [min_interval + 1]. *)
Definition pinned (cfg : AdaptiveSamplingConfig)
    (decision : Z * SamplingReason) : Prop :=
  match decision.2 with
  | MOTION_SPIKE | ID_SWITCH => decision.1 = min_interval cfg
  | CROWD_CHANGE => decision.1 <= min_interval cfg + 1
  | _ => True
  end.

(** * Reasoning about method bodies *)

(** The parts of the sampler are unfolded by name in the proofs. *)
Global Arguments _record_telemetry : simpl never.
Global Arguments _calculate_motion_score : simpl never.
Global Arguments _calculate_adaptive_interval : simpl never.
Global Arguments motion_stage : simpl never.
Global Arguments crowd_stage : simpl never.
Global Arguments id_stage : simpl never.
Global Arguments stability_stage : simpl never.
Global Arguments choose_interval : simpl never.
Global Arguments commit : simpl never.
Global Arguments reason_str : simpl never.
Global Arguments push : simpl never.
Global Arguments telemetry_event : simpl never.

Lemma bind_eq {A B} (m : M A) (f : A -> M B) (self : Sampler) :
  (m ≫= f) self =
  match m self with
  | (self', Ok a) => f a self'
  | (self', Raise e) => (self', Raise e)
  end.
Proof. reflexivity. Qed.

Lemma bind_Ok_inv {A B} (m : M A) (f : A -> M B) (self self' : Sampler) (b : B) :
  (m ≫= f) self = (self', Ok b) ->
  exists self1 a, m self = (self1, Ok a) /\ f a self1 = (self', Ok b).
Proof.
  rewrite bind_eq. destruct (m self) as [self1 [a|e]]; [eauto | discriminate].
Qed.

Section Steady.
Context (R : relation Sampler) `{!PreOrder R}.

Lemma steady_bind {A B} (m : M A) (f : A -> M B) :
  steady R m -> (forall a, steady R (f a)) -> steady R (m ≫= f).
Proof.
  intros Hm Hf self. rewrite bind_eq. specialize (Hm self).
  destruct (m self) as [self1 [a|e]]; simpl in *; [|done].
  etrans; [exact Hm | apply Hf].
Qed.

Lemma steady_ret {A} (a : A) : steady R (mret a).
Proof. intros self. done. Qed.

Lemma steady_get {A} (attr : Sampler -> A) : steady R (get attr).
Proof. intros self. done. Qed.

Lemma steady_call {A} (o : outcome A) : steady R (call o).
Proof. intros self. done. Qed.

Lemma steady_assign (f : Sampler -> Sampler) :
  (forall self, R self (f self)) -> steady R (assign f).
Proof. intros Hf self. apply Hf. Qed.

Lemma steady_assign_metrics (f : SamplingMetrics -> SamplingMetrics) :
  (forall self, R self (set_metrics (f (metrics self)) self)) ->
  steady R (assign_metrics f).
Proof. intros Hf self. apply Hf. Qed.
End Steady.

Create HintDb steady.

(** One step through a method body; [fin] closes the conditions on the
    assignments. *)
Ltac steady_step fin :=
  lazymatch goal with
  | |- steady _ (mbind _ _) => apply steady_bind; [typeclasses eauto | | intros ?]
  | |- steady _ (mret _) => apply steady_ret; typeclasses eauto
  | |- steady _ (get _) => apply steady_get; typeclasses eauto
  | |- steady _ (call _) => apply steady_call; typeclasses eauto
  | |- steady _ (assign _) => apply steady_assign; intros ?; fin
  | |- steady _ (assign_metrics _) => apply steady_assign_metrics; intros ?; fin
  | |- steady _ (if ?b then _ else _) => destruct b
  | |- steady _ (match ?x with _ => _ end) => destruct x
  | |- steady _ (let '(_, _) := ?x in _) => destruct x
  | |- steady _ _ => solve [eauto with steady]
  end.

Ltac steady_auto fin := repeat (steady_step fin).

(** Unfold the plumbing of a method body applied to a sampler. *)
Ltac run_body :=
  cbv [mbind M_bind mret M_ret get assign assign_metrics call]; cbn.

(** * The detection bookkeeping when no detection list is passed *)

Global Instance same_detection_state_preorder : PreOrder same_detection_state.
Proof.
  split.
  - intros s. repeat split.
  - intros s1 s2 s3 (H1 & H2 & H3) (H4 & H5 & H6). repeat split; congruence.
Qed.

Ltac fin_detection := repeat split; reflexivity.

Lemma _record_telemetry_detection now idx reason interval processed :
  steady same_detection_state (_record_telemetry now idx reason interval processed).
Proof. unfold _record_telemetry. steady_auto fin_detection. Qed.
Global Hint Resolve _record_telemetry_detection : steady.

Section NoDetections.
Context {cv : CV2}.

Lemma _calculate_motion_score_detection frame :
  steady same_detection_state (_calculate_motion_score frame).
Proof. unfold _calculate_motion_score. steady_auto fin_detection. Qed.
Hint Resolve _calculate_motion_score_detection : steady.

Lemma _calculate_adaptive_interval_detection frame :
  steady same_detection_state (_calculate_adaptive_interval frame None).
Proof.
  unfold _calculate_adaptive_interval, motion_stage, crowd_stage, id_stage,
    stability_stage.
  steady_auto fin_detection.
Qed.
Hint Resolve _calculate_adaptive_interval_detection : steady.

Lemma should_process_frame_detection clk idx frame lock seek :
  steady same_detection_state
    (should_process_frame clk idx frame None lock seek).
Proof. unfold should_process_frame. steady_auto fin_detection. Qed.
End NoDetections.

(** * The telemetry buffer *)

Lemma _record_telemetry_eq now idx reason interval processed (self : Sampler) :
  _record_telemetry now idx reason interval processed self =
  (set__telemetry_events
     (push (_max_telemetry_events self) (_telemetry_events self)
        (telemetry_event (metrics self) now idx reason interval processed))
     self, Ok tt).
Proof.
  unfold _record_telemetry, push, telemetry_event. run_body.
  destruct (_ <? _); reflexivity.
Qed.

Lemma length_push cap events event :
  len events <= cap -> len (push cap events event) <= cap.
Proof.
  unfold push, len. intros Hle.
  destruct (cap <? _) eqn:E.
  - rewrite length_tl, length_app. simpl. lia.
  - apply Z.ltb_ge in E. exact E.
Qed.

Lemma push_skipn cap events event :
  len events <= cap ->
  push cap events event =
  drop (length (events ++ [event]) - Z.to_nat cap) (events ++ [event]).
Proof.
  unfold push, len. rewrite length_app. simpl. intros Hle.
  destruct (cap <? _) eqn:E.
  - apply Z.ltb_lt in E.
    replace (length events + 1 - Z.to_nat cap)%nat with 1%nat by lia.
    reflexivity.
  - apply Z.ltb_ge in E.
    replace (length events + 1 - Z.to_nat cap)%nat with 0%nat by lia.
    reflexivity.
Qed.

Lemma drop_newest_app {A} (n : nat) (l news : list A) :
  drop (length (drop (length l - n) l ++ news) - n) (drop (length l - n) l ++ news)
  = drop (length (l ++ news) - n) (l ++ news).
Proof.
  destruct (decide (length l <= n)%nat) as [Hl|Hl].
  - replace (length l - n)%nat with 0%nat by lia. reflexivity.
  - rewrite !length_app, length_drop.
    replace (length l - (length l - n) + length news - n)%nat
      with (length news)%nat by lia.
    replace (length l + length news - n)%nat
      with ((length l - n) + length news)%nat by lia.
    rewrite <- drop_drop. rewrite (drop_app_le l news) by lia. reflexivity.
Qed.

Lemma foldl_push_skipn cap (news events : list Event.t) :
  len events <= cap ->
  foldl (push cap) events news =
  drop (length (events ++ news) - Z.to_nat cap) (events ++ news).
Proof.
  revert events. induction news as [|e news IH]; intros events Hle.
  - simpl. rewrite app_nil_r.
    replace (length events - Z.to_nat cap)%nat with 0%nat
      by (unfold len in Hle; lia).
    reflexivity.
  - simpl. rewrite IH by (by apply length_push).
    rewrite push_skipn by done.
    rewrite drop_newest_app. by rewrite <- app_assoc.
Qed.

Lemma record_all_eq requests (self : Sampler) :
  record_all requests self =
  (set__telemetry_events
     (foldl (push (_max_telemetry_events self)) (_telemetry_events self)
        (map (event_of self) requests))
     self, Ok tt).
Proof.
  revert self. induction requests as [|a requests IH]; intros self.
  - destruct self; reflexivity.
  - change (record_all (a :: requests)) with (record a;; record_all requests).
    rewrite bind_eq. unfold record. rewrite _record_telemetry_eq.
    rewrite IH. reflexivity.
Qed.

Global Instance telemetry_bounded_preorder : PreOrder telemetry_bounded.
Proof.
  split.
  - intros s. split; [reflexivity | tauto].
  - intros s1 s2 s3 [H1 H2] [H3 H4]. split; [congruence|].
    intros Hle. rewrite H1 in H4. auto.
Qed.

Ltac fin_telemetry :=
  split; [reflexivity | cbn; unfold len; simpl; lia].

Lemma _record_telemetry_bounded now idx reason interval processed :
  steady telemetry_bounded (_record_telemetry now idx reason interval processed).
Proof.
  intros self. rewrite _record_telemetry_eq. split; [reflexivity|].
  cbn. apply length_push.
Qed.
Global Hint Resolve _record_telemetry_bounded : steady.

Lemma reset_bounded : steady telemetry_bounded reset.
Proof. unfold reset. steady_auto fin_telemetry. Qed.

Lemma update_config_bounded kwargs :
  steady telemetry_bounded (update_config kwargs).
Proof. unfold update_config. steady_auto fin_telemetry. Qed.

Lemma reset_eq (self : Sampler) :
  reset self =
  ({| config := config self;
      metrics := SamplingMetrics_new;
      _current_interval := default_interval (config self);
      _frame_count := 0;
      _last_processed_frame := -1;
      _prev_frame_gray := None;
      _motion_history := [];
      _prev_detection_count := 0;
      _prev_track_ids := ∅;
      _stability_counter := 0;
      _lock_on_boost_remaining := 0;
      _id_switch_boost_remaining := 0;
      _last_seek_time := 0%Q;
      _telemetry_events := [];
      _max_telemetry_events := _max_telemetry_events self |}, Ok tt).
Proof. reflexivity. Qed.

Section Interface.
Context {cv : CV2}.

Lemma should_process_frame_bounded clk idx frame detections lock seek :
  steady telemetry_bounded
    (should_process_frame clk idx frame detections lock seek).
Proof.
  unfold should_process_frame, _calculate_adaptive_interval, motion_stage,
    crowd_stage, id_stage, stability_stage, _calculate_motion_score.
  steady_auto fin_telemetry.
Qed.

Lemma step_bounded (self : Sampler) (c : api_call) :
  telemetry_bounded self (step self c).
Proof.
  destruct c; simpl.
  - apply should_process_frame_bounded.
  - apply reset_bounded.
  - apply update_config_bounded.
Qed.

Lemma drive_bounded calls (self : Sampler) :
  telemetry_bounded self (drive calls self).
Proof.
  revert self. unfold drive.
  induction calls as [|c calls IH]; intros self; simpl; [reflexivity|].
  etrans; [apply step_bounded | apply IH].
Qed.
End Interface.

Global Instance unchanged_preorder {A} (attr : Sampler -> A) :
  PreOrder (unchanged attr).
Proof.
  split.
  - intros s. reflexivity.
  - intros s1 s2 s3 H1 H2. unfold unchanged in *. congruence.
Qed.

Lemma returns_bind {A B} (Q' : A -> Prop) (Q : B -> Prop) (m : M A) (f : A -> M B) :
  returns Q' m -> (forall a, Q' a -> returns Q (f a)) -> returns Q (m ≫= f).
Proof.
  intros Hm Hf self self' b Hb.
  apply bind_Ok_inv in Hb as (self1 & a & Ha & Hb).
  eapply Hf; [eapply Hm|]; eassumption.
Qed.

Lemma returns_bind_any {A B} (Q : B -> Prop) (m : M A) (f : A -> M B) :
  (forall a, returns Q (f a)) -> returns Q (m ≫= f).
Proof.
  intros Hf. apply (returns_bind (fun _ => True)); [done | auto].
Qed.

Lemma returns_ret {A} (Q : A -> Prop) (a : A) : Q a -> returns Q (mret a).
Proof. intros Ha self self' a' [= _ <-]. exact Ha. Qed.

(** One step through a method body whose result keeps the property [Q] of
    the results of its parts. *)
Ltac returns_step fin :=
  lazymatch goal with
  | |- returns ?Q (@mbind _ _ ?A _ _ _) =>
      lazymatch type of Q with
      | A -> Prop => apply (returns_bind Q Q); [| intros ? ?]
      | _ => apply returns_bind_any; intros ?
      end
  | |- returns _ (mret _) => apply returns_ret; fin
  | |- returns _ (if ?b then _ else _) => destruct b
  | |- returns _ (let '(_, _) := (if ?b then _ else _) in _) => destruct b
  | |- returns _ (match ?x with _ => _ end) => destruct x
  | |- returns _ (let '(_, _) := ?x in _) => destruct x
  end.

(** Run a method body on a sampler, one statement at a time. *)
Ltac exec :=
  repeat first
    [ rewrite bind_eq
    | rewrite _record_telemetry_eq
    | progress cbv [mret M_ret get assign assign_metrics call]
    | progress cbv beta iota ].

Ltac fin_unchanged := unfold unchanged; reflexivity.

Section Decision.
Context {cv : CV2}.

Lemma should_process_frame_seek clk idx frame detections lock (self : Sampler) :
  should_process_frame clk idx frame detections lock true self =
  (set_metrics
     (set_last_reason USER_SEEK (metrics (enter idx self)))
     (set__telemetry_events
        (push (_max_telemetry_events self) (_telemetry_events self)
           (telemetry_event (metrics (enter idx self)) (time_1 clk) idx
              USER_SEEK 1 true))
        (set__last_seek_time (time_0 clk) (enter idx self))),
   Ok (true, "User seek event"%string)).
Proof.
  unfold should_process_frame. exec. reflexivity.
Qed.

Lemma should_process_frame_no_seek clk idx frame detections lock (self : Sampler) :
  should_process_frame clk idx frame detections lock false self =
  ('(interval, reason) ← choose_interval clk frame detections lock;
   commit clk idx detections interval reason) (enter idx self).
Proof.
  unfold should_process_frame, choose_interval, commit, enter.
  cbv [mbind M_bind mret M_ret get assign assign_metrics call].
  cbn.
  repeat (match goal with
          | |- context [if ?b then _ else _] => destruct b
          end; try reflexivity).
Qed.

Lemma choose_interval_last_processed clk frame detections lock :
  steady (unchanged _last_processed_frame)
    (choose_interval clk frame detections lock).
Proof.
  unfold choose_interval, _calculate_adaptive_interval, motion_stage,
    crowd_stage, id_stage, stability_stage, _calculate_motion_score.
  steady_auto fin_unchanged.
Qed.


Ltac fin_reason :=
  unfold not_initialization in *; simpl in *; solve [assumption | discriminate].

Lemma _calculate_adaptive_interval_reason frame detections :
  returns not_initialization (_calculate_adaptive_interval frame detections).
Proof.
  unfold _calculate_adaptive_interval, motion_stage, crowd_stage, id_stage,
    stability_stage.
  repeat (returns_step fin_reason).
Qed.

Lemma choose_interval_reason clk frame detections lock :
  returns not_initialization (choose_interval clk frame detections lock).
Proof.
  unfold choose_interval.
  repeat first [ apply _calculate_adaptive_interval_reason
               | returns_step fin_reason ].
Qed.

(** The sampler after [commit]. *)
Lemma commit_eq clk idx detections interval reason (self : Sampler) :
  exists self',
    commit clk idx detections interval reason self =
    (self', Ok (interval <=? idx - _last_processed_frame self,
                reason_str reason interval)) /\
    _current_interval self' = interval /\
    last_reason (metrics self') = reason /\
    _last_processed_frame self' =
      (if interval <=? idx - _last_processed_frame self then idx
       else _last_processed_frame self).
Proof.
  unfold commit. exec.
  destruct (interval <=? _) eqn:Hgate; [destruct detections|];
    exec; eexists; (split; [reflexivity|]); cbn; auto.
Qed.
End Decision.

Section LockOn.
Context {cv : CV2}.

Lemma lock_on_call clk idx frame detections (self : Sampler) :
  _last_processed_frame self < idx ->
  exists self' reason,
    should_process_frame clk idx frame detections true false self =
      (self', Ok (true, reason_str reason 1)) /\
    (reason = LOCK_ON_ACTIVE \/ reason = USER_SEEK) /\
    _last_processed_frame self' = idx /\
    _current_interval self' = 1.
Proof.
  intros Hlt. rewrite should_process_frame_no_seek, bind_eq.
  unfold choose_interval. exec.
  destruct (Qlt_bool _ _); exec.
  - destruct (commit_eq clk idx detections 1 USER_SEEK (enter idx self))
      as (self' & Heq & Hint & _ & Hlast).
    cbn in Heq, Hlast.
    assert (Hgate : (1 <=? idx - _last_processed_frame self) = true)
      by (apply Z.leb_le; lia).
    rewrite Hgate in Heq, Hlast. exists self', USER_SEEK. auto.
  - match goal with
    | |- context [commit _ _ _ _ _ ?s] =>
        destruct (commit_eq clk idx detections 1 LOCK_ON_ACTIVE s)
          as (self' & Heq & Hint & _ & Hlast)
    end.
    cbn in Heq, Hlast.
    assert (Hgate : (1 <=? idx - _last_processed_frame self) = true)
      by (apply Z.leb_le; lia).
    rewrite Hgate in Heq, Hlast. exists self', LOCK_ON_ACTIVE. auto.
Qed.
End LockOn.

(** * Properties of the sampler *)

(** C10. A call with [detections=None] leaves the stored previous detection
    count, the stored previous identity set and the detections-seen
    counter as they were, whichever path the call takes and whether it
    returns or raises. *)
Theorem detections_None_leaves_detection_state {cv : CV2}
    (clk : Clock) (idx : Z) (frame : Frame) (lock seek : bool) (self : Sampler) :
  let self' := (should_process_frame clk idx frame None lock seek self).1 in
  _prev_detection_count self' = _prev_detection_count self /\
  _prev_track_ids self' = _prev_track_ids self /\
  detection_count (metrics self') = detection_count (metrics self).
Proof. apply should_process_frame_detection. Qed.

(** An empty list is not the same as no list: it resets the stored count. *)
Example detections_empty_list_resets_count :
  let self := set__prev_detection_count 2 (__init__ None) in
  let call := plain_call 1700000000 0 (np_full 2 2 (0, 0, 0)) in
  _prev_detection_count
    (should_process_frame (cv := cv2_example) (clock call) 0 (frame call)
       (Some []) false false self).1 = 0.
Proof. reflexivity. Qed.

(** C5. The telemetry buffer of a sampler never holds more than its
    capacity of 1000 events, whatever calls are made on it; and recording
    capacity + k events into an empty buffer leaves the events without the
    earliest k, in the order they were recorded. *)
Theorem telemetry_buffer_bounded_fifo {cv : CV2} :
  (forall cfg calls,
     let self := drive calls (__init__ cfg) in
     _max_telemetry_events self = 1000 /\
     len (_telemetry_events self) <= 1000) /\
  (forall (self : Sampler) requests (k : nat),
     _telemetry_events self = [] ->
     0 <= _max_telemetry_events self ->
     length requests = (Z.to_nat (_max_telemetry_events self) + k)%nat ->
     let self' := (record_all requests self).1 in
     len (_telemetry_events self') = _max_telemetry_events self /\
     _telemetry_events self' = drop k (map (event_of self) requests)).
Proof.
  split.
  - intros cfg calls self.
    destruct (drive_bounded calls (__init__ cfg)) as [Hcap Hlen].
    fold self in Hcap, Hlen. split; [exact Hcap|].
    apply Hlen. cbn. unfold len. simpl. lia.
  - intros self requests k Hempty Hcap Hlen self'. subst self'.
    rewrite record_all_eq. cbn. rewrite Hempty.
    rewrite foldl_push_skipn by (unfold len; simpl; lia).
    simpl. rewrite length_map, Hlen.
    replace (Z.to_nat (_max_telemetry_events self) + k
             - Z.to_nat (_max_telemetry_events self))%nat with k by lia.
    split; [|reflexivity].
    unfold len. rewrite length_drop, length_map, Hlen. lia.
Qed.

Lemma telemetry_buffer_bounded_fifo_witness :
  let self := set__max_telemetry_events 2 (__init__ None) in
  let self' := (record_all three_requests self).1 in
  len (_telemetry_events self') = 2 /\
  _telemetry_events self' = drop 1 (map (event_of self) three_requests).
Proof.
  apply (proj2 (telemetry_buffer_bounded_fifo (cv := cv2_example))
           (set__max_telemetry_events 2 (__init__ None)) three_requests 1%nat).
  - reflexivity.
  - simpl. lia.
  - reflexivity.
Defined.

(** C7. On a sampler reached by any sequence of calls on its interface,
    [reset()] leaves exactly the sampler that the constructor builds from
    the same configuration. *)
Theorem reset_restores_fresh_state {cv : CV2} cfg calls :
  let self := drive calls (__init__ cfg) in
  reset self = (__init__ (Some (config self)), Ok tt).
Proof.
  intros self. rewrite reset_eq.
  destruct (drive_bounded calls (__init__ cfg)) as [Hcap _].
  fold self in Hcap. rewrite Hcap. reflexivity.
Qed.

(** C3. A call with [seek_event=True] returns [True] with the seek label
    and records the reason [USER_SEEK], whatever the sampler's state: the
    elapsed-interval test is not consulted (and its reference frame is left
    as it was).  Every decision returned by a call without the seek flag is
    the outcome of the elapsed-interval test, on the interval the call has
    just set. *)
Theorem seek_event_alone_bypasses_gate {cv : CV2}
    (clk : Clock) (idx : Z) (frame : Frame)
    (detections : option (list Detection)) (lock : bool) (self : Sampler) :
  (exists self',
     should_process_frame clk idx frame detections lock true self =
       (self', Ok (true, "User seek event"%string)) /\
     last_reason (metrics self') = USER_SEEK /\
     _last_processed_frame self' = _last_processed_frame self) /\
  (forall self' b label,
     should_process_frame clk idx frame detections lock false self =
       (self', Ok (b, label)) ->
     b = bool_decide
           (idx - _last_processed_frame self >= _current_interval self') /\
     label = reason_str (last_reason (metrics self')) (_current_interval self')).
Proof.
  split.
  - rewrite should_process_frame_seek. eexists. split; [reflexivity|].
    split; reflexivity.
  - intros self' b label Hcall.
    rewrite should_process_frame_no_seek in Hcall.
    apply bind_Ok_inv in Hcall as (self1 & [interval reason] & Hchoose & Hcommit).
    pose proof (choose_interval_last_processed clk frame detections lock
                  (enter idx self)) as Hlast.
    rewrite Hchoose in Hlast. unfold unchanged in Hlast. simpl in Hlast.
    destruct (commit_eq clk idx detections interval reason self1)
      as (self2 & Heq & Hint & Hreason & _).
    rewrite Heq in Hcommit. injection Hcommit as <- <- <-.
    rewrite Hint, Hreason, Hlast. split; [|reflexivity].
    destruct (Z.leb_spec interval (idx - _last_processed_frame self)).
    + by rewrite bool_decide_eq_true_2 by lia.
    + by rewrite bool_decide_eq_false_2 by lia.
Qed.

Lemma seek_event_alone_bypasses_gate_witness :
  let call := plain_call 1700000000 0 (np_full 2 2 (0, 0, 0)) in
  let self' := (evaluate (cv := cv2_example) call (__init__ None)).1 in
  false = bool_decide
            (0 - _last_processed_frame (__init__ None) >= _current_interval self') /\
  "default (interval=2)"%string =
    reason_str (last_reason (metrics self')) (_current_interval self').
Proof.
  intros call self'.
  apply (proj2 (seek_event_alone_bypasses_gate (cv := cv2_example)
                  (clock call) 0 (frame call) None false (__init__ None))).
  vm_compute. reflexivity.
Defined.

(** C9. Whatever the sampler's state and the arguments, a decision that
    [should_process_frame] returns never carries the reason
    [INITIALIZATION]: the reason it records is another member of
    [SamplingReason], and the label it returns is the seek label or the
    one built from that reason. *)
Theorem decisions_never_carry_initialization {cv : CV2}
    (clk : Clock) (idx : Z) (frame : Frame)
    (detections : option (list Detection)) (lock seek : bool)
    (self self' : Sampler) (b : bool) (label : string) :
  should_process_frame clk idx frame detections lock seek self =
    (self', Ok (b, label)) ->
  last_reason (metrics self') <> INITIALIZATION /\
  label = (if seek then "User seek event"%string
           else reason_str (last_reason (metrics self'))
                  (_current_interval self')).
Proof.
  destruct seek.
  - rewrite should_process_frame_seek. intros [= <- <- <-]. done.
  - intros Hcall. rewrite should_process_frame_no_seek in Hcall.
    apply bind_Ok_inv in Hcall as (self1 & [interval reason] & Hchoose & Hcommit).
    apply choose_interval_reason in Hchoose.
    destruct (commit_eq clk idx detections interval reason self1)
      as (self2 & Heq & Hint & Hreason & _).
    rewrite Heq in Hcommit. injection Hcommit as <- <- <-.
    rewrite Hint, Hreason. done.
Qed.

Lemma decisions_never_carry_initialization_witness :
  let call := plain_call 1700000000 0 (np_full 2 2 (0, 0, 0)) in
  let self' := (evaluate (cv := cv2_example) call (__init__ None)).1 in
  last_reason (metrics self') <> INITIALIZATION /\
  "default (interval=2)"%string =
    reason_str (last_reason (metrics self')) (_current_interval self').
Proof.
  intros call self'.
  apply (decisions_never_carry_initialization (cv := cv2_example)
           (clock call) 0 (frame call) None false false (__init__ None)
           self' false).
  vm_compute. reflexivity.
Defined.

(** C4. In a sequence of calls with strictly increasing frame indices
    (above the frame last processed, which is -1 on a new sampler), without
    seek events and with [lock_on_active=True] throughout, every call
    returns [True] with the interval set to 1. *)
Theorem lock_on_processes_every_frame {cv : CV2}
    (calls : list Call) (self : Sampler) :
  Forall (fun c => lock_on_active c = true /\ seek_event c = false) calls ->
  increasing_from (_last_processed_frame self) (map frame_idx calls) ->
  length (session calls self).2 = length calls /\
  Forall lock_on_label (session calls self).2 /\
  (calls <> [] -> _current_interval (session calls self).1 = 1).
Proof.
  revert self. induction calls as [|c calls IH]; intros self Hflags Hincr.
  - simpl. repeat split; [constructor | done].
  - apply Forall_cons in Hflags as [[Hlock Hseek] Hflags].
    destruct Hincr as [Hlt Hincr].
    destruct (lock_on_call (clock c) (frame_idx c) (frame c) (detections c)
                self Hlt) as (self1 & reason & Hcall & Hreason & Hlast & Hint).
    simpl. unfold evaluate. rewrite Hlock, Hseek, Hcall.
    rewrite <- Hlast in Hincr.
    destruct (IH self1 Hflags Hincr) as (Hlen & Hall & Hcur).
    destruct (session calls self1) as [self2 rs] eqn:Hsession. simpl in *.
    split; [by rewrite Hlen|]. split.
    + constructor; [|exact Hall].
      destruct Hreason as [-> | ->]; [left | right]; reflexivity.
    + intros _. destruct calls as [|c' calls'].
      * simpl in Hsession. by injection Hsession as <- _.
      * by apply Hcur.
Qed.

Lemma lock_on_processes_every_frame_witness :
  length (session (cv := cv2_example) lock_on_calls (__init__ None)).2 = 3%nat /\
  Forall lock_on_label
    (session (cv := cv2_example) lock_on_calls (__init__ None)).2 /\
  (lock_on_calls <> [] ->
   _current_interval
     (session (cv := cv2_example) lock_on_calls (__init__ None)).1 = 1).
Proof.
  apply (lock_on_processes_every_frame (cv := cv2_example) lock_on_calls
           (__init__ None)).
  - repeat constructor.
  - simpl. lia.
Defined.

(** C1 (the code departs from it). With the default configuration, no
    override and the same still frame on frames 0, 1, 2, 3, 4, the sampler
    skips frame 0 and processes frames 1 and 3: the reference frame starts
    at -1, so frame 0 is only one frame away from it, short of the
    interval 2. *)
Theorem default_session_skips_frame_0 :
  (session (cv := cv2_example) still_calls (__init__ None)).2 =
  [ Ok (false, "default (interval=2)"%string);
    Ok (true, "default (interval=2)"%string);
    Ok (false, "default (interval=2)"%string);
    Ok (true, "default (interval=2)"%string);
    Ok (false, "default (interval=2)"%string) ].
Proof. vm_compute. reflexivity. Qed.

Section Counting.
Context {cv : CV2}.

Lemma choose_interval_counted clk frame detections lock :
  steady (unchanged counted) (choose_interval clk frame detections lock).
Proof.
  unfold choose_interval, _calculate_adaptive_interval, motion_stage,
    crowd_stage, id_stage, stability_stage, _calculate_motion_score.
  steady_auto fin_unchanged.
Qed.

Lemma commit_counted clk idx detections interval reason (self : Sampler) :
  counted (commit clk idx detections interval reason self).1 = counted self + 1.
Proof.
  unfold commit. exec.
  destruct (interval <=? _); [destruct detections|]; exec;
    unfold counted; cbn; lia.
Qed.

(** A call without the seek flag that returns is counted exactly once. *)
Lemma counted_once_without_seek clk idx frame detections lock
    (self self' : Sampler) d :
  should_process_frame clk idx frame detections lock false self = (self', Ok d) ->
  counted self' = counted self + 1.
Proof.
  intros Hcall. rewrite should_process_frame_no_seek in Hcall.
  apply bind_Ok_inv in Hcall as (self1 & [interval reason] & Hchoose & Hcommit).
  pose proof (choose_interval_counted clk frame detections lock
                (enter idx self)) as Hsame.
  rewrite Hchoose in Hsame. unfold unchanged in Hsame. simpl in Hsame.
  pose proof (commit_counted clk idx detections interval reason self1) as Hone.
  rewrite Hcommit in Hone. simpl in Hone. rewrite Hone, Hsame. reflexivity.
Qed.
End Counting.

(** A call with the seek flag returns [True] and moves neither counter. *)
Lemma seek_call_leaves_counters {cv : CV2}
    (clk : Clock) (idx : Z) (frame : Frame)
    (detections : option (list Detection)) (lock : bool) (self : Sampler) :
  let r := should_process_frame clk idx frame detections lock true self in
  r.2 = Ok (true, "User seek event"%string) /\
  frames_processed (metrics r.1) = frames_processed (metrics self) /\
  frames_skipped (metrics r.1) = frames_skipped (metrics self).
Proof.
  intros r. subst r. rewrite should_process_frame_seek. repeat split.
Qed.

(** C2 (the code departs from it). A call with [seek_event=True] returns
    [True] but is counted neither as processed nor as skipped: after one
    such call on a new sampler both counters are 0, one call having been
    made. *)
Theorem seek_call_is_not_counted :
  let r := evaluate (cv := cv2_example) (seek_call 1700000000 0 still_frame)
             (__init__ None) in
  r.2 = Ok (true, "User seek event"%string) /\
  frames_processed (metrics r.1) = 0 /\
  frames_skipped (metrics r.1) = 0.
Proof.
  exact (seek_call_leaves_counters (cv := cv2_example)
           (clock_at 1700000000) 0 still_frame None false (__init__ None)).
Qed.

(** * Motion scoring *)

Lemma np_sum_positive_bounds (m : Gray) :
  0 <= np_sum_positive m <= Z.of_nat (shape0 m) * Z.of_nat (shape1 m).
Proof.
  unfold np_sum_positive, indices. split; [lia|].
  etrans; [apply inj_le, length_filter|].
  rewrite length_prod, !length_seq. lia.
Qed.

Lemma np_true_divide_unit (n d : Z) :
  0 <= n <= d -> 0 < d ->
  exists q, np_true_divide n d = Fin q /\ (0 <= q <= 1)%Q.
Proof.
  intros Hn Hd. unfold np_true_divide.
  destruct (Z.eqb_spec d 0) as [->|_]; [lia|].
  eexists. split; [reflexivity|].
  unfold Qle. simpl. rewrite Z2Pos.id by lia. lia.
Qed.

Section MotionScore.
Context {cv : CV2}.

Lemma _calculate_motion_score_empty frame (self : Sampler) :
  ndarray_empty frame = true ->
  _calculate_motion_score frame self =
  (self, Raise (cv2_error "cvtColor: !_src.empty()")).
Proof.
  intros Hempty. unfold _calculate_motion_score, cvtColor_BGR2GRAY.
  rewrite Hempty. exec. reflexivity.
Qed.

Lemma _calculate_motion_score_first frame (self : Sampler) :
  ndarray_empty frame = false ->
  _prev_frame_gray self = None ->
  _calculate_motion_score frame self =
  (set__prev_frame_gray (Some (smoothed frame)) self, Ok (Fin 0)).
Proof.
  intros Hempty Hprev. unfold _calculate_motion_score, cvtColor_BGR2GRAY.
  rewrite Hempty. exec. rewrite Hprev. exec. reflexivity.
Qed.

Lemma _calculate_motion_score_next frame prev (self : Sampler) :
  ndarray_empty frame = false ->
  _prev_frame_gray self = Some prev ->
  same_shape prev frame = true ->
  exists q,
    _calculate_motion_score frame self =
      (set__prev_frame_gray (Some (smoothed frame)) self, Ok (Fin q)) /\
    (0 <= q <= 1)%Q.
Proof.
  intros Hempty Hprev Hshape.
  unfold _calculate_motion_score, cvtColor_BGR2GRAY.
  rewrite Hempty. exec. rewrite Hprev. exec.
  unfold absdiff.
  change (same_shape prev (GaussianBlur _)) with (same_shape prev frame).
  rewrite Hshape. exec.
  match goal with
  | |- context [np_true_divide (np_sum_positive ?t) ?d] =>
      destruct (np_true_divide_unit (np_sum_positive t) d) as (q & Hq & Hunit)
  end.
  - apply np_sum_positive_bounds.
  - cbn. unfold ndarray_empty in Hempty.
    apply orb_false_iff in Hempty as [H0 H1].
    apply Nat.eqb_neq in H0, H1. lia.
  - exists q. rewrite Hq. exec. split; [reflexivity | exact Hunit].
Qed.

Lemma _calculate_motion_score_mismatch frame prev (self : Sampler) :
  ndarray_empty frame = false ->
  _prev_frame_gray self = Some prev ->
  same_shape prev frame = false ->
  single_pixel prev = false ->
  single_pixel frame = false ->
  _calculate_motion_score frame self =
  (self, Raise (cv2_error "absdiff: sizes of input arguments do not match")).
Proof.
  intros Hempty Hprev Hshape Hscalar Hpixel.
  unfold _calculate_motion_score, cvtColor_BGR2GRAY.
  rewrite Hempty. exec. rewrite Hprev. exec.
  unfold absdiff.
  change (same_shape prev (GaussianBlur _)) with (same_shape prev frame).
  change (single_pixel (GaussianBlur _)) with (single_pixel frame).
  rewrite Hshape, Hscalar, Hpixel. exec. reflexivity.
Qed.

(** Scoring leaves the sampler as it was or stores the smoothed frame. *)
Lemma _calculate_motion_score_stores frame (self : Sampler) :
  (_calculate_motion_score frame self).1 = self \/
  (_calculate_motion_score frame self).1 =
    set__prev_frame_gray (Some (smoothed frame)) self.
Proof.
  unfold _calculate_motion_score, cvtColor_BGR2GRAY, absdiff.
  destruct (ndarray_empty frame); exec; [by left|].
  destruct (_prev_frame_gray self) as [prev|]; exec; [|by right].
  destruct (same_shape prev _); exec; [by right|].
  destruct (single_pixel prev); exec; [by right|].
  destruct (single_pixel _); exec; [by right | by left].
Qed.
End MotionScore.

(** ** Calls that return *)

Lemma safe_bind {A B} (m : M A) (f : A -> M B) (self : Sampler) :
  safe m self ->
  (forall self1 a, m self = (self1, Ok a) -> safe (f a) self1) ->
  safe (m ≫= f) self.
Proof.
  intros (self1 & a & Hm) Hf. unfold safe. rewrite bind_eq, Hm.
  by apply Hf.
Qed.

Lemma total_bind {A B} (m : M A) (f : A -> M B) :
  total m -> (forall a, total (f a)) -> total (m ≫= f).
Proof. intros Hm Hf self. apply safe_bind; [apply Hm | intros; apply Hf]. Qed.

Lemma total_safe {A} (m : M A) (self : Sampler) : total m -> safe m self.
Proof. intros Hm. apply Hm. Qed.

Lemma total_ret {A} (a : A) : total (mret a).
Proof. intros self. by exists self, a. Qed.

Lemma total_get {A} (attr : Sampler -> A) : total (get attr).
Proof. intros self. by exists self, (attr self). Qed.

Lemma total_assign f : total (assign f).
Proof. intros self. by exists (f self), tt. Qed.

Lemma total_assign_metrics f : total (assign_metrics f).
Proof. apply total_assign. Qed.

Lemma total__record_telemetry now idx reason interval processed :
  total (_record_telemetry now idx reason interval processed).
Proof. intros self. unfold safe. rewrite _record_telemetry_eq. by eexists _, _. Qed.

Ltac total_step :=
  lazymatch goal with
  | |- total (mbind _ _) => apply total_bind; [| intros ?]
  | |- total (mret _) => apply total_ret
  | |- total (get _) => apply total_get
  | |- total (assign _) => apply total_assign
  | |- total (assign_metrics _) => apply total_assign_metrics
  | |- total (_record_telemetry _ _ _ _ _) => apply total__record_telemetry
  | |- total (if ?b then _ else _) => destruct b
  | |- total (let '(_, _) := (if ?b then _ else _) in _) => destruct b
  | |- total (match ?x with _ => _ end) => destruct x
  end.

Section Returning.
Context {cv : CV2}.

Lemma total_after_motion_stage detections interval reason :
  total ('(interval, reason) ← crowd_stage detections interval reason;
         '(interval, reason) ← id_stage detections interval reason;
         stability_stage interval reason).
Proof.
  unfold crowd_stage, id_stage, stability_stage. repeat total_step.
Qed.

Lemma total_commit clk idx detections interval reason :
  total (commit clk idx detections interval reason).
Proof. unfold commit. repeat total_step. Qed.
End Returning.

Section DecisionPath.
Context {cv : CV2}.

Lemma _calculate_motion_score_safe frame (self : Sampler) :
  scorable frame self -> safe (_calculate_motion_score frame) self.
Proof.
  intros [Hempty Hprev]. unfold safe.
  destruct (_prev_frame_gray self) as [prev|] eqn:E.
  - destruct (_calculate_motion_score_next frame prev self) as (q & -> & _);
      eauto.
  - rewrite _calculate_motion_score_first by done. eauto.
Qed.

Lemma motion_stage_safe frame interval reason (self : Sampler) :
  scorable frame self -> safe (motion_stage frame interval reason) self.
Proof.
  intros Hscorable. unfold motion_stage.
  apply safe_bind; [apply total_safe, total_get|]. intros self1 cfg [= <- <-].
  destruct (enable_motion_detection (config self));
    [|apply total_safe, total_ret].
  apply safe_bind; [by apply _calculate_motion_score_safe|].
  intros self1 score _. apply total_safe.
  repeat total_step.
Qed.

Lemma _calculate_adaptive_interval_safe frame detections (self : Sampler) :
  scorable frame self -> safe (_calculate_adaptive_interval frame detections) self.
Proof.
  intros Hscorable. unfold _calculate_adaptive_interval.
  apply safe_bind; [apply total_safe, total_get|]. intros self1 cfg [= <- <-].
  apply safe_bind; [by apply motion_stage_safe|].
  intros self1 [interval reason] _. apply total_safe, total_after_motion_stage.
Qed.

Lemma choose_interval_safe clk frame detections lock (self : Sampler) :
  scorable frame self -> safe (choose_interval clk frame detections lock) self.
Proof.
  intros Hscorable. unfold choose_interval.
  apply safe_bind; [apply total_safe, total_get|]. intros self1 cfg [= <- <-].
  apply safe_bind; [apply total_safe, total_get|]. intros self1 last_seek [= <- <-].
  destruct (Qlt_bool _ _); [apply total_safe, total_ret|].
  destruct lock; [apply total_safe; repeat total_step|].
  apply safe_bind; [apply total_safe, total_get|]. intros self1 boost [= <- <-].
  destruct (0 <? _); [apply total_safe; repeat total_step|].
  by apply _calculate_adaptive_interval_safe.
Qed.

(** A call returns when its frame can be scored. *)
Lemma should_process_frame_safe clk idx frame detections lock seek
    (self : Sampler) :
  scorable frame self ->
  safe (should_process_frame clk idx frame detections lock seek) self.
Proof.
  intros Hscorable. unfold safe. destruct seek.
  - rewrite should_process_frame_seek. eauto.
  - rewrite should_process_frame_no_seek.
    apply safe_bind; [by apply choose_interval_safe|].
    intros self1 [interval reason] _. apply total_safe, total_commit.
Qed.
End DecisionPath.

(** ** Sessions on frames of one size *)

Global Instance keeps_prev_sized_preorder rows cols :
  PreOrder (keeps_prev_sized rows cols).
Proof.
  split.
  - intros s Hs. exact Hs.
  - intros s1 s2 s3 H12 H23 Hs. auto.
Qed.

Ltac fin_sized := unfold keeps_prev_sized, prev_sized; cbn; tauto.

Lemma _record_telemetry_sized rows cols now idx reason interval processed :
  steady (keeps_prev_sized rows cols)
    (_record_telemetry now idx reason interval processed).
Proof. unfold _record_telemetry. steady_auto fin_sized. Qed.
Global Hint Resolve _record_telemetry_sized : steady.

Section OneSize.
Context {cv : CV2}.

Lemma _calculate_motion_score_sized frame :
  steady (keeps_prev_sized (shape0 frame) (shape1 frame))
    (_calculate_motion_score frame).
Proof.
  intros self Hsized.
  destruct (_calculate_motion_score_stores frame self) as [-> | ->]; [done|].
  unfold prev_sized. cbn. done.
Qed.
Hint Resolve _calculate_motion_score_sized : steady.

Lemma should_process_frame_sized clk idx frame detections lock seek :
  steady (keeps_prev_sized (shape0 frame) (shape1 frame))
    (should_process_frame clk idx frame detections lock seek).
Proof.
  unfold should_process_frame, _calculate_adaptive_interval, motion_stage,
    crowd_stage, id_stage, stability_stage.
  steady_auto fin_sized.
Qed.

Lemma prev_sized_scorable frame (self : Sampler) :
  ndarray_empty frame = false ->
  prev_sized (shape0 frame) (shape1 frame) self ->
  scorable frame self.
Proof.
  intros Hempty Hsized. split; [done|].
  unfold prev_sized in Hsized. destruct (_prev_frame_gray self) as [prev|]; [|done].
  destruct Hsized as [H0 H1]. unfold same_shape.
  rewrite H0, H1, !Nat.eqb_refl. done.
Qed.

(** No call of a session raises when its frames are non-empty and of one
    size, on a sampler whose stored frame, if any, has that size. *)
Lemma session_one_size_safe rows cols calls (self : Sampler) :
  Forall (fun c => ndarray_empty (frame c) = false /\
                   shape0 (frame c) = rows /\ shape1 (frame c) = cols) calls ->
  prev_sized rows cols self ->
  Forall (fun r => exists d, r = Ok d) (session calls self).2.
Proof.
  revert self. induction calls as [|c calls IH]; intros self Hcalls Hsized.
  - constructor.
  - apply Forall_cons in Hcalls as [(Hempty & <- & <-) Hcalls].
    destruct (should_process_frame_safe (clock c) (frame_idx c) (frame c)
                (detections c) (lock_on_active c) (seek_event c) self)
      as (self1 & d & Hcall); [by apply prev_sized_scorable|].
    pose proof (should_process_frame_sized (clock c) (frame_idx c) (frame c)
                  (detections c) (lock_on_active c) (seek_event c) self Hsized)
      as Hsized1.
    simpl. unfold evaluate. rewrite Hcall in Hsized1 |- *. simpl in Hsized1.
    specialize (IH self1 Hcalls Hsized1).
    destruct (session calls self1) as [self2 rs]. simpl in *.
    constructor; [eauto | exact IH].
Qed.
End OneSize.

(** C8 (amended). Scoring raises on a frame without pixels, OpenCV
    rejecting the empty image, instead of yielding 0.  On a frame with
    pixels the score is 0 when no previous frame is stored and lies in
    [0,1] when the stored frame has the same size.  A call whose frame can
    be scored in this sense returns, and no call of a session raises when
    all its frames have pixels and one size. *)
Theorem motion_score_contract {cv : CV2} (image : Frame) (self : Sampler) :
  (ndarray_empty image = true ->
   _calculate_motion_score image self =
     (self, Raise (cv2_error "cvtColor: !_src.empty()"))) /\
  (ndarray_empty image = false -> _prev_frame_gray self = None ->
   (_calculate_motion_score image self).2 = Ok (Fin 0)) /\
  (scorable image self ->
   exists q, (_calculate_motion_score image self).2 = Ok (Fin q) /\
             (0 <= q <= 1)%Q) /\
  (scorable image self ->
   forall clk idx detections lock seek,
   exists d,
     (should_process_frame clk idx image detections lock seek self).2 = Ok d) /\
  (forall calls,
     Forall (fun c => ndarray_empty (frame c) = false /\
                      shape0 (frame c) = shape0 image /\
                      shape1 (frame c) = shape1 image) calls ->
     prev_sized (shape0 image) (shape1 image) self ->
     Forall (fun r => exists d, r = Ok d) (session calls self).2).
Proof.
  repeat split.
  - apply _calculate_motion_score_empty.
  - intros Hempty Hprev. by rewrite _calculate_motion_score_first.
  - intros [Hempty Hprev].
    destruct (_prev_frame_gray self) as [prev|] eqn:E.
    + destruct (_calculate_motion_score_next image prev self)
        as (q & -> & Hq); eauto.
    + rewrite _calculate_motion_score_first by done.
      exists 0%Q. split; [done|]. split; done.
  - intros Hscorable clk idx detections lock seek.
    destruct (should_process_frame_safe clk idx image detections lock seek
                self Hscorable) as (self' & d & ->). eauto.
  - intros calls. apply session_one_size_safe.
Qed.

Lemma motion_score_contract_witness :
  _calculate_motion_score (cv := cv2_example) empty_frame (__init__ None) =
    (__init__ None, Raise (cv2_error "cvtColor: !_src.empty()")) /\
  (_calculate_motion_score (cv := cv2_example) still_frame (__init__ None)).2 =
    Ok (Fin 0) /\
  (exists q,
     (_calculate_motion_score (cv := cv2_example) still_frame (__init__ None)).2 =
       Ok (Fin q) /\ (0 <= q <= 1)%Q) /\
  (forall clk idx detections lock seek,
   exists d,
     (should_process_frame (cv := cv2_example) clk idx still_frame detections
        lock seek (__init__ None)).2 = Ok d) /\
  Forall (fun r => exists d, r = Ok d)
    (session (cv := cv2_example) still_calls (__init__ None)).2.
Proof.
  pose proof (motion_score_contract (cv := cv2_example) empty_frame
                (__init__ None)) as (Hempty & _).
  pose proof (motion_score_contract (cv := cv2_example) still_frame
                (__init__ None)) as (_ & Hfirst & Hunit & Hcall & Hsession).
  assert (Hscorable : scorable still_frame (__init__ None))
    by (split; reflexivity).
  split; [apply Hempty; reflexivity|].
  split; [apply Hfirst; reflexivity|].
  split; [apply Hunit, Hscorable|].
  split; [apply Hcall, Hscorable|].
  apply Hsession.
  - repeat constructor.
  - exact I.
Defined.

(** C8 as stated fails: a frame without pixels makes the scoring, and the
    call that scores it, raise; so does a frame whose size differs from
    that of the frame scored before it. *)
Lemma degenerate_frame_raises :
  (_calculate_motion_score (cv := cv2_example) empty_frame (__init__ None)).2 =
    Raise (cv2_error "cvtColor: !_src.empty()") /\
  (evaluate (cv := cv2_example) (plain_call 1700000000 0 empty_frame)
     (__init__ None)).2 =
    Raise (cv2_error "cvtColor: !_src.empty()") /\
  (session (cv := cv2_example) resized_calls (__init__ None)).2 =
    [ Ok (false, "default (interval=2)"%string);
      Raise (cv2_error "absdiff: sizes of input arguments do not match") ].
Proof. vm_compute. repeat split. Qed.

(** * The crowd stage *)

Lemma crowd_change_fires (threshold : Q) :
  (threshold < 3 # 2)%Q ->
  Qlt_bool threshold (inject_Z (Z.abs (5 - 2)) / inject_Z 2) = true.
Proof.
  intros Hlt. unfold Qlt_bool.
  destruct (Qle_bool _ threshold) eqn:E; [|done].
  apply Qle_bool_iff in E. exfalso.
  apply (Qlt_not_le _ _ Hlt). exact E.
Qed.

Section Crowd.
Context {cv : CV2}.

Lemma crowd_stage_change detections interval reason (self : Sampler) :
  enable_crowd_monitoring (config self) = true ->
  _prev_detection_count self = 2 ->
  len detections = 5 ->
  (detection_change_threshold (config self) < 3 # 2)%Q ->
  crowd_stage (Some detections) interval reason self =
  (set__prev_detection_count 5 (set__stability_counter 0 self),
   Ok (Z.min interval (min_interval (config self) + 1), CROWD_CHANGE)).
Proof.
  intros Henabled Hprev Hlen Hthreshold. unfold crowd_stage. exec.
  rewrite Henabled. exec. rewrite Hprev, Hlen. exec. cbn [Z.ltb Z.compare].
  rewrite crowd_change_fires by done. exec. reflexivity.
Qed.

Lemma crowd_stage_skip detections interval reason (self : Sampler) :
  enable_crowd_monitoring (config self) = true ->
  _prev_detection_count self = 0 ->
  crowd_stage (Some detections) interval reason self =
  (set__prev_detection_count (len detections) self, Ok (interval, reason)).
Proof.
  intros Henabled Hprev. unfold crowd_stage. exec.
  rewrite Henabled. exec. rewrite Hprev. exec. reflexivity.
Qed.

Lemma crowd_stage_updates_count detections interval reason (self : Sampler) :
  enable_crowd_monitoring (config self) = true ->
  _prev_detection_count (crowd_stage (Some detections) interval reason self).1 =
  len detections.
Proof.
  intros Henabled. unfold crowd_stage. exec. rewrite Henabled. exec.
  destruct (0 <? _); [destruct (Qlt_bool _ _)|]; exec; reflexivity.
Qed.

Lemma motion_stage_crowd_inputs frame interval reason :
  steady (unchanged crowd_inputs) (motion_stage frame interval reason).
Proof.
  unfold motion_stage, _calculate_motion_score. steady_auto fin_unchanged.
Qed.

Lemma id_stage_quiet_eq detections interval reason (self self' : Sampler) d :
  id_stage_quiet detections self ->
  id_stage (Some detections) interval reason self = (self', Ok d) ->
  d = (interval, reason) /\
  config self' = config self /\
  _prev_detection_count self' = _prev_detection_count self.
Proof.
  intros Hquiet. unfold id_stage. exec.
  destruct (enable_id_tracking (config self)) eqn:Henabled.
  - exec. destruct Hquiet as [Hoff | [Hnone | Hsame]]; [congruence| |].
    + rewrite Hnone. rewrite bool_decide_eq_false_2 by (intros Hne; by apply Hne).
      exec. intros [= <- <-]. done.
    + rewrite Hsame.
      rewrite (bool_decide_eq_false_2 (_prev_track_ids self ≠ _prev_track_ids self))
        by (intros Hne; by apply Hne).
      rewrite andb_false_r. exec. intros [= <- <-]. done.
  - exec. intros [= <- <-]. done.
Qed.

Lemma stability_stage_eq interval reason (self : Sampler) :
  reason <> DEFAULT ->
  stability_stage interval reason self =
  (self, Ok (Z.max (min_interval (config self))
               (Z.min (max_interval (config self)) interval), reason)).
Proof.
  intros Hreason. unfold stability_stage. exec.
  rewrite (bool_decide_eq_false_2 (reason = DEFAULT)) by done.
  destruct (_ <=? _); reflexivity.
Qed.
Lemma crowd_stage_id_inputs detections interval reason :
  steady (unchanged id_inputs) (crowd_stage detections interval reason).
Proof. unfold crowd_stage. steady_auto fin_unchanged. Qed.

Lemma id_stage_fires_eq detections interval reason (self : Sampler) :
  enable_id_tracking (config self) = true ->
  _prev_track_ids self <> ∅ ->
  track_ids detections <> _prev_track_ids self ->
  (id_stage (Some detections) interval reason self).2 =
  Ok (min_interval (config self), ID_SWITCH).
Proof.
  intros Henabled Hstored Hdiffer. unfold id_stage. exec.
  rewrite Henabled. exec.
  rewrite !bool_decide_eq_true_2 by done. cbn [andb].
  assert (Hmoved : track_ids detections ∖ _prev_track_ids self ≠ ∅ \/
                   _prev_track_ids self ∖ track_ids detections ≠ ∅).
  { destruct (decide (track_ids detections ∖ _prev_track_ids self = ∅))
      as [Hnew|]; [|by left].
    right. intros Hlost. apply Hdiffer. apply set_eq. intros x. split; intros Hx.
    - destruct (decide (x ∈ _prev_track_ids self)) as [|Hout]; [done|].
      assert (Hin : x ∈ track_ids detections ∖ _prev_track_ids self)
        by (by apply elem_of_difference).
      rewrite Hnew in Hin. by apply not_elem_of_empty in Hin.
    - destruct (decide (x ∈ track_ids detections)) as [|Hout]; [done|].
      assert (Hin : x ∈ _prev_track_ids self ∖ track_ids detections)
        by (by apply elem_of_difference).
      rewrite Hlost in Hin. by apply not_elem_of_empty in Hin. }
  assert (Hfires :
    bool_decide (track_ids detections ∖ _prev_track_ids self ≠ ∅)
    || bool_decide (_prev_track_ids self ∖ track_ids detections ≠ ∅) = true).
  { destruct Hmoved as [Hnew | Hlost].
    - by rewrite (bool_decide_eq_true_2 _ Hnew).
    - rewrite (bool_decide_eq_true_2 _ Hlost). apply orb_true_r. }
  rewrite Hfires. exec. reflexivity.
Qed.
End Crowd.

(** C6 (amended). With crowd monitoring enabled and a detection list
    passed, a stored count of 2 followed by 5 detections (a change of 150%,
    above a threshold below 150% such as the default 30%) makes the crowd
    stage set the reason [CROWD_CHANGE] and cap the interval at
    [min(interval, min_interval + 1)], whatever reason and interval the
    motion stage left; the check is skipped when the stored count is 0;
    the stored count becomes the current count in every case.  The reason
    of the decision is then [CROWD_CHANGE], with an interval of at most
    [min_interval + 1], provided the identity stage that runs next does not
    fire; when it fires, the reason of the decision is [ID_SWITCH]. *)
Theorem crowd_change_decision {cv : CV2}
    (detections : list Detection) (self : Sampler) :
  enable_crowd_monitoring (config self) = true ->
  (forall interval reason,
     _prev_detection_count self = 2 -> len detections = 5 ->
     (detection_change_threshold (config self) < 3 # 2)%Q ->
     crowd_stage (Some detections) interval reason self =
       (set__prev_detection_count 5 (set__stability_counter 0 self),
        Ok (Z.min interval (min_interval (config self) + 1), CROWD_CHANGE))) /\
  (forall interval reason,
     _prev_detection_count self = 0 ->
     crowd_stage (Some detections) interval reason self =
       (set__prev_detection_count (len detections) self,
        Ok (interval, reason))) /\
  (forall interval reason,
     _prev_detection_count
       (crowd_stage (Some detections) interval reason self).1 =
     len detections) /\
  (forall image self' interval reason,
     _prev_detection_count self = 2 -> len detections = 5 ->
     (detection_change_threshold (config self) < 3 # 2)%Q ->
     id_stage_quiet detections self ->
     _calculate_adaptive_interval image (Some detections) self =
       (self', Ok (interval, reason)) ->
     reason = CROWD_CHANGE /\
     interval <= min_interval (config self) + 1 /\
     _prev_detection_count self' = 5) /\
  (forall image self' interval reason,
     enable_id_tracking (config self) = true ->
     _prev_track_ids self <> ∅ ->
     track_ids detections <> _prev_track_ids self ->
     _calculate_adaptive_interval image (Some detections) self =
       (self', Ok (interval, reason)) ->
     reason = ID_SWITCH).
Proof.
  intros Henabled. split; [|split; [|split; [|split]]].
  - intros. by apply crowd_stage_change.
  - intros. by apply crowd_stage_skip.
  - intros. by apply crowd_stage_updates_count.
  - intros image self' interval reason Hprev Hlen Hthreshold Hquiet Hcall.
    unfold _calculate_adaptive_interval in Hcall.
    apply bind_Ok_inv in Hcall as (? & cfg & [= <- <-] & Hcall).
    apply bind_Ok_inv in Hcall as (self1 & [i0 r0] & Hmotion & Hcall).
    pose proof (motion_stage_crowd_inputs image (default_interval (config self))
                  DEFAULT self) as Hsame.
    rewrite Hmotion in Hsame. unfold unchanged, crowd_inputs in Hsame.
    simpl in Hsame. injection Hsame as Hconfig Hcount Hids.
    apply bind_Ok_inv in Hcall as (self2 & [i1 r1] & Hcrowd & Hcall).
    rewrite crowd_stage_change in Hcrowd by congruence.
    injection Hcrowd as <- <- <-.
    apply bind_Ok_inv in Hcall as (self3 & [i2 r2] & Hid & Hcall).
    apply id_stage_quiet_eq in Hid as ([= -> ->] & Hconfig3 & Hcount3).
    + rewrite stability_stage_eq in Hcall by done.
      injection Hcall as <- <- <-.
      cbn in Hconfig3, Hcount3. rewrite Hconfig3, Hcount3, Hconfig.
      repeat split. lia.
    + unfold id_stage_quiet in *. cbn. rewrite Hconfig, Hids. exact Hquiet.
  - intros image self' interval reason Htracking Hstored Hdiffer Hcall.
    unfold _calculate_adaptive_interval in Hcall.
    apply bind_Ok_inv in Hcall as (? & cfg & [= <- <-] & Hcall).
    apply bind_Ok_inv in Hcall as (self1 & [i0 r0] & Hmotion & Hcall).
    pose proof (motion_stage_crowd_inputs image (default_interval (config self))
                  DEFAULT self) as Hsame.
    rewrite Hmotion in Hsame. unfold unchanged, crowd_inputs in Hsame.
    simpl in Hsame. injection Hsame as Hconfig _ Hids.
    apply bind_Ok_inv in Hcall as (self2 & [i1 r1] & Hcrowd & Hcall).
    pose proof (crowd_stage_id_inputs (Some detections) i0 r0 self1) as Hsame.
    rewrite Hcrowd in Hsame. unfold unchanged, id_inputs in Hsame.
    simpl in Hsame. injection Hsame as Hconfig2 Hids2.
    apply bind_Ok_inv in Hcall as (self3 & [i2 r2] & Hid & Hcall).
    pose proof (id_stage_fires_eq detections i1 r1 self2) as Hfires.
    rewrite Hid, Hconfig2, Hids2, Hconfig, Hids in Hfires.
    specialize (Hfires Htracking Hstored Hdiffer). simpl in Hfires.
    injection Hfires as -> ->.
    rewrite stability_stage_eq in Hcall by done.
    by injection Hcall as <- <- <-.
Qed.

Lemma crowd_change_decision_witness :
  let known := set__prev_detection_count 2 (__init__ None) in
  let r := _calculate_adaptive_interval (cv := cv2_example) still_frame
             (Some (anonymous 5)) known in
  crowd_stage (Some (anonymous 5)) 1 MOTION_SPIKE known =
    (set__prev_detection_count 5 (set__stability_counter 0 known),
     Ok (1, CROWD_CHANGE)) /\
  crowd_stage (Some (anonymous 5)) 2 DEFAULT (__init__ None) =
    (set__prev_detection_count 5 (__init__ None), Ok (2, DEFAULT)) /\
  _prev_detection_count
    (crowd_stage (Some (anonymous 5)) 2 DEFAULT known).1 = 5 /\
  (CROWD_CHANGE = CROWD_CHANGE /\ 2 <= 1 + 1 /\ _prev_detection_count r.1 = 5) /\
  ID_SWITCH = ID_SWITCH.
Proof.
  intros known r.
  pose proof (crowd_change_decision (cv := cv2_example) (anonymous 5) known
                eq_refl) as (Hchange & _ & Hcount & Hdecision & _).
  pose proof (crowd_change_decision (cv := cv2_example)
                (with_ids [1; 2; 3; 4; 5]) after_two_ids eq_refl)
    as (_ & _ & _ & _ & Hswitch).
  pose proof (crowd_change_decision (cv := cv2_example) (anonymous 5)
                (__init__ None) eq_refl) as (_ & Hskip & _).
  split; [apply (Hchange 1 MOTION_SPIKE); [reflexivity | reflexivity | reflexivity]|].
  split; [apply (Hskip 2 DEFAULT); reflexivity|].
  split; [apply (Hcount 2 DEFAULT)|].
  split.
  - apply (Hdecision still_frame r.1 2 CROWD_CHANGE).
    + reflexivity.
    + reflexivity.
    + reflexivity.
    + right. left. reflexivity.
    + vm_compute. reflexivity.
  - apply (Hswitch still_frame
             (_calculate_adaptive_interval (cv := cv2_example) still_frame
                (Some (with_ids [1; 2; 3; 4; 5])) after_two_ids).1 1 ID_SWITCH).
    + reflexivity.
    + vm_compute. discriminate.
    + vm_compute. discriminate.
    + vm_compute. reflexivity.
Defined.

(** C6 as stated fails: in the scenario of the repository's own test (two
    tracked detections, then five), the stored count is 2 and five
    detections arrive, yet the reason of the decision is [ID_SWITCH]: the
    identity stage runs after the crowd stage and replaces its reason. *)
Lemma crowd_change_overridden_by_id_switch :
  let self := after_two_ids in
  enable_crowd_monitoring (config self) = true /\
  _prev_detection_count self = 2 /\
  len (with_ids [1; 2; 3; 4; 5]) = 5 /\
  (_calculate_adaptive_interval (cv := cv2_example) still_frame
     (Some (with_ids [1; 2; 3; 4; 5])) self).2 = Ok (1, ID_SWITCH).
Proof. vm_compute. repeat split. Qed.

(** * Further properties of the sampler *)

(** ** Counters *)

Global Instance counters_grow_preorder : PreOrder counters_grow.
Proof.
  split.
  - intros s. unfold counters_grow. lia.
  - intros s1 s2 s3. unfold counters_grow. lia.
Qed.

Ltac fin_counters := unfold counters_grow, len; cbn; lia.

Lemma _record_telemetry_counters now idx reason interval processed :
  steady counters_grow (_record_telemetry now idx reason interval processed).
Proof. unfold _record_telemetry. steady_auto fin_counters. Qed.
Global Hint Resolve _record_telemetry_counters : steady.

Section Counters.
Context {cv : CV2}.

Lemma should_process_frame_counters clk idx frame detections lock seek :
  steady counters_grow
    (should_process_frame clk idx frame detections lock seek).
Proof.
  unfold should_process_frame, _calculate_adaptive_interval, motion_stage,
    crowd_stage, id_stage, stability_stage, _calculate_motion_score.
  steady_auto fin_counters.
Qed.

Lemma after_enter_counters clk idx frame detections lock (self : Sampler) :
  counters_grow (enter idx self)
    (('(interval, reason) ← choose_interval clk frame detections lock;
      commit clk idx detections interval reason) (enter idx self)).1.
Proof.
  revert self.
  assert (Hsteady : steady counters_grow
    ('(interval, reason) ← choose_interval clk frame detections lock;
     commit clk idx detections interval reason)).
  { unfold choose_interval, commit, _calculate_adaptive_interval, motion_stage,
      crowd_stage, id_stage, stability_stage, _calculate_motion_score.
    steady_auto fin_counters. }
  intros self. apply Hsteady.
Qed.
End Counters.

(** X1. No call of [should_process_frame] lowers a counter of the metrics
    (processed, skipped, total, detections seen, identity switches, lock
    events), whether it returns or raises, and after the call
    [total_frames] is at least the frame index plus one. *)
Theorem metrics_counters_never_decrease {cv : CV2}
    (clk : Clock) (idx : Z) (image : Frame)
    (detections : option (list Detection)) (lock seek : bool) (self : Sampler) :
  let self' := (should_process_frame clk idx image detections lock seek self).1 in
  counters_grow self self' /\
  idx + 1 <= total_frames (metrics self').
Proof.
  intros self'. split; [apply should_process_frame_counters|].
  subst self'. destruct seek.
  - rewrite should_process_frame_seek. cbn. lia.
  - rewrite should_process_frame_no_seek.
    pose proof (after_enter_counters clk idx image detections lock self)
      as (_ & _ & Htotal & _).
    cbn in Htotal. lia.
Qed.

(** ** The interval and the elapsed-interval gate *)

Lemma clamp_bounds lo hi x :
  lo <= clamp lo hi x /\
  (lo <= hi -> clamp lo hi x <= hi) /\
  (hi < lo -> clamp lo hi x = lo).
Proof. unfold clamp. lia. Qed.

Lemma stability_stage_clamped interval reason (self : Sampler) :
  exists x reason',
    stability_stage interval reason self =
    (self, Ok (clamp (min_interval (config self)) (max_interval (config self)) x,
               reason')).
Proof.
  unfold stability_stage, clamp. exec.
  destruct (_ <=? _); [destruct (bool_decide _)|]; eauto.
Qed.

Section Gate.
Context {cv : CV2}.

Lemma motion_stage_config frame interval reason :
  steady (unchanged config) (motion_stage frame interval reason).
Proof.
  unfold motion_stage, _calculate_motion_score. steady_auto fin_unchanged.
Qed.

Lemma crowd_stage_config detections interval reason :
  steady (unchanged config) (crowd_stage detections interval reason).
Proof. unfold crowd_stage. steady_auto fin_unchanged. Qed.

Lemma id_stage_config detections interval reason :
  steady (unchanged config) (id_stage detections interval reason).
Proof. unfold id_stage. steady_auto fin_unchanged. Qed.

Lemma _calculate_adaptive_interval_clamped frame detections
    (self self' : Sampler) interval reason :
  _calculate_adaptive_interval frame detections self =
    (self', Ok (interval, reason)) ->
  exists x,
    interval = clamp (min_interval (config self)) (max_interval (config self)) x.
Proof.
  intros Hcall. unfold _calculate_adaptive_interval in Hcall.
  apply bind_Ok_inv in Hcall as (? & cfg & [= <- <-] & Hcall).
  apply bind_Ok_inv in Hcall as (self1 & [i1 r1] & Hmotion & Hcall).
  apply bind_Ok_inv in Hcall as (self2 & [i2 r2] & Hcrowd & Hcall).
  apply bind_Ok_inv in Hcall as (self3 & [i3 r3] & Hid & Hcall).
  pose proof (motion_stage_config frame (default_interval (config self))
                DEFAULT self) as H1.
  pose proof (crowd_stage_config detections i1 r1 self1) as H2.
  pose proof (id_stage_config detections i2 r2 self2) as H3.
  rewrite Hmotion in H1. rewrite Hcrowd in H2. rewrite Hid in H3.
  unfold unchanged in *. simpl in *.
  destruct (stability_stage_clamped i3 r3 self3) as (x & r' & Hstab).
  rewrite Hstab in Hcall. injection Hcall as <- <- <-.
  exists x. congruence.
Qed.

Lemma choose_interval_gate_inputs clk frame detections lock :
  steady (unchanged gate_inputs) (choose_interval clk frame detections lock).
Proof.
  unfold choose_interval, _calculate_adaptive_interval, motion_stage,
    crowd_stage, id_stage, stability_stage, _calculate_motion_score.
  steady_auto fin_unchanged.
Qed.

Lemma choose_interval_clamped clk frame detections lock
    (self self' : Sampler) interval reason :
  choose_interval clk frame detections lock self =
    (self', Ok (interval, reason)) ->
  interval = 1 \/
  exists x,
    interval = clamp (min_interval (config self)) (max_interval (config self)) x.
Proof.
  unfold choose_interval. exec.
  destruct (Qlt_bool _ _); exec; [intros [= _ <- _]; by left|].
  destruct lock; exec; [intros [= _ <- _]; by left|].
  destruct (0 <? _); exec; [intros [= _ <- _]; by left|].
  intros Hcall. right. by eapply _calculate_adaptive_interval_clamped.
Qed.

(** What [commit] does to the attributes the gate and the ratio read. *)
Lemma commit_gate clk idx detections interval reason (self : Sampler) :
  let gate := interval <=? idx - _last_processed_frame self in
  let self' := (commit clk idx detections interval reason self).1 in
  (commit clk idx detections interval reason self).2 =
    Ok (gate, reason_str reason interval) /\
  config self' = config self /\
  _current_interval self' = interval /\
  _last_processed_frame self' =
    (if gate then idx else _last_processed_frame self) /\
  frames_processed (metrics self') =
    frames_processed (metrics self) + (if gate then 1 else 0) /\
  frames_skipped (metrics self') =
    frames_skipped (metrics self) + (if gate then 0 else 1) /\
  total_frames (metrics self') = total_frames (metrics self) /\
  detection_count (metrics self') =
    detection_count (metrics self) +
    (if gate then from_option len 0 detections else 0).
Proof.
  unfold commit. exec.
  destruct (interval <=? _) eqn:Hgate; [destruct detections|];
    exec; cbn; repeat split; lia.
Qed.
End Gate.

Lemma processing_ratio_percent (m : SamplingMetrics) :
  0 <= frames_processed m <= total_frames m ->
  (0 <= processing_ratio m <= 100)%Q.
Proof.
  intros [Hlo Hhi]. unfold processing_ratio.
  destruct (Z.eqb_spec (total_frames m) 0) as [_|Hne]; [split; done|].
  assert (Hpos : (0 < inject_Z (total_frames m))%Q)
    by (change 0%Q with (inject_Z 0); rewrite <- Zlt_Qlt; lia).
  assert (Hp : (0 <= inject_Z (frames_processed m))%Q)
    by (change 0%Q with (inject_Z 0); rewrite <- Zle_Qle; lia).
  assert (Hle : (inject_Z (frames_processed m) <= inject_Z (total_frames m))%Q)
    by (rewrite <- Zle_Qle; lia).
  split.
  - apply Qmult_le_0_compat; [|done].
    apply Qle_shift_div_l; [done|]. by rewrite Qmult_0_l.
  - apply Qle_trans with (1 * 100)%Q; [|done].
    apply Qmult_le_compat_r; [|done].
    apply Qle_shift_div_r; [done|]. by rewrite Qmult_1_l.
Qed.

Section GateTheorems.
Context {cv : CV2}.

Lemma should_process_frame_config clk idx frame detections lock seek
    (self : Sampler) :
  config (should_process_frame clk idx frame detections lock seek self).1 =
  config self.
Proof.
  destruct seek.
  - by rewrite should_process_frame_seek.
  - rewrite should_process_frame_no_seek, bind_eq.
    pose proof (choose_interval_gate_inputs clk frame detections lock
                  (enter idx self)) as Hsame.
    destruct (choose_interval _ _ _ _ _) as [self1 [[interval reason]|e]];
      unfold unchanged, gate_inputs in Hsame; simpl in Hsame;
      injection Hsame as Hconfig _ _ _; [|done].
    pose proof (commit_gate clk idx detections interval reason self1)
      as (_ & -> & _). done.
Qed.

Lemma should_process_frame_within_seen clk idx frame detections lock seek
    (self : Sampler) :
  1 <= min_interval (config self) ->
  processed_within_seen self ->
  processed_within_seen
    (should_process_frame clk idx frame detections lock seek self).1.
Proof.
  intros Hmin (H0 & H1 & H2). unfold processed_within_seen. destruct seek.
  - rewrite should_process_frame_seek. cbn. lia.
  - rewrite should_process_frame_no_seek, bind_eq.
    pose proof (choose_interval_gate_inputs clk frame detections lock
                  (enter idx self)) as Hsame.
    destruct (choose_interval _ _ _ _ _) as [self1 [[interval reason]|e]] eqn:E;
      unfold unchanged, gate_inputs in Hsame; simpl in Hsame;
      injection Hsame as Hconfig Hlast Hprocessed Htotal.
    + apply choose_interval_clamped in E.
      pose proof (commit_gate clk idx detections interval reason self1)
        as (_ & _ & _ & -> & -> & _ & -> & _).
      rewrite Hlast, Hprocessed, Htotal.
      assert (Hinterval : 1 <= interval).
      { destruct E as [-> | [x ->]]; [lia|].
        pose proof (clamp_bounds (min_interval (config (enter idx self)))
                      (max_interval (config (enter idx self))) x).
        cbn in *. lia. }
      destruct (Z.leb_spec interval (idx - _last_processed_frame self)); lia.
    + simpl. rewrite Hlast, Hprocessed, Htotal. lia.
Qed.
End GateTheorems.

Lemma session_invariant {cv : CV2} (P : Sampler -> Prop) calls (self : Sampler) :
  (forall c s, P s -> P (evaluate c s).1) ->
  P self -> P (session calls self).1.
Proof.
  intros Hstep. revert self. induction calls as [|c calls IH]; intros self HP.
  - exact HP.
  - simpl. specialize (Hstep c self HP).
    destruct (evaluate c self) as [self1 r]. simpl in Hstep.
    specialize (IH self1 Hstep).
    destruct (session calls self1) as [self2 rs]. exact IH.
Qed.

(** X2. The interval a call without the seek flag sets is 1 (an override)
    or lies at or above [min_interval]; it is at most [max_interval] when
    the bounds are in order, and it is [min_interval] when they are
    inverted ([max_interval < min_interval]).  The call leaves the
    configuration as it was. *)
Theorem interval_within_bounds {cv : CV2}
    (clk : Clock) (idx : Z) (image : Frame)
    (detections : option (list Detection)) (lock : bool)
    (self self' : Sampler) (d : bool * string) :
  should_process_frame clk idx image detections lock false self =
    (self', Ok d) ->
  config self' = config self /\
  (_current_interval self' = 1 \/
   (min_interval (config self) <= _current_interval self' /\
    (min_interval (config self) <= max_interval (config self) ->
     _current_interval self' <= max_interval (config self)) /\
    (max_interval (config self) < min_interval (config self) ->
     _current_interval self' = min_interval (config self)))).
Proof.
  intros Hcall.
  pose proof (should_process_frame_config clk idx image detections lock false
                self) as Hconfig.
  rewrite Hcall in Hconfig. split; [exact Hconfig|].
  rewrite should_process_frame_no_seek in Hcall.
  apply bind_Ok_inv in Hcall as (self1 & [interval reason] & Hchoose & Hcommit).
  pose proof (commit_gate clk idx detections interval reason self1)
    as (_ & _ & Hinterval & _).
  rewrite Hcommit in Hinterval. simpl in Hinterval. rewrite Hinterval.
  apply choose_interval_clamped in Hchoose as [-> | [x ->]]; [by left|].
  right. apply clamp_bounds.
Qed.

Lemma interval_within_bounds_witness :
  let self' := (evaluate (cv := cv2_example)
                  (plain_call 1700000000 0 still_frame) (__init__ None)).1 in
  config self' = config (__init__ None) /\
  (_current_interval self' = 1 \/
   (1 <= _current_interval self' /\
    (1 <= 8 -> _current_interval self' <= 8) /\
    (8 < 1 -> _current_interval self' = 1))).
Proof.
  intros self'.
  apply (interval_within_bounds (cv := cv2_example) (clock_at 1700000000) 0
           still_frame None false (__init__ None) self'
           (false, "default (interval=2)"%string)).
  vm_compute. reflexivity.
Defined.

(** X3. With [min_interval] at least 1, a call without the seek flag
    processes a frame only if its index lies above the last processed
    index, which then becomes that index; a skipped frame leaves it as it
    was.  So a frame index at or below the last processed one is never
    processed again. *)
Theorem processed_indices_increase {cv : CV2}
    (clk : Clock) (idx : Z) (image : Frame)
    (detections : option (list Detection)) (lock : bool)
    (self self' : Sampler) (b : bool) (label : string) :
  1 <= min_interval (config self) ->
  should_process_frame clk idx image detections lock false self =
    (self', Ok (b, label)) ->
  (b = true ->
   _last_processed_frame self < idx /\ _last_processed_frame self' = idx) /\
  (b = false -> _last_processed_frame self' = _last_processed_frame self) /\
  (idx <= _last_processed_frame self -> b = false).
Proof.
  intros Hmin Hcall. rewrite should_process_frame_no_seek in Hcall.
  apply bind_Ok_inv in Hcall as (self1 & [interval reason] & Hchoose & Hcommit).
  pose proof (choose_interval_gate_inputs clk image detections lock
                (enter idx self)) as Hsame.
  rewrite Hchoose in Hsame. unfold unchanged, gate_inputs in Hsame.
  simpl in Hsame. injection Hsame as _ Hlast _ _.
  pose proof (commit_gate clk idx detections interval reason self1)
    as (Hresult & _ & _ & Hlast' & _).
  rewrite Hcommit in Hresult, Hlast'. simpl in Hresult, Hlast'.
  injection Hresult as -> _. rewrite Hlast in Hlast'.
  assert (Hinterval : 1 <= interval).
  { apply choose_interval_clamped in Hchoose as [-> | [x ->]]; [lia|].
    pose proof (clamp_bounds (min_interval (config (enter idx self)))
                  (max_interval (config (enter idx self))) x).
    cbn in *. lia. }
  rewrite Hlast in *.
  destruct (Z.leb_spec interval (idx - _last_processed_frame self));
    repeat split; intros; try done; lia.
Qed.

Lemma processed_indices_increase_witness :
  let self' := (evaluate (cv := cv2_example)
                  (plain_call 1700000000 1 still_frame) (__init__ None)).1 in
  (true = true ->
   _last_processed_frame (__init__ None) < 1 /\ _last_processed_frame self' = 1) /\
  (true = false ->
   _last_processed_frame self' = _last_processed_frame (__init__ None)) /\
  (1 <= _last_processed_frame (__init__ None) -> true = false).
Proof.
  intros self'.
  apply (processed_indices_increase (cv := cv2_example) (clock_at 1700000000)
           1 still_frame None false (__init__ None) self' true
           "default (interval=2)"%string).
  - simpl. lia.
  - vm_compute. reflexivity.
Defined.

(** X4. In a session of [should_process_frame] calls on a new sampler whose
    [min_interval] is at least 1, the processed frames never outnumber the
    frames seen: [frames_processed <= _last_processed_frame + 1 <=
    total_frames], so [processing_ratio] lies between 0 and 100. *)
Theorem processing_ratio_is_a_percentage {cv : CV2}
    (cfg : option AdaptiveSamplingConfig) (calls : list Call) :
  1 <= min_interval (default AdaptiveSamplingConfig_new cfg) ->
  let self := (session calls (__init__ cfg)).1 in
  processed_within_seen self /\
  (0 <= processing_ratio (metrics self) <= 100)%Q.
Proof.
  intros Hmin self.
  assert (Hinv : 1 <= min_interval (config self) /\ processed_within_seen self).
  { subst self.
    apply (session_invariant
             (fun s => 1 <= min_interval (config s) /\ processed_within_seen s)).
    - intros c s [Hs Hseen]. unfold evaluate. split.
      + by rewrite should_process_frame_config.
      + by apply should_process_frame_within_seen.
    - split; [exact Hmin|]. unfold processed_within_seen. cbn. lia. }
  destruct Hinv as [_ Hseen]. split; [exact Hseen|].
  apply processing_ratio_percent. unfold processed_within_seen in Hseen. lia.
Qed.

Lemma processing_ratio_is_a_percentage_witness :
  let self := (session (cv := cv2_example) still_calls (__init__ None)).1 in
  processed_within_seen self /\
  (0 <= processing_ratio (metrics self) <= 100)%Q.
Proof.
  apply (processing_ratio_is_a_percentage (cv := cv2_example) None still_calls).
  simpl. lia.
Defined.

(** The bound on [min_interval] matters: with intervals of 0 a replayed
    frame is processed again and the ratio reaches 200. *)
Example processing_ratio_above_100 :
  let r := session (cv := cv2_example) replayed_calls
             (__init__ (Some zero_interval_config)) in
  r.2 = [ Ok (true, "default (interval=0)"%string);
          Ok (true, "default (interval=0)"%string) ] /\
  (processing_ratio (metrics r.1) == 200)%Q.
Proof. vm_compute. split; reflexivity. Qed.

(** ** The motion history *)

Global Instance keeps_history_within_size_preorder :
  PreOrder keeps_history_within_size.
Proof.
  split.
  - intros s. split; [done | tauto].
  - intros s1 s2 s3 [H1 H2] [H3 H4]. split; [congruence | tauto].
Qed.

Ltac fin_history :=
  unfold keeps_history_within_size, history_within_size; cbn; tauto.

Lemma _record_telemetry_history now idx reason interval processed :
  steady keeps_history_within_size
    (_record_telemetry now idx reason interval processed).
Proof. unfold _record_telemetry. steady_auto fin_history. Qed.
Global Hint Resolve _record_telemetry_history : steady.

Section History.
Context {cv : CV2}.

Lemma _calculate_motion_score_motion_inputs frame :
  steady (unchanged motion_inputs) (_calculate_motion_score frame).
Proof. unfold _calculate_motion_score. steady_auto fin_unchanged. Qed.

Lemma motion_stage_history frame interval reason :
  steady keeps_history_within_size (motion_stage frame interval reason).
Proof.
  intros self. unfold motion_stage. exec.
  destruct (enable_motion_detection (config self)); [|exec; reflexivity].
  rewrite bind_eq.
  pose proof (_calculate_motion_score_motion_inputs frame self) as Hsame.
  destruct (_calculate_motion_score frame self) as [self1 [score|e]];
    unfold unchanged, motion_inputs in Hsame; simpl in Hsame;
    injection Hsame as Hconfig Hhistory; exec.
  - assert (Hgoal : forall s : Sampler,
      config s = config self ->
      (history_within_size self -> history_within_size s) ->
      keeps_history_within_size self s) by (intros; by split).
    match goal with
    | |- context [?a <? ?b] => destruct (Z.ltb_spec a b) as [Hfull|Hfull]
    end;
      exec;
      repeat (match goal with
              | |- context [if ?b then _ else _] => destruct b
              end; exec);
      (apply Hgoal; cbn; [done|]);
      unfold history_within_size, len in *; cbn in *;
      rewrite ?length_tl, ?length_app, ?Hconfig in *; simpl in *;
      rewrite Hhistory in *; lia.
  - cbn. split; [done|]. unfold history_within_size. by rewrite Hconfig, Hhistory.
Qed.
Hint Resolve motion_stage_history : steady.

Lemma should_process_frame_history clk idx frame detections lock seek :
  steady keeps_history_within_size
    (should_process_frame clk idx frame detections lock seek).
Proof.
  unfold should_process_frame, _calculate_adaptive_interval,
    crowd_stage, id_stage, stability_stage.
  steady_auto fin_history.
Qed.
End History.

(** X5. The motion history never outgrows [motion_history_size]: a session
    of calls on a sampler whose history is within the size (a new sampler
    with a non-negative size, in particular) leaves it within the size, and
    leaves the configuration as it was. *)
Theorem motion_history_stays_within_size {cv : CV2}
    (calls : list Call) (self : Sampler) :
  len (_motion_history self) <= motion_history_size (config self) ->
  let self' := (session calls self).1 in
  config self' = config self /\
  len (_motion_history self') <= motion_history_size (config self).
Proof.
  intros Hwithin self'.
  assert (Hkeeps : keeps_history_within_size self self').
  { subst self'.
    apply (session_invariant (keeps_history_within_size self)).
    - intros c s Hs. etrans; [exact Hs|]. unfold evaluate.
      apply should_process_frame_history.
    - reflexivity. }
  destruct Hkeeps as [Hconfig Hkeeps]. split; [exact Hconfig|].
  specialize (Hkeeps Hwithin). unfold history_within_size in Hkeeps.
  by rewrite Hconfig in Hkeeps.
Qed.

Lemma motion_history_stays_within_size_witness :
  let self' := (session (cv := cv2_example) still_calls (__init__ None)).1 in
  config self' = config (__init__ None) /\
  len (_motion_history self') <= motion_history_size (config (__init__ None)).
Proof.
  apply (motion_history_stays_within_size (cv := cv2_example) still_calls
           (__init__ None)).
  vm_compute. discriminate.
Defined.

(** ** Identity switches *)

Lemma _record_telemetry_adaptive_state now idx reason interval processed :
  steady (unchanged adaptive_state)
    (_record_telemetry now idx reason interval processed).
Proof. unfold _record_telemetry. steady_auto fin_unchanged. Qed.
Global Hint Resolve _record_telemetry_adaptive_state : steady.

Lemma commit_adaptive_state {cv : CV2} clk idx detections interval reason :
  steady (unchanged adaptive_state)
    (commit clk idx detections interval reason).
Proof. unfold commit. steady_auto fin_unchanged. Qed.

Section IdSwitch.
Context {cv : CV2}.

Lemma motion_stage_id_state frame interval reason :
  steady (unchanged id_state) (motion_stage frame interval reason).
Proof.
  unfold motion_stage, _calculate_motion_score. steady_auto fin_unchanged.
Qed.

Lemma crowd_stage_id_state detections interval reason :
  steady (unchanged id_state) (crowd_stage detections interval reason).
Proof. unfold crowd_stage. steady_auto fin_unchanged. Qed.

Lemma track_ids_moved (current prev : gset Z) :
  current <> prev ->
  bool_decide (current ∖ prev ≠ ∅) || bool_decide (prev ∖ current ≠ ∅) = true.
Proof.
  intros Hdiffer.
  destruct (decide (current ∖ prev = ∅)) as [Hnew|Hnew].
  - rewrite (bool_decide_eq_true_2 (prev ∖ current ≠ ∅)); [apply orb_true_r|].
    intros Hlost. apply Hdiffer. apply set_eq. intros x. split; intros Hx.
    + destruct (decide (x ∈ prev)) as [|Hout]; [done|].
      assert (Hin : x ∈ current ∖ prev) by (by apply elem_of_difference).
      rewrite Hnew in Hin. by apply not_elem_of_empty in Hin.
    + destruct (decide (x ∈ current)) as [|Hout]; [done|].
      assert (Hin : x ∈ prev ∖ current) by (by apply elem_of_difference).
      rewrite Hlost in Hin. by apply not_elem_of_empty in Hin.
  - by rewrite (bool_decide_eq_true_2 _ Hnew).
Qed.

Lemma id_stage_fires_state detections interval reason (self : Sampler) :
  enable_id_tracking (config self) = true ->
  _prev_track_ids self <> ∅ ->
  track_ids detections <> _prev_track_ids self ->
  id_stage (Some detections) interval reason self =
  (set__prev_track_ids (track_ids detections)
     (set__stability_counter 0
        (set_metrics
           (set_id_switches (id_switches (metrics self) + 1) (metrics self))
           (set__id_switch_boost_remaining (id_switch_penalty (config self))
              self))),
   Ok (min_interval (config self), ID_SWITCH)).
Proof.
  intros Henabled Hstored Hdiffer.
  unfold id_stage. exec. rewrite Henabled. exec.
  rewrite !bool_decide_eq_true_2 by done. cbn [andb].
  rewrite track_ids_moved by done. exec. reflexivity.
Qed.

Lemma id_stage_quiet_state detections interval reason (self : Sampler) :
  enable_id_tracking (config self) = true ->
  _prev_track_ids self = ∅ \/ track_ids detections = _prev_track_ids self ->
  id_stage (Some detections) interval reason self =
  (set__prev_track_ids (track_ids detections) self, Ok (interval, reason)).
Proof.
  intros Henabled Hquiet. unfold id_stage. exec. rewrite Henabled. exec.
  assert (Hcond : bool_decide (_prev_track_ids self ≠ ∅)
                  && bool_decide (track_ids detections ≠ _prev_track_ids self)
                  = false).
  { destruct Hquiet as [Hnone | Hsame].
    - by rewrite (bool_decide_eq_false_2 (_prev_track_ids self ≠ ∅))
        by (intros Hne; by apply Hne).
    - rewrite (bool_decide_eq_false_2
                 (track_ids detections ≠ _prev_track_ids self))
        by (intros Hne; by apply Hne).
      apply andb_false_r. }
  rewrite Hcond. exec. reflexivity.
Qed.
End IdSwitch.

(** X6. When identity tracking is on and a detection list is passed, the
    adaptive calculation stores the identities of the list (detections
    without an identity aside).  If a non-empty set was stored and the new
    one differs from it, the decision is [ID_SWITCH] at [min_interval], one
    identity switch is counted and the cooldown is armed with
    [id_switch_penalty]; if no set was stored, or the set is the same,
    nothing is counted and the cooldown is left as it was. *)
Theorem identity_switch_arms_cooldown {cv : CV2}
    (image : Frame) (detections : list Detection)
    (self self' : Sampler) (interval : Z) (reason : SamplingReason) :
  enable_id_tracking (config self) = true ->
  _calculate_adaptive_interval image (Some detections) self =
    (self', Ok (interval, reason)) ->
  _prev_track_ids self' = track_ids detections /\
  (_prev_track_ids self <> ∅ ->
   track_ids detections <> _prev_track_ids self ->
   interval = min_interval (config self) /\
   reason = ID_SWITCH /\
   id_switches (metrics self') = id_switches (metrics self) + 1 /\
   _id_switch_boost_remaining self' = id_switch_penalty (config self)) /\
  (_prev_track_ids self = ∅ \/ track_ids detections = _prev_track_ids self ->
   id_switches (metrics self') = id_switches (metrics self) /\
   _id_switch_boost_remaining self' = _id_switch_boost_remaining self).
Proof.
  intros Henabled Hcall. unfold _calculate_adaptive_interval in Hcall.
  apply bind_Ok_inv in Hcall as (? & cfg & [= <- <-] & Hcall).
  apply bind_Ok_inv in Hcall as (self1 & [i1 r1] & Hmotion & Hcall).
  apply bind_Ok_inv in Hcall as (self2 & [i2 r2] & Hcrowd & Hcall).
  apply bind_Ok_inv in Hcall as (self3 & [i3 r3] & Hid & Hcall).
  pose proof (motion_stage_id_state image (default_interval (config self))
                DEFAULT self) as H1.
  pose proof (crowd_stage_id_state (Some detections) i1 r1 self1) as H2.
  rewrite Hmotion in H1. rewrite Hcrowd in H2.
  unfold unchanged, id_state in H1, H2. simpl in H1, H2.
  injection H1 as Hconfig1 Hids1 Hcount1 Hboost1.
  injection H2 as Hconfig2 Hids2 Hcount2 Hboost2.
  assert (Hconfig : config self2 = config self) by congruence.
  assert (Hids : _prev_track_ids self2 = _prev_track_ids self) by congruence.
  destruct (stability_stage_clamped i3 r3 self3) as (x & r' & Hstab).
  assert (Hself' : self' = self3) by congruence.
  split; [|split].
  - destruct (decide (_prev_track_ids self2 = ∅ \/
                      track_ids detections = _prev_track_ids self2))
      as [Hquiet|Hfires].
    + rewrite id_stage_quiet_state in Hid by congruence.
      injection Hid as <- _ _. by rewrite Hself'.
    + rewrite id_stage_fires_state in Hid by (try congruence; tauto).
      injection Hid as <- _ _. by rewrite Hself'.
  - intros Hstored Hdiffer.
    rewrite id_stage_fires_state in Hid by congruence.
    injection Hid as <- <- <-.
    rewrite stability_stage_eq in Hcall by done.
    injection Hcall as <- <- <-. cbn. rewrite Hconfig.
    repeat split; [lia | congruence].
  - intros Hquiet.
    rewrite id_stage_quiet_state in Hid by congruence.
    injection Hid as <- _ _. rewrite Hself'. cbn. split; congruence.
Qed.

Lemma identity_switch_arms_cooldown_witness :
  let r := _calculate_adaptive_interval (cv := cv2_example) still_frame
             (Some (with_ids [1; 3])) after_two_ids in
  _prev_track_ids r.1 = track_ids (with_ids [1; 3]) /\
  (_prev_track_ids after_two_ids <> ∅ ->
   track_ids (with_ids [1; 3]) <> _prev_track_ids after_two_ids ->
   1 = min_interval (config after_two_ids) /\
   ID_SWITCH = ID_SWITCH /\
   id_switches (metrics r.1) = id_switches (metrics after_two_ids) + 1 /\
   _id_switch_boost_remaining r.1 = id_switch_penalty (config after_two_ids)) /\
  (_prev_track_ids after_two_ids = ∅ \/
   track_ids (with_ids [1; 3]) = _prev_track_ids after_two_ids ->
   id_switches (metrics r.1) = id_switches (metrics after_two_ids) /\
   _id_switch_boost_remaining r.1 = _id_switch_boost_remaining after_two_ids).
Proof.
  intros r.
  apply (identity_switch_arms_cooldown (cv := cv2_example) still_frame
           (with_ids [1; 3]) after_two_ids r.1 1 ID_SWITCH).
  - reflexivity.
  - vm_compute. reflexivity.
Defined.

Lemma _record_telemetry_boost now idx reason interval processed :
  steady (unchanged _id_switch_boost_remaining)
    (_record_telemetry now idx reason interval processed).
Proof. unfold _record_telemetry. steady_auto fin_unchanged. Qed.
Global Hint Resolve _record_telemetry_boost : steady.

Section Cooldown.
Context {cv : CV2}.

Lemma commit_boost clk idx detections interval reason :
  steady (unchanged _id_switch_boost_remaining)
    (commit clk idx detections interval reason).
Proof. unfold commit. steady_auto fin_unchanged. Qed.

Lemma cooldown_call_eq clk idx frame detections (self : Sampler) :
  outside_seek_window clk self ->
  0 < _id_switch_boost_remaining self ->
  exists self',
    should_process_frame clk idx frame detections false false self =
      (self', Ok (1 <=? idx - _last_processed_frame self,
                  reason_str ID_SWITCH 1)) /\
    _id_switch_boost_remaining self' = _id_switch_boost_remaining self - 1 /\
    adaptive_state self' = adaptive_state self.
Proof.
  intros Hwindow Hboost. unfold outside_seek_window in Hwindow.
  rewrite should_process_frame_no_seek, bind_eq.
  unfold choose_interval. exec.
  change (_last_seek_time (enter idx self)) with (_last_seek_time self).
  change (config (enter idx self)) with (config self).
  rewrite Hwindow. exec.
  change (_id_switch_boost_remaining (enter idx self))
    with (_id_switch_boost_remaining self).
  assert (Hpos : (0 <? _id_switch_boost_remaining self) = true)
    by (apply Z.ltb_lt; lia).
  rewrite Hpos. exec.
  match goal with
  | |- context [commit _ _ _ _ _ ?s] =>
      pose proof (commit_gate clk idx detections 1 ID_SWITCH s) as Hgate;
      pose proof (commit_adaptive_state clk idx detections 1 ID_SWITCH s)
        as Hsame;
      pose proof (commit_boost clk idx detections 1 ID_SWITCH s) as Hkeep;
      destruct (commit clk idx detections 1 ID_SWITCH s) as [self' r]
  end.
  unfold unchanged, adaptive_state in *. cbn in Hgate, Hsame, Hkeep.
  destruct Hgate as (-> & _).
  exists self'. split; [reflexivity|]. split; [exact Hkeep | exact Hsame].
Qed.
End Cooldown.

(** X7. While the identity-switch cooldown counter is positive, a call
    without flags and outside the seek window takes the decision
    [ID_SWITCH] at interval 1, lowers the counter by one and does not run
    the adaptive calculation: the stored frame, the motion history, the
    stored count and identities, the stability counter and the identity
    switch count stay as they were, whatever frame and detections are
    passed.  So the calls of the cooldown, at most as many as the counter,
    all carry that decision. *)
Theorem cooldown_forces_interval_1 {cv : CV2}
    (calls : list Call) (self : Sampler) :
  Forall (cooldown_call self) calls ->
  len calls <= _id_switch_boost_remaining self ->
  let r := session calls self in
  length r.2 = length calls /\
  Forall cooldown_label r.2 /\
  _id_switch_boost_remaining r.1 = _id_switch_boost_remaining self - len calls /\
  adaptive_state r.1 = adaptive_state self.
Proof.
  revert self. induction calls as [|c calls IH]; intros self Hcalls Hboost.
  - simpl. repeat split; [constructor | unfold len; simpl; lia].
  - apply Forall_cons in Hcalls as [(Hlock & Hseek & Hwindow) Hcalls].
    unfold len in Hboost. simpl length in Hboost.
    destruct (cooldown_call_eq (clock c) (frame_idx c) (frame c)
                (detections c) self Hwindow)
      as (self1 & Hcall & Hboost1 & Hsame); [lia|].
    assert (Hcalls1 : Forall (cooldown_call self1) calls).
    { eapply Forall_impl; [exact Hcalls|].
      intros c' (? & ? & Hw). repeat split; try done.
      unfold outside_seek_window, adaptive_state in *.
      injection Hsame as Hconfig Hseek_time _ _ _ _ _ _ _.
      by rewrite Hconfig, Hseek_time. }
    specialize (IH self1 Hcalls1).
    simpl. unfold evaluate. rewrite Hlock, Hseek, Hcall.
    destruct (session calls self1) as [self2 rs]. simpl in *.
    destruct IH as (Hlen & Hall & Hboost2 & Hsame2); [unfold len; lia|].
    split; [by rewrite Hlen|]. split; [|split].
    + constructor; [|exact Hall]. eexists. reflexivity.
    + rewrite Hboost2, Hboost1. unfold len. simpl length. lia.
    + by rewrite Hsame2.
Qed.

Lemma cooldown_forces_interval_1_witness :
  let r := session (cv := cv2_example) calls_after_switch after_id_switch in
  length r.2 = length calls_after_switch /\
  Forall cooldown_label r.2 /\
  _id_switch_boost_remaining r.1 =
    _id_switch_boost_remaining after_id_switch - len calls_after_switch /\
  adaptive_state r.1 = adaptive_state after_id_switch.
Proof.
  apply (cooldown_forces_interval_1 (cv := cv2_example) calls_after_switch
           after_id_switch).
  - repeat constructor.
  - vm_compute. discriminate.
Defined.

(** ** The lock-on boost counter *)

Lemma blind_bind {A B} (m : M A) (f : A -> M B) :
  blind m -> (forall a, blind (f a)) -> blind (m ≫= f).
Proof.
  intros Hm Hf self self' Hsame. rewrite !bind_eq.
  destruct (Hm self self' Hsame) as [Hout Hstate].
  destruct (m self) as [s1 [a|e]], (m self') as [s1' [a'|e']];
    simpl in *; try discriminate.
  - injection Hout as <-. by apply Hf.
  - injection Hout as <-. done.
Qed.

Lemma blind_ret {A} (a : A) : blind (mret a).
Proof. intros self self' Hsame. done. Qed.

Lemma blind_call {A} (o : outcome A) : blind (call o).
Proof. intros self self' Hsame. done. Qed.

Lemma blind_get {A} (attr : Sampler -> A) :
  (forall self, attr (forget_lock_boost self) = attr self) ->
  blind (get attr).
Proof.
  intros Hattr self self' Hsame. split; [|done]. simpl.
  by rewrite <- (Hattr self), <- (Hattr self'), Hsame.
Qed.

Lemma blind_assign (f : Sampler -> Sampler) :
  (forall self,
     forget_lock_boost (f self) = forget_lock_boost (f (forget_lock_boost self))) ->
  blind (assign f).
Proof.
  intros Hf self self' Hsame. split; [done|]. simpl.
  by rewrite (Hf self), (Hf self'), Hsame.
Qed.

Lemma blind_assign_metrics (f : SamplingMetrics -> SamplingMetrics) :
  blind (assign_metrics f).
Proof. apply blind_assign. reflexivity. Qed.

Ltac blind_step :=
  lazymatch goal with
  | |- blind (mbind _ _) => apply blind_bind; [| intros ?]
  | |- blind (mret _) => apply blind_ret
  | |- blind (call _) => apply blind_call
  | |- blind (get _) => apply blind_get; reflexivity
  | |- blind (assign_metrics _) => apply blind_assign_metrics
  | |- blind (assign _) => apply blind_assign; reflexivity
  | |- blind (if ?b then _ else _) => destruct b
  | |- blind (let '(_, _) := (if ?b then _ else _) in _) => destruct b
  | |- blind (match ?x with _ => _ end) => destruct x
  end.

Global Instance lock_boost_rearmed_preorder : PreOrder lock_boost_rearmed.
Proof.
  split.
  - intros s. split; [done | by left].
  - intros s1 s2 s3 [H1 H2] [H3 H4]. split; [congruence|].
    rewrite H1 in H4. destruct H4 as [H4|H4]; [|by right].
    rewrite H4. exact H2.
Qed.

Ltac fin_rearmed := unfold lock_boost_rearmed; cbn; auto.

Section LockBoost.
Context {cv : CV2}.

Lemma should_process_frame_blind clk idx frame detections lock seek :
  blind (should_process_frame clk idx frame detections lock seek).
Proof.
  unfold should_process_frame, _record_telemetry, _calculate_adaptive_interval,
    motion_stage, crowd_stage, id_stage, stability_stage,
    _calculate_motion_score.
  repeat blind_step.
Qed.

Lemma _calculate_adaptive_interval_lock_boost frame detections :
  steady (unchanged lock_boost_state)
    (_calculate_adaptive_interval frame detections).
Proof.
  unfold _calculate_adaptive_interval, motion_stage, crowd_stage, id_stage,
    stability_stage, _calculate_motion_score.
  steady_auto fin_unchanged.
Qed.

Lemma commit_lock_boost clk idx detections interval reason :
  steady (unchanged lock_boost_state)
    (commit clk idx detections interval reason).
Proof. unfold commit, _record_telemetry. steady_auto fin_unchanged. Qed.

Lemma choose_interval_rearmed clk frame detections lock :
  steady lock_boost_rearmed (choose_interval clk frame detections lock).
Proof.
  intros self. unfold choose_interval. exec.
  destruct (Qlt_bool _ _); exec; [reflexivity|].
  destruct lock; exec; [split; [done | by right]|].
  destruct (0 <? _); exec; [split; [done | by left]|].
  pose proof (_calculate_adaptive_interval_lock_boost frame detections self)
    as Hsame.
  unfold unchanged, lock_boost_state in Hsame.
  injection Hsame as Hconfig Hboost. split; [done | by left].
Qed.

Lemma should_process_frame_rearmed clk idx frame detections lock seek :
  steady lock_boost_rearmed
    (should_process_frame clk idx frame detections lock seek).
Proof.
  intros self. destruct seek.
  - rewrite should_process_frame_seek. split; [done | by left].
  - rewrite should_process_frame_no_seek, bind_eq.
    pose proof (choose_interval_rearmed clk frame detections lock
                  (enter idx self)) as Hchoose.
    destruct (choose_interval _ _ _ _ _) as [self1 [[interval reason]|e]];
      [|exact Hchoose].
    pose proof (commit_lock_boost clk idx detections interval reason self1)
      as Hsame.
    unfold unchanged, lock_boost_state in Hsame.
    injection Hsame as Hconfig Hboost.
    destruct Hchoose as [Hconfig1 Hboost1]. simpl in *.
    split; [congruence|]. rewrite Hboost. exact Hboost1.
Qed.
End LockBoost.

(** X8. The lock-on boost counter is dead state: no call reads it.  Started
    on samplers that differ in [_lock_on_boost_remaining] only, a call has
    the same outcome and leaves samplers that differ in it only; and a call
    leaves the counter as it was or sets it to [lock_on_boost_frames],
    never counting it down. *)
Theorem lock_on_boost_is_never_read {cv : CV2}
    (clk : Clock) (idx : Z) (image : Frame)
    (detections : option (list Detection)) (lock seek : bool)
    (self : Sampler) (v : Z) :
  let r := should_process_frame clk idx image detections lock seek self in
  let r' := should_process_frame clk idx image detections lock seek
              (set__lock_on_boost_remaining v self) in
  r'.2 = r.2 /\
  set__lock_on_boost_remaining 0 r'.1 = set__lock_on_boost_remaining 0 r.1 /\
  (_lock_on_boost_remaining r.1 = _lock_on_boost_remaining self \/
   _lock_on_boost_remaining r.1 = lock_on_boost_frames (config self)).
Proof.
  intros r r'.
  destruct (should_process_frame_blind clk idx image detections lock seek
              (set__lock_on_boost_remaining v self) self eq_refl)
    as [Hout Hstate].
  split; [exact Hout|]. split; [exact Hstate|].
  apply should_process_frame_rearmed.
Qed.

(** ** The seek window *)

Lemma Qlt_bool_true (a b : Q) : (a < b)%Q -> Qlt_bool a b = true.
Proof.
  intros Hlt. unfold Qlt_bool. destruct (Qle_bool b a) eqn:E; [|done].
  apply Qle_bool_iff in E. by apply Qlt_not_le in Hlt.
Qed.

Lemma _record_telemetry_override_state now idx reason interval processed :
  steady (unchanged override_state)
    (_record_telemetry now idx reason interval processed).
Proof. unfold _record_telemetry. steady_auto fin_unchanged. Qed.
Global Hint Resolve _record_telemetry_override_state : steady.

Section SeekWindow.
Context {cv : CV2}.

Lemma commit_override_state clk idx detections interval reason :
  steady (unchanged override_state)
    (commit clk idx detections interval reason).
Proof. unfold commit. steady_auto fin_unchanged. Qed.

Lemma seek_window_call_eq clk idx frame detections lock (self : Sampler) :
  Qlt_bool (time_0 clk - _last_seek_time self)
    (seek_event_window (config self)) = true ->
  exists self',
    should_process_frame clk idx frame detections lock false self =
      (self', Ok (1 <=? idx - _last_processed_frame self,
                  reason_str USER_SEEK 1)) /\
    override_state self' = override_state self.
Proof.
  intros Hwindow.
  rewrite should_process_frame_no_seek, bind_eq.
  unfold choose_interval. exec.
  change (_last_seek_time (enter idx self)) with (_last_seek_time self).
  change (config (enter idx self)) with (config self).
  rewrite Hwindow. exec.
  pose proof (commit_gate clk idx detections 1 USER_SEEK (enter idx self))
    as Hgate.
  pose proof (commit_override_state clk idx detections 1 USER_SEEK
                (enter idx self)) as Hsame.
  destruct (commit clk idx detections 1 USER_SEEK (enter idx self))
    as [self' r].
  cbn in Hgate. destruct Hgate as (-> & _).
  exists self'. split; [reflexivity | exact Hsame].
Qed.
End SeekWindow.

(** X9. A seek event opens a window: the call that follows a seek call
    within [seek_event_window] seconds takes the decision [USER_SEEK] at
    interval 1, through the elapsed-interval test against the frame
    processed last before the seek (the seek call does not move it).
    Lock-on and the cooldown are not looked at and the adaptive
    calculation is not run during that call. *)
Theorem seek_opens_boost_window {cv : CV2} (c1 c2 : Call) (self : Sampler) :
  seek_event c1 = true ->
  seek_event c2 = false ->
  (time_0 (clock c2) - time_0 (clock c1) < seek_event_window (config self))%Q ->
  let r := session [c1; c2] self in
  r.2 = [ Ok (true, "User seek event"%string);
          Ok (1 <=? frame_idx c2 - _last_processed_frame self,
              "user_seek (interval=1)"%string) ] /\
  _last_seek_time r.1 = time_0 (clock c1) /\
  lock_events (metrics r.1) = lock_events (metrics self) /\
  _id_switch_boost_remaining r.1 = _id_switch_boost_remaining self /\
  _motion_history r.1 = _motion_history self /\
  _prev_track_ids r.1 = _prev_track_ids self /\
  _prev_detection_count r.1 = _prev_detection_count self.
Proof.
  intros Hseek1 Hseek2 Hwindow r. subst r. simpl. unfold evaluate.
  rewrite Hseek1, Hseek2, should_process_frame_seek.
  match goal with
  | |- context [should_process_frame _ _ _ _ _ false ?s] =>
      destruct (seek_window_call_eq (clock c2) (frame_idx c2) (frame c2)
                  (detections c2) (lock_on_active c2) s)
        as (self' & -> & Hsame)
  end.
  { apply Qlt_bool_true. exact Hwindow. }
  unfold override_state, adaptive_state in Hsame. cbn in Hsame.
  injection Hsame as _ Hseek_time _ Hhistory Hcount Hids _ _ _ Hlock _ Hboost.
  cbn. repeat split; done.
Qed.

Lemma seek_opens_boost_window_witness :
  let r := session (cv := cv2_example) seek_then_next (__init__ None) in
  r.2 = [ Ok (true, "User seek event"%string);
          Ok (1 <=? 11 - _last_processed_frame (__init__ None),
              "user_seek (interval=1)"%string) ] /\
  _last_seek_time r.1 = 1700000000%Q /\
  lock_events (metrics r.1) = lock_events (metrics (__init__ None)) /\
  _id_switch_boost_remaining r.1 = _id_switch_boost_remaining (__init__ None) /\
  _motion_history r.1 = _motion_history (__init__ None) /\
  _prev_track_ids r.1 = _prev_track_ids (__init__ None) /\
  _prev_detection_count r.1 = _prev_detection_count (__init__ None).
Proof.
  apply (seek_opens_boost_window (cv := cv2_example)
           (seek_call 1700000000 10 still_frame)
           {| clock := clock_at 1700000000.5; frame_idx := 11;
              frame := still_frame; detections := None;
              lock_on_active := true; seek_event := false |}
           (__init__ None)).
  - reflexivity.
  - reflexivity.
  - reflexivity.
Defined.

(** ** Motion detection switched off *)

Section MotionOff.
Context {cv : CV2}.

Lemma motion_stage_off frame interval reason (self : Sampler) :
  enable_motion_detection (config self) = false ->
  motion_stage frame interval reason self = (self, Ok (interval, reason)).
Proof. intros Hoff. unfold motion_stage. exec. rewrite Hoff. reflexivity. Qed.

Lemma _calculate_adaptive_interval_off_eq frame detections (self : Sampler) :
  enable_motion_detection (config self) = false ->
  _calculate_adaptive_interval frame detections self =
  ('(interval, reason) ← crowd_stage detections
                           (default_interval (config self)) DEFAULT;
   '(interval, reason) ← id_stage detections interval reason;
   stability_stage interval reason) self.
Proof.
  intros Hoff. unfold _calculate_adaptive_interval.
  rewrite (bind_eq (get config)). cbv [get]. cbv beta iota.
  rewrite (bind_eq (motion_stage _ _ _)), motion_stage_off by done.
  reflexivity.
Qed.

Lemma _calculate_adaptive_interval_off frame frame' detections (self : Sampler) :
  enable_motion_detection (config self) = false ->
  _calculate_adaptive_interval frame detections self =
  _calculate_adaptive_interval frame' detections self /\
  safe (_calculate_adaptive_interval frame detections) self.
Proof.
  intros Hoff. unfold safe.
  rewrite !_calculate_adaptive_interval_off_eq by done.
  split; [reflexivity|]. apply total_after_motion_stage.
Qed.

Lemma choose_interval_off clk frame frame' detections lock (self : Sampler) :
  enable_motion_detection (config self) = false ->
  choose_interval clk frame detections lock self =
  choose_interval clk frame' detections lock self /\
  safe (choose_interval clk frame detections lock) self.
Proof.
  intros Hoff. unfold choose_interval, safe. exec.
  destruct (Qlt_bool _ _); exec; [eauto|].
  destruct lock; exec; [eauto|].
  destruct (0 <? _); exec; [eauto|].
  by apply _calculate_adaptive_interval_off.
Qed.

Lemma should_process_frame_motion_state clk idx frame detections lock seek
    (self : Sampler) :
  enable_motion_detection (config self) = false ->
  motion_state
    (should_process_frame clk idx frame detections lock seek self).1 =
  motion_state self.
Proof.
  intros Hoff. destruct seek.
  - by rewrite should_process_frame_seek.
  - rewrite should_process_frame_no_seek, bind_eq.
    assert (Hchoose : motion_state
              (choose_interval clk frame detections lock (enter idx self)).1 =
            motion_state self).
    { unfold choose_interval. exec.
      destruct (Qlt_bool _ _); exec; [done|].
      destruct lock; exec; [done|].
      destruct (0 <? _); exec; [done|].
      rewrite _calculate_adaptive_interval_off_eq by done.
      assert (Hrest : steady (unchanged motion_state)
        ('(interval, reason) ← crowd_stage detections
                                 (default_interval (config (enter idx self)))
                                 DEFAULT;
         '(interval, reason) ← id_stage detections interval reason;
         stability_stage interval reason)).
      { unfold crowd_stage, id_stage, stability_stage.
        steady_auto fin_unchanged. }
      exact (Hrest (enter idx self)). }
    destruct (choose_interval _ _ _ _ _) as [self1 [[interval reason]|e]];
      [|exact Hchoose].
    assert (Hcommit : steady (unchanged motion_state)
              (commit clk idx detections interval reason)).
    { unfold commit, _record_telemetry. steady_auto fin_unchanged. }
    simpl in *. rewrite <- Hchoose. exact (Hcommit self1).
Qed.
End MotionOff.

(** X10. With [enable_motion_detection] off, a call never looks at the
    frame: it returns whatever the frame is (an empty one too), its outcome
    and the sampler it leaves are the same for any other frame, and the
    stored frame, the motion history and the average motion score stay as
    they were. *)
Theorem motion_detection_off_ignores_frame {cv : CV2}
    (clk : Clock) (idx : Z) (image image' : Frame)
    (detections : option (list Detection)) (lock seek : bool) (self : Sampler) :
  enable_motion_detection (config self) = false ->
  let r := should_process_frame clk idx image detections lock seek self in
  (exists d, r.2 = Ok d) /\
  r = should_process_frame clk idx image' detections lock seek self /\
  _prev_frame_gray r.1 = _prev_frame_gray self /\
  _motion_history r.1 = _motion_history self /\
  avg_motion_score (metrics r.1) = avg_motion_score (metrics self).
Proof.
  intros Hoff r.
  pose proof (should_process_frame_motion_state clk idx image detections lock
                seek self Hoff) as Hstate.
  fold r in Hstate. unfold motion_state in Hstate.
  injection Hstate as Hgray Hhistory Havg.
  split; [|split; [|done]]; subst r.
  - destruct seek.
    + rewrite should_process_frame_seek. eauto.
    + rewrite should_process_frame_no_seek.
      destruct (choose_interval_off clk image image detections lock
                  (enter idx self) Hoff) as [_ (self1 & [i r] & Hchoose)].
      rewrite bind_eq, Hchoose.
      destruct (total_commit clk idx detections i r self1) as (self2 & d & ->).
      eauto.
  - destruct seek.
    + by rewrite !should_process_frame_seek.
    + rewrite !should_process_frame_no_seek, !bind_eq.
      by destruct (choose_interval_off clk image image' detections lock
                     (enter idx self) Hoff) as [-> _].
Qed.

Lemma motion_detection_off_ignores_frame_witness :
  let self := __init__ (Some motion_off_config) in
  let r := should_process_frame (cv := cv2_example) (clock_at 1700000000) 0
             empty_frame None false false self in
  (exists d, r.2 = Ok d) /\
  r = should_process_frame (cv := cv2_example) (clock_at 1700000000) 0
        still_frame None false false self /\
  _prev_frame_gray r.1 = _prev_frame_gray self /\
  _motion_history r.1 = _motion_history self /\
  avg_motion_score (metrics r.1) = avg_motion_score (metrics self).
Proof.
  apply (motion_detection_off_ignores_frame (cv := cv2_example)
           (clock_at 1700000000) 0 empty_frame still_frame None false false
           (__init__ (Some motion_off_config))).
  reflexivity.
Defined.

(** ** Configuration *)




(** X12. Whatever frame rate is passed, [create_adaptive_sampler] without
    overrides builds a new sampler whose intervals are in order,
    [1 = min_interval <= default_interval <= max_interval], taken from the
    table: (3, 12) from 60 frames a second, (2, 8) from 30 or when the rate
    is missing or 0, (1, 4) below 30 (negative rates too); the sampler
    starts at the default interval.  Overrides that name no attribute
    change nothing. *)
Theorem create_adaptive_sampler_sizes_intervals
    (video_fps : option Q) (overrides : list kwarg) :
  let self := create_adaptive_sampler video_fps [] in
  self = __init__ (Some (config self)) /\
  min_interval (config self) = 1 /\
  (default_interval (config self), max_interval (config self)) =
    sized_intervals video_fps /\
  1 <= default_interval (config self) <= max_interval (config self) /\
  _current_interval self = default_interval (config self) /\
  (Forall (fun kw => known kw = false) overrides ->
   create_adaptive_sampler video_fps overrides = self).
Proof.
  intros self. subst self. unfold create_adaptive_sampler, sized_intervals.
  assert (Hskip : forall cfg,
            Forall (fun kw => known kw = false) overrides ->
            foldl setattr cfg overrides = cfg).
  { intros cfg Hunknown. revert cfg.
    induction Hunknown as [|kw kwargs Hkw _ IH]; intros cfg; [done|].
    destruct kw; try discriminate. simpl. apply IH. }
  cbv zeta.
  destruct video_fps as [fps|]; [destruct (Qeq_bool fps 0) eqn:Hzero|];
    repeat match goal with
           | |- context [Qle_bool ?a fps] => destruct (Qle_bool a fps)
           end;
    try change (Qle_bool 60 30) with false;
    try change (Qle_bool 30 30) with true;
    cbn; rewrite ?Hzero; (split; [reflexivity|]); (split; [reflexivity|]);
    (split; [reflexivity|]); (split; [lia|]); (split; [reflexivity|]);
    intros Hunknown; by rewrite Hskip.
Qed.

Lemma create_adaptive_sampler_sizes_intervals_witness :
  create_adaptive_sampler (Some 60%Q) [kw_unknown "fps"] =
  create_adaptive_sampler (Some 60%Q) [].
Proof.
  apply (create_adaptive_sampler_sizes_intervals (Some 60%Q) [kw_unknown "fps"]).
  repeat constructor.
Defined.

(** ** The stability counter and the reason *)

Section Stability.
Context {cv : CV2}.

Lemma motion_stage_between frame d (self self' : Sampler) decision :
  motion_stage frame d DEFAULT self = (self', Ok decision) ->
  between_stages d decision self'.
Proof.
  unfold motion_stage. exec.
  destruct (enable_motion_detection (config self));
    [|exec; intros [= <- <-]; by left].
  rewrite bind_eq.
  destruct (_calculate_motion_score frame self) as [self1 [score|e]];
    [|discriminate].
  exec.
  repeat (match goal with
          | |- context [if ?b then _ else _] => destruct b
          end; exec);
    intros [= <- <-]; first [by left | right; split; [by left | reflexivity]].
Qed.

Lemma crowd_stage_between detections d decision (self self' : Sampler) decision' :
  between_stages d decision self ->
  crowd_stage detections decision.1 decision.2 self = (self', Ok decision') ->
  between_stages d decision' self'.
Proof.
  intros Hbetween. destruct decision as [i r]. unfold crowd_stage. exec.
  destruct detections as [detections|]; [|exec; by intros [= <- <-]].
  destruct (enable_crowd_monitoring (config self)); exec;
    [|by intros [= <- <-]].
  destruct (0 <? _); exec.
  - destruct (Qlt_bool _ _); exec; intros [= <- <-].
    + right. split; [right; by left | reflexivity].
    + destruct Hbetween as [? | [? ?]]; [by left | by right].
  - intros [= <- <-]. destruct Hbetween as [? | [? ?]]; [by left | by right].
Qed.

Lemma id_stage_between detections d decision (self self' : Sampler) decision' :
  between_stages d decision self ->
  id_stage detections decision.1 decision.2 self = (self', Ok decision') ->
  between_stages d decision' self'.
Proof.
  intros Hbetween. destruct decision as [i r]. unfold id_stage. exec.
  destruct detections as [detections|]; [|exec; by intros [= <- <-]].
  destruct (enable_id_tracking (config self)); exec;
    [|by intros [= <- <-]].
  destruct (_ && _); exec.
  - destruct (_ || _); exec; intros [= <- <-].
    + right. split; [right; by right | reflexivity].
    + destruct Hbetween as [? | [? ?]]; [by left | by right].
  - intros [= <- <-]. destruct Hbetween as [? | [? ?]]; [by left | by right].
Qed.
End Stability.

Lemma _calculate_adaptive_interval_stability {cv : CV2}
    (image : Frame) (detections : option (list Detection))
    (self self' : Sampler) (interval : Z) (reason : SamplingReason) :
  _calculate_adaptive_interval image detections self =
    (self', Ok (interval, reason)) ->
  let cfg := config self in
  (reason = DEFAULT /\
   _stability_counter self' < stability_window cfg /\
   interval = clamp (min_interval cfg) (max_interval cfg) (default_interval cfg)) \/
  (reason = STABLE_SCENE /\
   stability_window cfg <= _stability_counter self' /\
   interval = clamp (min_interval cfg) (max_interval cfg)
                (Z.min (max_interval cfg) (default_interval cfg + 1))) \/
  (fired reason /\ _stability_counter self' = 0).
Proof.
  intros Hcall cfg. subst cfg. unfold _calculate_adaptive_interval in Hcall.
  apply bind_Ok_inv in Hcall as (? & cfg & [= <- <-] & Hcall).
  apply bind_Ok_inv in Hcall as (self1 & [i1 r1] & Hmotion & Hcall).
  apply bind_Ok_inv in Hcall as (self2 & [i2 r2] & Hcrowd & Hcall).
  apply bind_Ok_inv in Hcall as (self3 & [i3 r3] & Hid & Hcall).
  pose proof (motion_stage_config image (default_interval (config self))
                DEFAULT self) as H1.
  pose proof (crowd_stage_config detections i1 r1 self1) as H2.
  pose proof (id_stage_config detections i2 r2 self2) as H3.
  rewrite Hmotion in H1. rewrite Hcrowd in H2. rewrite Hid in H3.
  unfold unchanged in H1, H2, H3. simpl in H1, H2, H3.
  assert (Hconfig : config self3 = config self) by congruence.
  apply motion_stage_between in Hmotion.
  pose proof (crowd_stage_between detections _ (i1, r1) self1 self2 (i2, r2)
                Hmotion Hcrowd) as Hbetween2.
  pose proof (id_stage_between detections _ (i2, r2) self2 self3 (i3, r3)
                Hbetween2 Hid) as Hbetween3.
  revert Hcall. unfold stability_stage, clamp. exec. rewrite Hconfig.
  destruct Hbetween3 as [[= -> ->] | [Hfired Hzero]].
  - destruct (Z.leb_spec (stability_window (config self))
                (_stability_counter self3)).
    + rewrite bool_decide_eq_true_2 by done. intros [= <- <- <-].
      right. left. done.
    + intros [= <- <- <-]. left. done.
  - simpl in Hfired.
    assert (Hnot : r3 <> DEFAULT)
      by (destruct Hfired as [-> | [-> | ->]]; discriminate).
    rewrite (bool_decide_eq_false_2 (r3 = DEFAULT)) by done.
    destruct (_ <=? _); intros [= <- <- <-]; right; right; done.
Qed.

(** X13. The reason of a returning adaptive calculation tells the state of
    the stability counter it leaves.  [DEFAULT]: the counter is below
    [stability_window] and the interval is the default one, clamped.
    [STABLE_SCENE]: the counter has reached the window and the interval is
    the default plus one, capped at [max_interval] and clamped.
    [MOTION_SPIKE], [CROWD_CHANGE] or [ID_SWITCH]: the counter is 0.  No
    other reason comes out of the calculation. *)
Theorem reason_tells_stability {cv : CV2}
    (image : Frame) (detections : option (list Detection))
    (self self' : Sampler) (interval : Z) (reason : SamplingReason) :
  _calculate_adaptive_interval image detections self =
    (self', Ok (interval, reason)) ->
  let cfg := config self in
  (reason = DEFAULT /\
   _stability_counter self' < stability_window cfg /\
   interval = clamp (min_interval cfg) (max_interval cfg) (default_interval cfg)) \/
  (reason = STABLE_SCENE /\
   stability_window cfg <= _stability_counter self' /\
   interval = clamp (min_interval cfg) (max_interval cfg)
                (Z.min (max_interval cfg) (default_interval cfg + 1))) \/
  (fired reason /\ _stability_counter self' = 0).
Proof. apply _calculate_adaptive_interval_stability. Qed.

Lemma reason_tells_stability_witness :
  let r := _calculate_adaptive_interval (cv := cv2_example) still_frame None
             (__init__ None) in
  (DEFAULT = DEFAULT /\
   _stability_counter r.1 < stability_window AdaptiveSamplingConfig_new /\
   2 = clamp 1 8 2) \/
  (DEFAULT = STABLE_SCENE /\
   stability_window AdaptiveSamplingConfig_new <= _stability_counter r.1 /\
   2 = clamp 1 8 (Z.min 8 (2 + 1))) \/
  (fired DEFAULT /\ _stability_counter r.1 = 0).
Proof.
  intros r.
  apply (reason_tells_stability (cv := cv2_example) still_frame None
           (__init__ None) r.1 2 DEFAULT).
  vm_compute. reflexivity.
Defined.

(** ** A still scene *)

Lemma foldr_float_add_zero (l : list pyfloat) :
  Forall zero_score l ->
  exists s, foldr float_add (Fin 0) l = Fin s /\ (s == 0)%Q.
Proof.
  induction 1 as [|score l Hscore _ (s & Hs & Hzero)].
  - exists 0%Q. done.
  - destruct score as [q|]; [|done]. simpl in Hscore.
    exists (q + s)%Q. simpl. rewrite Hs. split; [done|].
    by rewrite Hscore, Hzero.
Qed.

Lemma np_mean_zero (l : list pyfloat) :
  Forall zero_score l -> l <> [] -> zero_score (np_mean l).
Proof.
  intros Hl Hne. destruct (foldr_float_add_zero l Hl) as (s & Hs & Hzero).
  unfold np_mean. destruct l as [|score l]; [done|]. rewrite Hs. simpl.
  rewrite Hzero. unfold Qdiv. apply Qmult_0_l.
Qed.

Lemma zero_score_thresholds (score : pyfloat) (low high : Q) :
  zero_score score -> (0 < low)%Q -> (0 <= high)%Q ->
  float_gt score high = false /\ float_lt score low = true.
Proof.
  intros Hzero Hlow Hhigh. destruct score as [q|]; [|done]. simpl in *.
  unfold Qlt_bool. split.
  - assert (Hle : Qle_bool q high = true)
      by (apply Qle_bool_iff; by rewrite Hzero).
    by rewrite Hle.
  - destruct (Qle_bool low q) eqn:E; [|done].
    apply Qle_bool_iff in E. rewrite Hzero in E.
    by apply Qlt_not_le in Hlow.
Qed.

Lemma np_sum_positive_still (gray : Gray) :
  np_sum_positive
    (threshold
       {| shape0 := shape0 gray; shape1 := shape1 gray;
          at_ := fun i j => Z.abs (at_ gray i j - at_ gray i j) |} 25 255) = 0.
Proof.
  unfold np_sum_positive, indices. cbn.
  generalize (list_prod (seq 0 (shape0 gray)) (seq 0 (shape1 gray))).
  intros l. induction l as [|ij l IH]; [done|].
  rewrite filter_cons_False; [exact IH|].
  rewrite Z.sub_diag. simpl. lia.
Qed.

Section StillScene.
Context {cv : CV2}.

Lemma same_shape_refl {A} (m : ndarray A) : same_shape m m = true.
Proof. unfold same_shape. by rewrite !Nat.eqb_refl. Qed.

Lemma _calculate_motion_score_still image (self : Sampler) :
  ndarray_empty image = false ->
  _prev_frame_gray self = None \/ _prev_frame_gray self = Some (smoothed image) ->
  exists score,
    _calculate_motion_score image self =
      (set__prev_frame_gray (Some (smoothed image)) self, Ok score) /\
    zero_score score.
Proof.
  intros Hempty [Hnone | Hsame].
  - rewrite _calculate_motion_score_first by done. exists (Fin 0). done.
  - unfold _calculate_motion_score, cvtColor_BGR2GRAY. rewrite Hempty. exec.
    rewrite Hsame. exec. unfold absdiff.
    change (GaussianBlur _) with (smoothed image).
    rewrite same_shape_refl. exec.
    rewrite np_sum_positive_still. unfold np_true_divide.
    assert (Hsize : Z.of_nat (shape0 image) * Z.of_nat (shape1 image) <> 0).
    { unfold ndarray_empty in Hempty.
      apply orb_false_iff in Hempty as [H0 H1].
      apply Nat.eqb_neq in H0, H1. lia. }
    cbn [shape0 shape1 threshold smoothed GaussianBlur].
    destruct (Z.eqb_spec (Z.of_nat (shape0 image) * Z.of_nat (shape1 image)) 0)
      as [|_]; [done|].
    eexists. split; [reflexivity|]. reflexivity.
Qed.

Lemma motion_stage_still cfg image k (self : Sampler) :
  still_config cfg ->
  ndarray_empty image = false ->
  still_scene cfg image k self ->
  exists self',
    motion_stage image (default_interval cfg) DEFAULT self =
      (self', Ok (default_interval cfg, DEFAULT)) /\
    still_scene cfg image (k + 1) self' /\
    (_last_seek_time self', _prev_detection_count self', _prev_track_ids self',
     _last_processed_frame self') =
    (_last_seek_time self, _prev_detection_count self, _prev_track_ids self,
     _last_processed_frame self).
Proof.
  intros (Hmotion & Hlow & Hhigh & Hsize) Hempty
    (Hconfig & Hcounter & Hboost & Hzero & Hprev).
  destruct (_calculate_motion_score_still image self Hempty Hprev)
    as (score & Hscore & Hscore0).
  unfold motion_stage. exec. rewrite Hconfig, Hmotion, bind_eq, Hscore. exec.
  cbn [_motion_history set__prev_frame_gray set__motion_history].
  assert (Hall : Forall zero_score (_motion_history self ++ [score]))
    by (apply Forall_app; split; [done | by constructor]).
  set (history := _motion_history self ++ [score]) in *.
  assert (Hkept : exists kept,
            Forall zero_score kept /\ kept <> [] /\
            (if motion_history_size cfg <? len history
             then tail history else history) = kept).
  { destruct (Z.ltb_spec (motion_history_size cfg) (len history)) as [Hfull|_].
    - exists (tail history). split; [|split; [|done]].
      + destruct history; [done|]. by apply Forall_cons in Hall as [_ ?].
      + unfold len in Hfull. destruct history as [|? [|? ?]]; simpl in *;
          [lia | lia | done].
    - exists history. split; [done|]. split; [|done].
      subst history. by destruct (_motion_history self). }
  destruct Hkept as (kept & Hkept0 & Hkept_ne & Hkept).
  destruct (zero_score_thresholds (np_mean kept) (motion_threshold_low cfg)
              (motion_threshold_high cfg)) as [Hgt Hlt];
    [by apply np_mean_zero | done | done |].
  destruct (motion_history_size cfg <? len history); exec;
    cbn [_motion_history set__motion_history set_metrics];
    rewrite Hkept, Hgt, Hlt; exec;
    (eexists; split; [reflexivity|]; split; [|reflexivity]);
    unfold still_scene; cbn; rewrite ?Hkept;
    repeat split; try done; try lia; by right.
Qed.
End StillScene.

Section StillSession.
Context {cv : CV2}.

Lemma still_call_eq cfg image k clk idx (self : Sampler) :
  still_config cfg ->
  ndarray_empty image = false ->
  still_scene cfg image k self ->
  outside_seek_window clk self ->
  exists self' b,
    should_process_frame clk idx image None false false self =
      (self', Ok (b, still_label cfg (k + 1))) /\
    still_scene cfg image (k + 1) self' /\
    _last_seek_time self' = _last_seek_time self.
Proof.
  intros Hcfg Hempty Hstill Hwindow.
  assert (Hentered : still_scene cfg image k (enter idx self)) by exact Hstill.
  destruct (motion_stage_still cfg image k (enter idx self) Hcfg Hempty Hentered)
    as (self1 & Hmotion & Hstill1 & Hsame1).
  destruct Hstill as (Hconfig & Hcounter & Hboost & _).
  unfold outside_seek_window in Hwindow.
  rewrite should_process_frame_no_seek, bind_eq.
  unfold choose_interval. exec.
  change (_last_seek_time (enter idx self)) with (_last_seek_time self).
  change (config (enter idx self)) with (config self).
  rewrite Hwindow. exec.
  change (_id_switch_boost_remaining (enter idx self))
    with (_id_switch_boost_remaining self).
  rewrite Hboost. cbn [Z.ltb Z.compare]. cbv beta iota.
  unfold _calculate_adaptive_interval. exec.
  change (config (enter idx self)) with (config self).
  rewrite Hconfig, Hmotion. exec.
  unfold crowd_stage, id_stage. exec.
  unfold stability_stage. exec.
  destruct Hstill1 as (Hconfig1 & Hcounter1 & Hboost1 & Hzero1 & Hprev1).
  rewrite Hconfig1, Hcounter1.
  injection Hsame1 as Hseek1 _ _ _.
  assert (Hfinish : forall interval reason,
    reason_str reason interval = still_label cfg (k + 1) ->
    exists self' b,
      commit clk idx None interval reason self1 =
        (self', Ok (b, still_label cfg (k + 1))) /\
      still_scene cfg image (k + 1) self' /\
      _last_seek_time self' = _last_seek_time self).
  { intros interval reason Hlabel.
    pose proof (commit_gate clk idx None interval reason self1) as (Hout & _).
    pose proof (commit_adaptive_state clk idx None interval reason self1)
      as Hsame.
    pose proof (commit_boost clk idx None interval reason self1) as Hkeep.
    destruct (commit clk idx None interval reason self1) as [self' r].
    simpl in Hout. rewrite Hout, Hlabel.
    unfold unchanged, adaptive_state in Hsame, Hkeep. simpl in Hsame, Hkeep.
    injection Hsame as Hc Hs Hg Hh _ _ Hk _ _.
    eexists _, _. split; [reflexivity|]. split; [|congruence].
    unfold still_scene.
    rewrite Hc, Hk, Hkeep, Hh, Hg. done. }
  unfold still_label, clamp.
  destruct (Z.leb_spec (stability_window cfg) (k + 1)) as [Hreached|Hbelow].
  - rewrite bool_decide_eq_true_2 by done. cbv beta iota.
    apply Hfinish. unfold still_label, clamp.
    destruct (Z.ltb_spec (k + 1) (stability_window cfg)); [lia | done].
  - cbv beta iota. apply Hfinish. unfold still_label, clamp.
    destruct (Z.ltb_spec (k + 1) (stability_window cfg)); [done | lia].
Qed.
End StillSession.

(** X14. On a still scene the sampler relaxes once [stability_window] is
    reached.  Take a configuration with motion detection on, a positive low
    threshold, a non-negative high threshold and a history of at least one
    score, and a sampler that has counted [k] stable calls (0 on a new
    one).  In a session of calls that pass the same non-empty frame, no
    detections and no flag, outside the seek window, no call raises; the
    session leaves the stability counter at [k] plus the number of calls,
    and call number [j] (from 0) carries the label [default] at the clamped
    default interval while [k + j + 1] is below [stability_window], and
    [stable_scene] at the default interval plus one, capped at
    [max_interval] and clamped, from then on. *)
Theorem still_scene_relaxes {cv : CV2}
    (cfg : AdaptiveSamplingConfig) (image : Frame) (k : Z)
    (calls : list Call) (self : Sampler) :
  still_config cfg ->
  ndarray_empty image = false ->
  still_scene cfg image k self ->
  Forall (still_call image self) calls ->
  _stability_counter (session calls self).1 = k + len calls /\
  length (session calls self).2 = length calls /\
  (forall (j : nat) o, (session calls self).2 !! j = Some o ->
     exists b, o = Ok (b, still_label cfg (k + Z.of_nat j + 1))).
Proof.
  intros Hcfg Hempty. revert k self.
  induction calls as [|c calls IH]; intros k self Hstill Hcalls.
  - simpl. destruct Hstill as (_ & Hcounter & _).
    split; [unfold len; simpl; lia|]. split; [done|]. intros j o. done.
  - apply Forall_cons in Hcalls
      as [(Hframe & Hnone & Hlock & Hseek & Hwindow) Hcalls].
    destruct (still_call_eq cfg image k (clock c) (frame_idx c) self Hcfg
                Hempty Hstill Hwindow)
      as (self1 & b & Hcall & Hstill1 & Hseek1).
    assert (Hcalls1 : Forall (still_call image self1) calls).
    { eapply Forall_impl; [exact Hcalls|].
      intros c' (? & ? & ? & ? & Hw). repeat split; try done.
      unfold outside_seek_window in *.
      destruct Hstill as (Hconfig & _). destruct Hstill1 as (Hconfig1 & _).
      by rewrite Hseek1, Hconfig1, <- Hconfig. }
    specialize (IH (k + 1) self1 Hstill1 Hcalls1).
    simpl. unfold evaluate. rewrite Hframe, Hnone, Hlock, Hseek, Hcall.
    destruct (session calls self1) as [self2 rs]. simpl in *.
    destruct IH as (Hcounter & Hlen & Hlabels).
    split; [rewrite Hcounter; unfold len; simpl length; lia|].
    split; [by rewrite Hlen|].
    intros [|j] o Ho; simpl in Ho.
    + injection Ho as <-. exists b. do 3 f_equal. lia.
    + destruct (Hlabels j o Ho) as (b' & ->). exists b'. do 3 f_equal. lia.
Qed.

Lemma still_scene_relaxes_witness :
  _stability_counter
    (session (cv := cv2_example) still_calls
       (__init__ (Some short_window_config))).1 = 0 + len still_calls /\
  length (session (cv := cv2_example) still_calls
            (__init__ (Some short_window_config))).2 = length still_calls /\
  (forall (j : nat) o,
     (session (cv := cv2_example) still_calls
        (__init__ (Some short_window_config))).2 !! j = Some o ->
     exists b,
       o = Ok (b, still_label short_window_config (0 + Z.of_nat j + 1))).
Proof.
  apply (still_scene_relaxes (cv := cv2_example) short_window_config
           still_frame 0 still_calls (__init__ (Some short_window_config))).
  - repeat split; vm_compute; done.
  - reflexivity.
  - repeat split; try done. by left.
  - repeat constructor.
Defined.

(** The session of the witness: the second call reaches the window of 2. *)
Example still_scene_labels :
  (session (cv := cv2_example) still_calls
     (__init__ (Some short_window_config))).2 =
  [ Ok (false, "default (interval=2)"%string);
    Ok (false, "stable_scene (interval=3)"%string);
    Ok (true, "stable_scene (interval=3)"%string);
    Ok (false, "stable_scene (interval=3)"%string);
    Ok (false, "stable_scene (interval=3)"%string) ].
Proof. vm_compute. reflexivity. Qed.

(** ** Accounting of decisions *)

Ltac triple := repeat (apply (f_equal2 pair)); lia.

Section Accounting.
Context {cv : CV2}.

Lemma choose_interval_decision_counters clk frame detections lock :
  steady (unchanged decision_counters)
    (choose_interval clk frame detections lock).
Proof.
  unfold choose_interval, _calculate_adaptive_interval, motion_stage,
    crowd_stage, id_stage, stability_stage, _calculate_motion_score.
  steady_auto fin_unchanged.
Qed.

Lemma evaluate_tally (c : Call) (self : Sampler) :
  decision_counters (evaluate c self).1 =
  add3 (decision_counters self) (tally_of c (evaluate c self).2).
Proof.
  unfold evaluate, tally_of. destruct (seek_event c).
  - rewrite should_process_frame_seek. unfold decision_counters, add3. cbn.
    triple.
  - rewrite should_process_frame_no_seek, bind_eq.
    pose proof (choose_interval_decision_counters (clock c) (frame c)
                  (detections c) (lock_on_active c)
                  (enter (frame_idx c) self)) as Hsame.
    destruct (choose_interval _ _ _ _ _) as [self1 [[interval reason]|e]];
      unfold unchanged in Hsame; simpl in Hsame.
    + pose proof (commit_gate (clock c) (frame_idx c) (detections c) interval
                    reason self1)
        as (Hresult & _ & _ & _ & Hprocessed & Hskipped & _ & Hcount).
      rewrite Hresult.
      unfold decision_counters, add3 in *. rewrite Hprocessed, Hskipped, Hcount.
      injection Hsame as -> -> ->. cbn.
      destruct (interval <=? _); cbn; triple.
    + simpl. rewrite Hsame. unfold decision_counters, add3. cbn.
      triple.
Qed.
End Accounting.

(** X15. The counters count the decisions, and nothing else.  Over any
    session, [frames_processed] grows by the number of calls without the
    seek flag that returned [True], [frames_skipped] by the number that
    returned [False], and [detection_count] by the lengths of the detection
    lists of the former; a call with the seek flag and a call that raises
    add nothing. *)
Theorem counters_tally_decisions {cv : CV2} (calls : list Call) (self : Sampler) :
  decision_counters (session calls self).1 =
  add3 (decision_counters self) (tally calls (session calls self).2).
Proof.
  revert self. induction calls as [|c calls IH]; intros self.
  - simpl. unfold add3, decision_counters. cbn. triple.
  - simpl. pose proof (evaluate_tally c self) as Hone.
    destruct (evaluate c self) as [self1 r]. simpl in Hone.
    specialize (IH self1).
    destruct (session calls self1) as [self2 rs]. simpl in *.
    rewrite IH, Hone. unfold add3. cbn. triple.
Qed.

(** ** The event of a decision *)

Section EventOfDecision.
Context {cv : CV2}.

Lemma choose_interval_telemetry_state clk frame detections lock :
  steady (unchanged telemetry_state)
    (choose_interval clk frame detections lock).
Proof.
  unfold choose_interval, _calculate_adaptive_interval, motion_stage,
    crowd_stage, id_stage, stability_stage, _calculate_motion_score.
  steady_auto fin_unchanged.
Qed.

Lemma commit_tells clk idx detections interval reason (self : Sampler) :
  exists self' b label e,
    commit clk idx detections interval reason self = (self', Ok (b, label)) /\
    _telemetry_events self' =
      push (_max_telemetry_events self) (_telemetry_events self) e /\
    tells clk idx false self' b label e.
Proof.
  unfold commit. exec.
  destruct (interval <=? _); [destruct detections|]; exec;
    do 4 eexists; (split; [reflexivity|]); (split; [reflexivity|]);
    unfold tells, telemetry_event, reason_str; cbn; repeat split.
Qed.
End EventOfDecision.

Lemma should_process_frame_tells {cv : CV2}
    (clk : Clock) (idx : Z) (image : Frame)
    (detections : option (list Detection)) (lock seek : bool) (self : Sampler) :
  let r := should_process_frame clk idx image detections lock seek self in
  match r.2 with
  | Ok (b, label) =>
      exists e,
        _telemetry_events r.1 =
          push (_max_telemetry_events self) (_telemetry_events self) e /\
        tells clk idx seek r.1 b label e
  | Raise _ => _telemetry_events r.1 = _telemetry_events self
  end.
Proof.
  intros r. subst r. destruct seek.
  - rewrite should_process_frame_seek. cbn. eexists. split; [reflexivity|].
    unfold tells, telemetry_event. cbn. repeat split.
  - rewrite should_process_frame_no_seek, bind_eq.
    pose proof (choose_interval_telemetry_state clk image detections lock
                  (enter idx self)) as Hsame.
    destruct (choose_interval _ _ _ _ _) as [self1 [[interval reason]|e]];
      unfold unchanged, telemetry_state in Hsame; simpl in Hsame;
      injection Hsame as Hevents Hcap.
    + destruct (commit_tells clk idx detections interval reason self1)
        as (self' & b & label & e & -> & Hpush & Htells).
      simpl. exists e. rewrite Hpush, Hevents, Hcap. done.
    + simpl. exact Hevents.
Qed.

(** X16. Every decision leaves exactly one event that tells it.  A call
    that returns [(b, label)] appends one event to the buffer (dropping the
    oldest when over capacity) whose timestamp is the call's second clock
    reading, whose frame index is the call's, whose [processed] entry is
    [b], and whose motion score, detection count and processing ratio are
    those of the metrics as the call leaves them; its reason is the
    [last_reason] of the metrics.  Without the seek flag its interval is the
    one the call set and the label is the reason followed by the interval;
    with the flag the event says [user_seek] at interval 1.  A call that
    raises leaves the buffer as it was. *)
Theorem decision_leaves_one_event {cv : CV2}
    (clk : Clock) (idx : Z) (image : Frame)
    (detections : option (list Detection)) (lock seek : bool) (self : Sampler) :
  let r := should_process_frame clk idx image detections lock seek self in
  match r.2 with
  | Ok (b, label) =>
      exists e,
        _telemetry_events r.1 =
          push (_max_telemetry_events self) (_telemetry_events self) e /\
        tells clk idx seek r.1 b label e
  | Raise _ => _telemetry_events r.1 = _telemetry_events self
  end.
Proof. apply should_process_frame_tells. Qed.

(** ** Reading the telemetry *)

Lemma nondecreasing_app ts t :
  nondecreasing ts -> Forall (fun x => (x <= t)%Q) ts ->
  nondecreasing (ts ++ [t]).
Proof.
  induction ts as [|x ts IH]; simpl.
  - intros _ _. split; constructor.
  - intros [Hx Hts] Hall. apply Forall_cons in Hall as [Hxt Hall].
    split; [|by apply IH].
    apply Forall_app. split; [exact Hx|]. by constructor.
Qed.

Lemma nondecreasing_tail ts : nondecreasing ts -> nondecreasing (tail ts).
Proof. destruct ts as [|x ts]; simpl; tauto. Qed.

Lemma Forall_tail {A} (P : A -> Prop) (l : list A) :
  Forall P l -> Forall P (tail l).
Proof. destruct l; simpl; [done|]. by intros [_ ?]%Forall_cons. Qed.

Lemma recorded_until_later t t' (self : Sampler) :
  (t <= t')%Q -> recorded_until t self -> recorded_until t' self.
Proof.
  intros Hle [Hsorted Hall]. split; [exact Hsorted|].
  eapply Forall_impl; [exact Hall|]. intros e He. simpl in He.
  by apply Qle_trans with t.
Qed.

Lemma push_recorded cap events e t :
  nondecreasing (map Event.timestamp events) ->
  Forall (fun e => (Event.timestamp e <= t)%Q) events ->
  (t <= Event.timestamp e)%Q ->
  nondecreasing (map Event.timestamp (push cap events e)) /\
  Forall (fun e' => (Event.timestamp e' <= Event.timestamp e)%Q)
    (push cap events e).
Proof.
  intros Hsorted Hall Hle.
  assert (Hsorted' : nondecreasing (map Event.timestamp (events ++ [e]))).
  { rewrite map_app. simpl. apply nondecreasing_app; [exact Hsorted|].
    apply Forall_map. eapply Forall_impl; [exact Hall|].
    intros e' He'. simpl in *. by apply Qle_trans with t. }
  assert (Hall' : Forall (fun e' => (Event.timestamp e' <= Event.timestamp e)%Q)
                    (events ++ [e])).
  { apply Forall_app. split.
    - eapply Forall_impl; [exact Hall|].
      intros e' He'. simpl in *. by apply Qle_trans with t.
    - constructor; [apply Qle_refl | constructor]. }
  unfold push. destruct (_ <? _).
  - split; [|by apply Forall_tail].
    destruct (events ++ [e]) as [|e0 l]; [exact Hsorted'|].
    simpl in *. tauto.
  - by split.
Qed.

Lemma evaluate_recorded {cv : CV2} (c : Call) (t : Q) (self : Sampler) :
  recorded_until t self -> (t <= time_1 (clock c))%Q ->
  recorded_until (time_1 (clock c)) (evaluate c self).1.
Proof.
  intros Hrec Hle. unfold evaluate.
  pose proof (should_process_frame_tells (clock c) (frame_idx c) (frame c)
                (detections c) (lock_on_active c) (seek_event c) self)
    as Hevent.
  simpl in Hevent.
  destruct (should_process_frame _ _ _ _ _ _ _) as [self' [[b label]|err]];
    simpl in *.
  - destruct Hevent as (e & Hpush & Htime & _). destruct Hrec as [Hsorted Hall].
    unfold recorded_until. rewrite Hpush, <- Htime.
    apply push_recorded with t; [done|done|by rewrite Htime].
  - apply recorded_until_later with t; [done|].
    unfold recorded_until. by rewrite Hevent.
Qed.

Lemma session_recorded {cv : CV2} (calls : list Call) (t : Q) (self : Sampler) :
  recorded_until t self -> chronological t calls ->
  nondecreasing (map Event.timestamp (_telemetry_events (session calls self).1)).
Proof.
  revert t self. induction calls as [|c calls IH]; intros t self Hrec Hcalls.
  - apply Hrec.
  - destruct Hcalls as [Hle Hcalls]. simpl.
    pose proof (evaluate_recorded c t self Hrec Hle) as Hrec1.
    destruct (evaluate c self) as [self1 r]. simpl in Hrec1.
    specialize (IH _ self1 Hrec1 Hcalls).
    destruct (session calls self1) as [self2 rs]. exact IH.
Qed.

Lemma filter_all {A} (p : A -> bool) (l : list A) :
  Forall (fun x => p x = true) l -> List.filter p l = l.
Proof.
  induction 1 as [|x l Hx _ IH]; simpl; [done|]. by rewrite Hx, IH.
Qed.

Lemma filter_none {A} (l : list A) : List.filter (fun _ => false) l = [].
Proof. induction l; [done|]. by simpl. Qed.

Lemma filter_since_suffix (q : Q) (events : list Event.t) :
  nondecreasing (map Event.timestamp events) ->
  exists n,
    List.filter (fun e => Qle_bool q (Event.timestamp e)) events =
      drop n events /\
    Forall (fun e => (Event.timestamp e < q)%Q) (take n events).
Proof.
  induction events as [|e events IH]; simpl.
  - intros _. exists 0%nat. split; [done | constructor].
  - intros [Hall Hsorted].
    destruct (Qle_bool q (Event.timestamp e)) eqn:Hq.
    + exists 0%nat. split; [|constructor]. simpl. f_equal.
      apply filter_all. apply (proj1 (Forall_map _ _ _)) in Hall.
      eapply Forall_impl; [exact Hall|]. intros e' He'. simpl in He'.
      apply Qle_bool_iff. apply Qle_bool_iff in Hq.
      by apply Qle_trans with (Event.timestamp e).
    + destruct (IH Hsorted) as (n & Hfilter & Hbefore).
      exists (S n). simpl. split; [exact Hfilter|].
      constructor; [|exact Hbefore].
      apply Qnot_le_lt. intros Hle. apply Qle_bool_iff in Hle. congruence.
Qed.

(** X17. Reading the telemetry changes nothing, and after a session whose
    clock never steps back the events since a timestamp are the newest
    ones.  Start from a buffer in the order of its timestamps, none after
    [t] (an empty one, in particular), and run calls whose clock readings
    start at [t] and never decrease.  Then [get_telemetry_events] returns,
    leaves the sampler as it is, and yields the buffer without its first
    [n] events, for some [n]: the whole buffer when no timestamp is given
    and, for a finite timestamp, the events after the dropped ones, which
    are all older than it. *)
Theorem telemetry_since_is_a_suffix {cv : CV2}
    (t : Q) (calls : list Call) (self : Sampler) (since : option pyfloat) :
  recorded_until t self ->
  chronological t calls ->
  let self' := (session calls self).1 in
  exists n,
    get_telemetry_events since self' =
      (self', Ok (drop n (_telemetry_events self'))) /\
    (since = None -> n = 0%nat) /\
    (forall q, since = Some (Fin q) ->
       Forall (fun e => (Event.timestamp e < q)%Q)
         (take n (_telemetry_events self'))).
Proof.
  intros Hrec Hcalls self'.
  pose proof (session_recorded calls t self Hrec Hcalls) as Hsorted.
  fold self' in Hsorted. unfold get_telemetry_events.
  destruct since as [[q|]|]; exec.
  - destruct (filter_since_suffix q (_telemetry_events self') Hsorted)
      as (n & Hfilter & Hbefore).
    exists n. split; [|split; [intros; discriminate|]].
    + simpl. by rewrite Hfilter.
    + intros q' [= <-]. exact Hbefore.
  - exists (length (_telemetry_events self')). split; [|split; intros; discriminate].
    simpl. by rewrite drop_all, filter_none.
  - exists 0%nat. split; [done|]. split; [done|done].
Qed.

Lemma telemetry_since_is_a_suffix_witness :
  let self' := (session (cv := cv2_example) timed_calls (__init__ None)).1 in
  exists n,
    get_telemetry_events (Some (Fin 2)) self' =
      (self', Ok (drop n (_telemetry_events self'))) /\
    (Some (Fin 2) = None -> n = 0%nat) /\
    (forall q, Some (Fin 2) = Some (Fin q) ->
       Forall (fun e => (Event.timestamp e < q)%Q)
         (take n (_telemetry_events self'))).
Proof.
  apply (telemetry_since_is_a_suffix (cv := cv2_example) 0 timed_calls
           (__init__ None) (Some (Fin 2))).
  - split; [exact I | constructor].
  - repeat split; vm_compute; discriminate.
Defined.

(** The session of the witness: the events since 2 are those of the second
    and the third call. *)
Example telemetry_since_2 :
  map Event.frame_idx
    (default []
       (match (get_telemetry_events (Some (Fin 2))
                 (session (cv := cv2_example) timed_calls (__init__ None)).1).2
        with Ok events => Some events | Raise _ => None end)) = [1; 2].
Proof. vm_compute. reflexivity. Qed.

(** With a clock that is set back between calls, the events since a
    timestamp need not be the newest ones. *)
Example telemetry_since_2_clock_set_back :
  map Event.frame_idx
    (default []
       (match (get_telemetry_events (Some (Fin 2))
                 (session (cv := cv2_example) clock_set_back_calls
                    (__init__ None)).1).2
        with Ok events => Some events | Raise _ => None end)) = [0; 2].
Proof. vm_compute. reflexivity. Qed.

(** ** Motion scores as fractions *)

Lemma foldr_float_add_unit (l : list pyfloat) :
  Forall unit_score l ->
  exists s, foldr float_add (Fin 0) l = Fin s /\
            (0 <= s <= inject_Z (Z.of_nat (length l)))%Q.
Proof.
  induction 1 as [|score l Hscore _ (s & Hs & Hlo & Hhi)].
  - exists 0%Q. split; [done|]. split; done.
  - destruct score as [q|]; [|done]. simpl in Hscore.
    destruct Hscore as [Hq0 Hq1].
    exists (q + s)%Q. simpl foldr. rewrite Hs. split; [done|]. split.
    + change 0%Q with (0 + 0)%Q. by apply Qplus_le_compat.
    + simpl length. rewrite Nat2Z.inj_succ, <- Z.add_1_l, inject_Z_plus.
      by apply Qplus_le_compat.
Qed.

Lemma np_mean_unit (l : list pyfloat) :
  Forall unit_score l -> l <> [] -> unit_score (np_mean l).
Proof.
  intros Hl Hne. destruct (foldr_float_add_unit l Hl) as (s & Hs & Hlo & Hhi).
  unfold np_mean. destruct l as [|score l]; [done|]. rewrite Hs. simpl.
  set (n := inject_Z (Z.of_nat (length (score :: l)))) in *.
  assert (Hn : (0 < n)%Q).
  { subst n. change 0%Q with (inject_Z 0). rewrite <- Zlt_Qlt.
    simpl length. lia. }
  split.
  - apply Qle_shift_div_l; [done|]. by rewrite Qmult_0_l.
  - apply Qle_shift_div_r; [done|]. by rewrite Qmult_1_l.
Qed.

Lemma unit_motion_record (self self' : Sampler) :
  motion_record self' = motion_record self ->
  unit_motion self -> unit_motion self'.
Proof.
  unfold motion_record, unit_motion. intros [= -> -> -> ->]. done.
Qed.

Lemma _record_telemetry_motion_record now idx reason interval processed :
  steady (unchanged motion_record)
    (_record_telemetry now idx reason interval processed).
Proof. unfold _record_telemetry. steady_auto fin_unchanged. Qed.
Global Hint Resolve _record_telemetry_motion_record : steady.

Section UnitScores.
Context {cv : CV2}.

Lemma _calculate_motion_score_unit frame (self : Sampler) :
  match _prev_frame_gray self with
  | Some prev => ndarray_empty prev = false
  | None => True
  end ->
  match _calculate_motion_score frame self with
  | (self', Ok score) =>
      unit_score score /\ ndarray_empty frame = false /\
      self' = set__prev_frame_gray (Some (smoothed frame)) self
  | (self', Raise _) => self' = self
  end.
Proof.
  intros Hprev.
  assert (Hsize : forall A (m : ndarray A), ndarray_empty m = false ->
            0 < Z.of_nat (shape0 m) * Z.of_nat (shape1 m)).
  { intros A m Hm. unfold ndarray_empty in Hm.
    apply orb_false_iff in Hm as [H0 H1]. apply Nat.eqb_neq in H0, H1. lia. }
  unfold _calculate_motion_score, cvtColor_BGR2GRAY.
  destruct (ndarray_empty frame) eqn:Hempty; exec; [done|].
  destruct (_prev_frame_gray self) as [prev|]; exec;
    [|split; [split; done | done]].
  assert (Hscore : forall thresh : Gray,
            0 < Z.of_nat (shape0 thresh) * Z.of_nat (shape1 thresh) ->
            unit_score (np_true_divide (np_sum_positive thresh)
                          (Z.of_nat (shape0 thresh) * Z.of_nat (shape1 thresh)))).
  { intros thresh Hpos.
    destruct (np_true_divide_unit (np_sum_positive thresh)
                (Z.of_nat (shape0 thresh) * Z.of_nat (shape1 thresh)))
      as (q & -> & Hq); [apply np_sum_positive_bounds | done | exact Hq]. }
  unfold absdiff.
  destruct (same_shape prev _); exec;
    [split; [apply Hscore; cbn; by apply Hsize | done]|].
  destruct (single_pixel prev); exec;
    [split; [apply Hscore; cbn; by apply Hsize | done]|].
  destruct (single_pixel _); exec; [|done].
  split; [apply Hscore; cbn; by apply Hsize | done].
Qed.

Lemma motion_stage_unit frame interval reason (self : Sampler) :
  unit_motion self ->
  unit_motion (motion_stage frame interval reason self).1.
Proof.
  intros (Hsize & Hprev & Hhistory & Havg).
  pose proof (_calculate_motion_score_unit frame self Hprev) as Hscore.
  unfold motion_stage. exec.
  destruct (enable_motion_detection (config self)); exec; [|done].
  destruct (_calculate_motion_score frame self) as [self1 [score|e]];
    [|by subst self1].
  destruct Hscore as (Hunit & Hempty & ->). exec.
  cbn [_motion_history set__prev_frame_gray set__motion_history config].
  assert (Hall : Forall unit_score (_motion_history self ++ [score]))
    by (apply Forall_app; split; [done | by constructor]).
  set (history := _motion_history self ++ [score]) in *.
  assert (Hkept : exists kept,
            Forall unit_score kept /\ kept <> [] /\
            (if motion_history_size (config self) <? len history
             then tail history else history) = kept).
  { destruct (Z.ltb_spec (motion_history_size (config self)) (len history))
      as [Hfull|_].
    - exists (tail history). split; [|split; [|done]].
      + destruct history; [done|]. by apply Forall_cons in Hall as [_ ?].
      + unfold len in Hfull. destruct history as [|? [|? ?]]; simpl in *;
          [lia | lia | done].
    - exists history. split; [done|]. split; [|done].
      subst history. by destruct (_motion_history self). }
  destruct Hkept as (kept & Hkept1 & Hkept_ne & Hkept).
  pose proof (np_mean_unit kept Hkept1 Hkept_ne) as Hmean.
  destruct (motion_history_size (config self) <? len history); exec;
    cbn [_motion_history set__motion_history set_metrics config
         set__prev_frame_gray];
    rewrite Hkept;
    destruct (float_gt _ _); exec;
    try (destruct (float_lt _ _); exec);
    unfold unit_motion; cbn; rewrite ?Hkept; repeat split; try done;
    apply Hmean.
Qed.

Lemma after_motion_stage_record detections interval reason :
  steady (unchanged motion_record)
    ('(interval, reason) ← crowd_stage detections interval reason;
     '(interval, reason) ← id_stage detections interval reason;
     stability_stage interval reason).
Proof.
  unfold crowd_stage, id_stage, stability_stage. steady_auto fin_unchanged.
Qed.

Lemma commit_motion_record clk idx detections interval reason :
  steady (unchanged motion_record)
    (commit clk idx detections interval reason).
Proof. unfold commit. steady_auto fin_unchanged. Qed.

Lemma _calculate_adaptive_interval_unit frame detections (self : Sampler) :
  unit_motion self ->
  unit_motion (_calculate_adaptive_interval frame detections self).1.
Proof.
  intros Hunit. unfold _calculate_adaptive_interval. exec.
  pose proof (motion_stage_unit frame (default_interval (config self)) DEFAULT
                self Hunit) as Hstage.
  destruct (motion_stage _ _ _ _) as [self1 [[i1 r1]|e]]; [|exact Hstage].
  simpl in Hstage.
  eapply unit_motion_record; [|exact Hstage].
  apply (after_motion_stage_record detections i1 r1 self1).
Qed.

Lemma choose_interval_unit clk frame detections lock (self : Sampler) :
  unit_motion self ->
  unit_motion (choose_interval clk frame detections lock self).1.
Proof.
  intros Hunit. unfold choose_interval. exec.
  destruct (Qlt_bool _ _); exec; [done|].
  destruct lock; exec; [eapply unit_motion_record; [|exact Hunit]; done|].
  destruct (0 <? _); exec; [eapply unit_motion_record; [|exact Hunit]; done|].
  by apply _calculate_adaptive_interval_unit.
Qed.

Lemma evaluate_unit (c : Call) (self : Sampler) :
  unit_motion self -> unit_motion (evaluate c self).1.
Proof.
  intros Hunit. unfold evaluate. destruct (seek_event c).
  - rewrite should_process_frame_seek.
    eapply unit_motion_record; [|exact Hunit]. done.
  - rewrite should_process_frame_no_seek, bind_eq.
    assert (Hentered : unit_motion (enter (frame_idx c) self))
      by (eapply unit_motion_record; [|exact Hunit]; done).
    pose proof (choose_interval_unit (clock c) (frame c) (detections c)
                  (lock_on_active c) _ Hentered) as Hchosen.
    destruct (choose_interval _ _ _ _ _) as [self1 [[interval reason]|e]];
      [|exact Hchosen].
    simpl in Hchosen. eapply unit_motion_record; [|exact Hchosen].
    apply (commit_motion_record (clock c) (frame_idx c) (detections c)
             interval reason self1).
Qed.
End UnitScores.

(** X18. Motion scores are fractions, and [nan] never reaches the metrics
    while the history holds at least one score.  Take a sampler with
    [motion_history_size] at least 1 whose stored frame has pixels and whose
    scores and average lie in [0,1] (a new sampler, in particular).  After
    any session, whatever frames, detections and flags are passed and
    whether calls return or raise, the same holds again: every score of the
    history and [avg_motion_score] are numbers between 0 and 1. *)
Theorem motion_scores_are_fractions {cv : CV2}
    (calls : list Call) (self : Sampler) :
  unit_motion self -> unit_motion (session calls self).1.
Proof.
  apply (session_invariant unit_motion). intros c s. apply evaluate_unit.
Qed.

Lemma motion_scores_are_fractions_witness :
  unit_motion (session (cv := cv2_example) flashing_calls (__init__ None)).1.
Proof.
  apply (motion_scores_are_fractions (cv := cv2_example) flashing_calls
           (__init__ None)).
  repeat split; done.
Defined.

(** The session of the witness: every pixel changes between frames, and the
    average of the scores 0, 1, 1, 1 is 3/4. *)
Example flashing_average :
  exists q,
    avg_motion_score
      (metrics (session (cv := cv2_example) flashing_calls (__init__ None)).1) =
    Fin q /\ (q == 3 # 4)%Q.
Proof. eexists. split; [vm_compute; reflexivity | reflexivity]. Qed.

(** With a history of size 0 the average is taken of no score at all:
    [avg_motion_score] is [nan] after the first call. *)
Example no_history_average_is_nan :
  avg_motion_score
    (metrics (evaluate (cv := cv2_example) (plain_call 1700000000 0 still_frame)
                (__init__ (Some no_history_config))).1) = NaN.
Proof. vm_compute. reflexivity. Qed.

(** ** A history that keeps no score *)

Global Instance keeps_stability_zero_preorder : PreOrder keeps_stability_zero.
Proof.
  split.
  - intros s. split; [reflexivity | tauto].
  - intros s1 s2 s3 [H1 H1'] [H2 H2']. split; [congruence | tauto].
Qed.

Ltac fin_zero := unfold keeps_stability_zero; cbn; split; [reflexivity | tauto].

Section NoHistory.
Context {cv : CV2}.

Lemma motion_stage_no_history frame interval reason (self self' : Sampler) d :
  no_history self ->
  motion_stage frame interval reason self = (self', Ok d) ->
  d = (interval, reason) /\
  config self' = config self /\
  _motion_history self' = [] /\
  avg_motion_score (metrics self') = NaN /\
  _stability_counter self' = 0.
Proof.
  intros (Hon & Hsize & _ & Hhistory).
  pose proof (_calculate_motion_score_stores frame self) as Hstores.
  unfold motion_stage. exec. rewrite Hon, bind_eq.
  destruct (_calculate_motion_score frame self) as [self1 [score|e]];
    [|cbv beta iota; discriminate].
  simpl in Hstores.
  assert (Hfull : (motion_history_size (config self) <? len [score]) = true)
    by (apply Z.ltb_lt; unfold len; simpl; lia).
  destruct Hstores as [-> | ->]; exec;
    cbn [_motion_history set__prev_frame_gray set__motion_history config];
    rewrite Hhistory; rewrite ?app_nil_l; rewrite Hfull; exec;
    cbn [_motion_history set__prev_frame_gray set__motion_history config tail];
    simpl np_mean; cbn [float_gt float_lt]; exec;
    intros [= <- <-]; cbn; done.
Qed.
End NoHistory.

Section NoHistoryCalculation.
Context {cv : CV2}.

Lemma after_motion_stage_keeps_zero detections interval reason :
  steady keeps_stability_zero
    ('(interval, reason) ← crowd_stage detections interval reason;
     '(interval, reason) ← id_stage detections interval reason;
     stability_stage interval reason).
Proof.
  unfold crowd_stage, id_stage, stability_stage. steady_auto fin_zero.
Qed.

Lemma _calculate_adaptive_interval_no_history frame detections
    (self self' : Sampler) interval reason :
  no_history self ->
  _calculate_adaptive_interval frame detections self =
    (self', Ok (interval, reason)) ->
  no_history self' /\
  avg_motion_score (metrics self') = NaN /\
  _stability_counter self' = 0 /\
  reason <> STABLE_SCENE.
Proof.
  intros Hno Hcall.
  pose proof (_calculate_adaptive_interval_stability frame detections self self'
                interval reason Hcall) as Hreason.
  unfold _calculate_adaptive_interval in Hcall.
  apply bind_Ok_inv in Hcall as (? & cfg & [= <- <-] & Hcall).
  apply bind_Ok_inv in Hcall as (self1 & [i1 r1] & Hmotion & Hcall).
  destruct (motion_stage_no_history frame _ _ self self1 _ Hno Hmotion)
    as (_ & Hconfig & Hhistory & Havg & Hcounter).
  pose proof (after_motion_stage_keeps_zero detections i1 r1 self1)
    as [Hrecord Hzero].
  rewrite Hcall in Hrecord, Hzero. simpl in Hrecord, Hzero.
  unfold motion_record in Hrecord.
  injection Hrecord as Hconfig' _ Hhistory' Havg'.
  specialize (Hzero Hcounter).
  destruct Hno as (Hon & Hsize & Hwindow & _).
  split; [|split; [congruence|split; [exact Hzero|]]].
  - unfold no_history. rewrite Hconfig', Hconfig, Hhistory', Hhistory. done.
  - intros ->. simpl in Hreason.
    destruct Hreason as [[[=] _] | [(_ & Hreached & _) | [Hfired _]]].
    + lia.
    + destruct Hfired as [[=] | [[=] | [=]]].
Qed.
End NoHistoryCalculation.

(** X19. A history that keeps no score disables the relaxation.  With
    motion detection on, [motion_history_size] at 0 or below, an empty
    history and [stability_window] at least 1, every returning adaptive
    calculation drops the score it has just taken, sets [avg_motion_score]
    to [nan] (the mean of no score), leaves the stability counter at 0 and
    the history empty, and never reports [STABLE_SCENE]; so this holds for
    every later calculation too. *)
Theorem no_history_never_relaxes {cv : CV2}
    (image : Frame) (detections : option (list Detection))
    (self self' : Sampler) (interval : Z) (reason : SamplingReason) :
  no_history self ->
  _calculate_adaptive_interval image detections self =
    (self', Ok (interval, reason)) ->
  no_history self' /\
  avg_motion_score (metrics self') = NaN /\
  _stability_counter self' = 0 /\
  reason <> STABLE_SCENE.
Proof. apply _calculate_adaptive_interval_no_history. Qed.

Lemma no_history_never_relaxes_witness :
  let r := _calculate_adaptive_interval (cv := cv2_example) still_frame None
             (__init__ (Some no_history_config)) in
  no_history r.1 /\
  avg_motion_score (metrics r.1) = NaN /\
  _stability_counter r.1 = 0 /\
  DEFAULT <> STABLE_SCENE.
Proof.
  intros r.
  apply (no_history_never_relaxes (cv := cv2_example) still_frame None
           (__init__ (Some no_history_config)) r.1 2 DEFAULT).
  - repeat split; vm_compute; done.
  - vm_compute. reflexivity.
Defined.

(** On a still scene a sampler that keeps no score goes on at the default
    interval, where one that keeps scores relaxes. *)
Example no_history_still_scene :
  map (fun r => match r with Ok (_, label) => label | Raise _ => EmptyString end)
    (session (cv := cv2_example) still_calls
       (__init__ (Some no_history_config))).2 =
  replicate 5 "default (interval=2)"%string.
Proof. vm_compute. reflexivity. Qed.

(** ** Frames seen *)

Section Seen.
Context {cv : CV2}.

Lemma choose_interval_frame_count clk frame detections lock :
  steady (unchanged _frame_count) (choose_interval clk frame detections lock).
Proof.
  unfold choose_interval, _calculate_adaptive_interval, motion_stage,
    crowd_stage, id_stage, stability_stage, _calculate_motion_score.
  steady_auto fin_unchanged.
Qed.

Lemma commit_frame_count clk idx detections interval reason (self : Sampler) :
  _frame_count (commit clk idx detections interval reason self).1 =
  _frame_count self.
Proof.
  unfold commit. exec.
  destruct (interval <=? _); [destruct detections|]; exec; reflexivity.
Qed.
End Seen.

Lemma evaluate_seen {cv : CV2} (c : Call) (self : Sampler) :
  total_frames (metrics (evaluate c self).1) =
    Z.max (total_frames (metrics self)) (frame_idx c + 1) /\
  _frame_count (evaluate c self).1 = frame_idx c.
Proof.
  unfold evaluate. destruct (seek_event c).
  - rewrite should_process_frame_seek. by cbn.
  - rewrite should_process_frame_no_seek, bind_eq.
    pose proof (choose_interval_gate_inputs (clock c) (frame c) (detections c)
                  (lock_on_active c) (enter (frame_idx c) self)) as Hsame.
    pose proof (choose_interval_frame_count (clock c) (frame c) (detections c)
                  (lock_on_active c) (enter (frame_idx c) self)) as Hcount.
    destruct (choose_interval _ _ _ _ _) as [self1 [[interval reason]|e]];
      unfold unchanged, gate_inputs in Hsame, Hcount; simpl in Hsame, Hcount;
      injection Hsame as _ _ _ Htotal; [|by simpl].
    pose proof (commit_gate (clock c) (frame_idx c) (detections c) interval
                  reason self1) as (_ & _ & _ & _ & _ & _ & -> & _).
    pose proof (commit_frame_count (clock c) (frame_idx c) (detections c)
                  interval reason self1) as ->.
    by rewrite Htotal, Hcount.
Qed.

(** X20. [total_frames] is one more than the highest frame index seen, not
    the number of calls, and [_frame_count] is the index of the last call.
    After any session, whether its calls return or raise, [total_frames] is
    the larger of its value before the session and the highest frame index
    of the session plus one. *)
Theorem total_frames_is_highest_index {cv : CV2}
    (calls : list Call) (self : Sampler) :
  total_frames (metrics (session calls self).1) =
    highest_index (total_frames (metrics self)) calls /\
  _frame_count (session calls self).1 = last_index (_frame_count self) calls.
Proof.
  revert self. induction calls as [|c calls IH]; intros self; [done|].
  simpl. pose proof (evaluate_seen c self) as [Htotal Hcount].
  destruct (evaluate c self) as [self1 r]. simpl in Htotal, Hcount.
  specialize (IH self1).
  destruct (session calls self1) as [self2 rs]. simpl in *.
  unfold highest_index, last_index in *. simpl.
  by rewrite <- Htotal, <- Hcount.
Qed.

(** Four calls that go back and forth between the frames 2 and 7 count as 8
    frames. *)
Example scrubbing_counts_8_frames :
  let self := (session (cv := cv2_example) scrubbing_calls (__init__ None)).1 in
  (total_frames (metrics self), _frame_count self) = (8, 3).
Proof. vm_compute. reflexivity. Qed.

(** ** Detections per processed frame *)





(** The session of the witness: the frames 1 and 3 are processed, with two
    detections each. *)
Example crowded_session_efficiency :
  let m := metrics (session (cv := cv2_example) crowded_calls
                      (__init__ None)).1 in
  (frames_processed m, detection_count m) = (2, 4) /\
  (efficiency_score m == 2)%Q.
Proof. split; [vm_compute; reflexivity | vm_compute; reflexivity]. Qed.

(** ** The integration helper *)

Section IntegrationHelper.
Context {cv : CV2} {rnd : PyRound}.

Lemma integrate_with_detection_pipeline_eq clk idx frame prev_detections
    lock seek (self : Sampler) :
  integrate_with_detection_pipeline clk idx frame prev_detections lock seek
    self =
  match should_process_frame clk idx frame prev_detections lock seek self with
  | (self', Ok (b, label)) =>
      (self',
       Ok (b, label,
           {| td_should_process := b;
              td_reason := label;
              td_current_interval := current_interval (metrics self');
              td_processing_ratio :=
                round (Fin (processing_ratio (metrics self'))) 2;
              td_frames_processed := frames_processed (metrics self');
              td_frames_skipped := frames_skipped (metrics self');
              td_avg_motion_score := round (avg_motion_score (metrics self')) 4;
              td_efficiency_score :=
                round (Fin (efficiency_score (metrics self'))) 2 |}))
  | (self', Raise e) => (self', Raise e)
  end.
Proof.
  unfold integrate_with_detection_pipeline, get_metrics. rewrite bind_eq.
  destruct (should_process_frame _ _ _ _ _ _ _) as [self' [[b label]|e]];
    reflexivity.
Qed.
End IntegrationHelper.

(** X22. The integration helper reports the decision it returns.  It
    leaves the sampler as [should_process_frame] does and raises what that
    raises.  When it returns, the telemetry data repeat the decision and the
    label.  Without the seek flag the label can be rebuilt from the data
    and the metrics (the [last_reason] followed by the reported interval),
    and the reported processed and skipped frames add up to one more than
    before the call.  With the flag the reported interval and counters are
    those of before the call: the data say [should_process] although no
    frame is counted, and the interval is not the 1 of the seek. *)
Theorem integration_reports_the_decision {cv : CV2} {rnd : PyRound}
    (clk : Clock) (idx : Z) (image : Frame)
    (prev_detections : option (list Detection)) (lock seek : bool)
    (self : Sampler) :
  let r := should_process_frame clk idx image prev_detections lock seek self in
  let r' := integrate_with_detection_pipeline clk idx image prev_detections
              lock seek self in
  r'.1 = r.1 /\
  match r.2 with
  | Raise e => r'.2 = Raise e
  | Ok (b, label) =>
      exists data,
        r'.2 = Ok (b, label, data) /\
        td_should_process data = b /\
        td_reason data = label /\
        if seek then
          b = true /\
          td_current_interval data = current_interval (metrics self) /\
          td_frames_processed data = frames_processed (metrics self) /\
          td_frames_skipped data = frames_skipped (metrics self)
        else
          label =
            reason_str (last_reason (metrics r.1)) (td_current_interval data) /\
          td_frames_processed data + td_frames_skipped data = counted self + 1
  end.
Proof.
  intros r r'. subst r r'. rewrite integrate_with_detection_pipeline_eq.
  pose proof (should_process_frame_tells clk idx image prev_detections lock
                seek self) as Htells.
  destruct seek.
  - rewrite should_process_frame_seek. split; [reflexivity|].
    eexists. split; [reflexivity|]. cbn. repeat split.
  - pose proof (counted_once_without_seek clk idx image prev_detections lock
                  self) as Hcounted.
    destruct (should_process_frame _ _ _ _ _ _ _) as [self' [[b label]|e]];
      simpl in *; [|done].
    split; [reflexivity|]. eexists. split; [reflexivity|]. cbn.
    split; [reflexivity|]. split; [reflexivity|].
    destruct Htells as (e & _ & _ & _ & _ & _ & _ & _ & Hreason & _ & Hinterval
                        & Hlabel).
    split.
    + rewrite Hlabel, Hreason, Hinterval. reflexivity.
    + apply (Hcounted self' (b, label)). reflexivity.
Qed.

(** A seek call on a new sampler: the helper says the frame should be
    processed and reports the interval 2 of before the call. *)
Example integration_on_seek :
  reported
    (integrate_with_detection_pipeline (cv := cv2_example) (rnd := round_exact)
       (clock_at 1700000000) 0 still_frame (Some []) false true
       (__init__ None)).2 =
  Some (true, "User seek event"%string, 2).
Proof. vm_compute. reflexivity. Qed.

(** ** The interval of a reason *)

Section Pinned.
Context {cv : CV2}.

Lemma motion_stage_pinned frame d (self self' : Sampler) decision :
  motion_stage frame d DEFAULT self = (self', Ok decision) ->
  pinned (config self) decision.
Proof.
  unfold motion_stage. exec.
  destruct (enable_motion_detection (config self));
    [|exec; by intros [= <- <-]].
  rewrite bind_eq.
  destruct (_calculate_motion_score frame self) as [self1 [score|e]];
    [|discriminate].
  exec.
  repeat (match goal with
          | |- context [if ?b then _ else _] => destruct b
          end; exec);
    by intros [= <- <-].
Qed.

Lemma crowd_stage_pinned detections cfg decision (self self' : Sampler)
    decision' :
  config self = cfg ->
  pinned cfg decision ->
  crowd_stage detections decision.1 decision.2 self = (self', Ok decision') ->
  pinned cfg decision'.
Proof.
  intros <- Hpinned. destruct decision as [i r]. unfold crowd_stage. exec.
  destruct detections as [detections|]; [|exec; by intros [= <- <-]].
  destruct (enable_crowd_monitoring (config self)); exec;
    [|by intros [= <- <-]].
  destruct (0 <? _); exec; [|by intros [= <- <-]].
  destruct (Qlt_bool _ _); exec; intros [= <- <-]; [|done].
  unfold pinned. simpl. lia.
Qed.

Lemma id_stage_pinned detections cfg decision (self self' : Sampler)
    decision' :
  config self = cfg ->
  pinned cfg decision ->
  id_stage detections decision.1 decision.2 self = (self', Ok decision') ->
  pinned cfg decision'.
Proof.
  intros <- Hpinned. destruct decision as [i r]. unfold id_stage. exec.
  destruct detections as [detections|]; [|exec; by intros [= <- <-]].
  destruct (enable_id_tracking (config self)); exec;
    [|by intros [= <- <-]].
  destruct (_ && _); exec; [|by intros [= <- <-]].
  destruct (_ || _); exec; by intros [= <- <-].
Qed.

Lemma _calculate_adaptive_interval_pinned frame detections
    (self self' : Sampler) interval reason :
  _calculate_adaptive_interval frame detections self =
    (self', Ok (interval, reason)) ->
  (reason = MOTION_SPIKE \/ reason = ID_SWITCH ->
   interval = min_interval (config self)) /\
  (reason = CROWD_CHANGE ->
   min_interval (config self) <= interval <= min_interval (config self) + 1).
Proof.
  intros Hcall. unfold _calculate_adaptive_interval in Hcall.
  apply bind_Ok_inv in Hcall as (? & cfg & [= <- <-] & Hcall).
  apply bind_Ok_inv in Hcall as (self1 & [i1 r1] & Hmotion & Hcall).
  apply bind_Ok_inv in Hcall as (self2 & [i2 r2] & Hcrowd & Hcall).
  apply bind_Ok_inv in Hcall as (self3 & [i3 r3] & Hid & Hcall).
  pose proof (motion_stage_config frame (default_interval (config self))
                DEFAULT self) as H1.
  pose proof (crowd_stage_config detections i1 r1 self1) as H2.
  pose proof (id_stage_config detections i2 r2 self2) as H3.
  rewrite Hmotion in H1. rewrite Hcrowd in H2. rewrite Hid in H3.
  unfold unchanged in H1, H2, H3. simpl in H1, H2, H3.
  assert (Hconfig : config self3 = config self) by congruence.
  apply motion_stage_pinned in Hmotion.
  pose proof (crowd_stage_pinned detections (config self) (i1, r1) self1 self2
                (i2, r2) H1 Hmotion Hcrowd) as Hpinned2.
  assert (Hconfig2 : config self2 = config self) by congruence.
  pose proof (id_stage_pinned detections (config self) (i2, r2) self2 self3
                (i3, r3) Hconfig2 Hpinned2 Hid) as Hpinned3.
  revert Hcall. unfold stability_stage. exec. rewrite Hconfig.
  unfold pinned in Hpinned3. simpl in Hpinned3.
  destruct (_ <=? _); [destruct (bool_decide_reflect (r3 = DEFAULT))|];
    intros [= <- <- <-]; (split; [intros [? | ?] | intros ?]);
    subst; try discriminate; try congruence; lia.
Qed.
End Pinned.

(** X23. A stage that fires pins the interval.  When a returning adaptive
    calculation reports [MOTION_SPIKE] or [ID_SWITCH] the interval is
    [min_interval], whatever [max_interval] is; when it reports
    [CROWD_CHANGE] the interval is [min_interval] or [min_interval + 1]. *)
Theorem fired_reason_pins_interval {cv : CV2}
    (image : Frame) (detections : option (list Detection))
    (self self' : Sampler) (interval : Z) (reason : SamplingReason) :
  _calculate_adaptive_interval image detections self =
    (self', Ok (interval, reason)) ->
  (reason = MOTION_SPIKE \/ reason = ID_SWITCH ->
   interval = min_interval (config self)) /\
  (reason = CROWD_CHANGE ->
   min_interval (config self) <= interval <= min_interval (config self) + 1).
Proof. apply _calculate_adaptive_interval_pinned. Qed.

Lemma fired_reason_pins_interval_witness :
  let self := (evaluate (cv := cv2_example)
                 (plain_call 1700000000 0 still_frame) (__init__ None)).1 in
  (MOTION_SPIKE = MOTION_SPIKE \/ MOTION_SPIKE = ID_SWITCH ->
   1 = min_interval (config self)) /\
  (MOTION_SPIKE = CROWD_CHANGE ->
   min_interval (config self) <= 1 <= min_interval (config self) + 1).
Proof.
  intros self.
  apply (fired_reason_pins_interval (cv := cv2_example) white_frame None self
           (_calculate_adaptive_interval (cv := cv2_example) white_frame None
              self).1 1 MOTION_SPIKE).
  vm_compute. reflexivity.
Defined.
